(** * react-multi-captcha: script loaders and the Captcha component

    A shallow embedding of [src/loaders/googleLoader.ts],
    [src/loaders/cloudflareLoader.ts], [src/components/Captcha.tsx] and
    [src/types/index.ts], followed by the properties of the specification.

    The code is event driven, so it is embedded as handlers over an explicit
    state, one handler per callback or continuation of the source:

    - [Page] is the browser tab: clock, [window] globals, timer queue,
      promise store, the script elements of the document, and the module
      variables of the two loaders;
    - [World] adds one mounted [Captcha] instance (React state, refs, the
      closure of the live effect, suspended [async] continuations) and the
      trace of calls that leave the component ([onVerify], provider calls,
      [console.error]).

    What the source leaves to its environment is an event: a timer fires, a
    script element loads or fails, a provider promise settles, a Turnstile
    callback is invoked, the host calls [reset()] or unmounts. *)

From Stdlib Require Import ZArith List String Bool Lia PeanoNat.
Import ListNotations.
Open Scope string_scope.
Open Scope list_scope.
Open Scope Z_scope.

(** ** Types of [src/types/index.ts] *)

Inductive CaptchaProvider := GoogleV3 | CloudflareTurnstile.
Inductive CaptchaMode := Invisible | Checkbox.
Inductive CaptchaTheme := Light | Dark | Auto.

Definition provider_eqb (a b : CaptchaProvider) : bool :=
  match a, b with
  | GoogleV3, GoogleV3 | CloudflareTurnstile, CloudflareTurnstile => true
  | _, _ => false
  end.

(** ** The browser *)

(** [window.grecaptcha]: undefined, an object that has no [execute] yet, or
    the full API.  [window.turnstile] is only ever tested for truthiness.
    [faulty] is the environment's choice that provider calls throw. *)
Inductive Grecaptcha := GUndefined | GNoExecute | GReady.

Record Window := {
  grecaptcha : Grecaptcha;
  turnstile : bool;
  faulty : bool
}.

(** [new Error(message)] *)
Inductive JsError := Error (message : string).

Inductive PState :=
| Pending
| Fulfilled (v : string)
| Rejected (e : JsError).

(** Who holds the [resolve]/[reject] functions of a promise. *)
Inductive POwner := ByLoader | ByProvider.

Record PCell := { owner : POwner; pstate : PState }.

(** Suspended [async] code of the component, one constructor per [await].
    [g] identifies the effect closure the continuation belongs to. *)
Inductive Kont :=
| KInitAfterLoad (g : nat)     (* Captcha.tsx 102 / 126 *)
| KInitAfterSettle (g : nat)   (* Captcha.tsx 105 / 129 *)
| KInitGotToken (g : nat)      (* Captcha.tsx 108 *)
| KInitAutoExec (g : nat)      (* Captcha.tsx 166 *)
| KResetAutoExec               (* Captcha.tsx 51 *)
| KResetGotToken.              (* Captcha.tsx 63 *)

Inductive TimerAction :=
| CheckReady (p : CaptchaProvider) (pid : nat)
| LoadTimeout (p : CaptchaProvider) (pid cid : nat)
| InitCaptcha (capturedInit : bool)
| Resume (k : Kont).

Record Timer := {
  tid : nat;
  due : Z;
  period : option Z;
  act : TimerAction
}.

(** A script element; [handlers] are its [onload]/[onerror], present while
    the element has not yet fired either event. *)
Record Script := {
  src : string;
  handlers : option (CaptchaProvider * nat)
}.

(** Module-level variables of one loader file. *)
Record LoaderVars := {
  scriptLoaded : bool;
  scriptLoading : bool;
  loadPromise : option nat
}.

Definition loaderInit : LoaderVars :=
  {| scriptLoaded := false; scriptLoading := false; loadPromise := None |}.

Record Page := {
  now : Z;
  window : Window;
  timers : list Timer;
  next_tid : nat;
  promises : list PCell;
  scripts : list Script;
  gvars : LoaderVars;    (* googleLoader.ts *)
  cvars : LoaderVars     (* cloudflareLoader.ts *)
}.

Definition set_now (t : Z) (b : Page) : Page :=
  {| now := t; window := window b; timers := timers b; next_tid := next_tid b;
     promises := promises b; scripts := scripts b; gvars := gvars b; cvars := cvars b |}.
Definition set_window (w : Window) (b : Page) : Page :=
  {| now := now b; window := w; timers := timers b; next_tid := next_tid b;
     promises := promises b; scripts := scripts b; gvars := gvars b; cvars := cvars b |}.
Definition set_timers (ts : list Timer) (b : Page) : Page :=
  {| now := now b; window := window b; timers := ts; next_tid := next_tid b;
     promises := promises b; scripts := scripts b; gvars := gvars b; cvars := cvars b |}.
Definition set_next_tid (n : nat) (b : Page) : Page :=
  {| now := now b; window := window b; timers := timers b; next_tid := n;
     promises := promises b; scripts := scripts b; gvars := gvars b; cvars := cvars b |}.
Definition set_promises (ps : list PCell) (b : Page) : Page :=
  {| now := now b; window := window b; timers := timers b; next_tid := next_tid b;
     promises := ps; scripts := scripts b; gvars := gvars b; cvars := cvars b |}.
Definition set_scripts (ss : list Script) (b : Page) : Page :=
  {| now := now b; window := window b; timers := timers b; next_tid := next_tid b;
     promises := promises b; scripts := ss; gvars := gvars b; cvars := cvars b |}.

Definition vars (p : CaptchaProvider) (b : Page) : LoaderVars :=
  match p with GoogleV3 => gvars b | CloudflareTurnstile => cvars b end.

Definition set_vars (p : CaptchaProvider) (v : LoaderVars) (b : Page) : Page :=
  match p with
  | GoogleV3 =>
    {| now := now b; window := window b; timers := timers b; next_tid := next_tid b;
       promises := promises b; scripts := scripts b; gvars := v; cvars := cvars b |}
  | CloudflareTurnstile =>
    {| now := now b; window := window b; timers := timers b; next_tid := next_tid b;
       promises := promises b; scripts := scripts b; gvars := gvars b; cvars := v |}
  end.

(** *** Lists updated by index *)

Fixpoint list_set {A : Type} (i : nat) (x : A) (l : list A) : list A :=
  match l, i with
  | [], _ => []
  | _ :: t, O => x :: t
  | h :: t, S j => h :: list_set j x t
  end.

(** *** Promises *)

Definition promise_state (pid : nat) (b : Page) : option PState :=
  option_map pstate (nth_error (promises b) pid).

(** [new Promise(...)]: a fresh cell; its identity is its index. *)
Definition new_promise (o : POwner) (s : PState) (b : Page) : nat * Page :=
  (List.length (promises b),
   set_promises (promises b ++ [{| owner := o; pstate := s |}]) b).

(** [resolve()] and [reject(e)] settle a promise once; later calls on a
    settled promise do nothing. *)
Definition settle (pid : nat) (s : PState) (b : Page) : Page :=
  match nth_error (promises b) pid with
  | Some {| owner := o; pstate := Pending |} =>
      set_promises (list_set pid {| owner := o; pstate := s |} (promises b)) b
  | _ => b
  end.

Definition resolve (pid : nat) (b : Page) : Page := settle pid (Fulfilled "") b.
Definition reject (pid : nat) (e : JsError) (b : Page) : Page := settle pid (Rejected e) b.

(** *** Timers *)

Definition add_timer (delay : Z) (per : option Z) (a : TimerAction) (b : Page)
  : nat * Page :=
  let t := {| tid := next_tid b; due := now b + delay; period := per; act := a |} in
  (next_tid b, set_next_tid (S (next_tid b)) (set_timers (timers b ++ [t]) b)).

Definition setTimeout (a : TimerAction) (delay : Z) (b : Page) : nat * Page :=
  add_timer delay None a b.
Definition setInterval (a : TimerAction) (delay : Z) (b : Page) : nat * Page :=
  add_timer delay (Some delay) a b.

(** [clearTimeout] and [clearInterval] *)
Definition clearTimer (id : nat) (b : Page) : Page :=
  set_timers (filter (fun t => negb (Nat.eqb (tid t) id)) (timers b)) b.

(** The timer that fires next: the earliest [due]; among equal ones the one
    registered first. *)
Fixpoint next_timer (ts : list Timer) : option Timer :=
  match ts with
  | [] => None
  | t :: rest =>
      match next_timer rest with
      | Some u => if due u <? due t then Some u else Some t
      | None => Some t
      end
  end.

(** Firing a timer moves the clock to its due time; a timeout leaves the
    queue, an interval is re-armed one period later. *)
Definition rearm (t : Timer) (ts : list Timer) : list Timer :=
  match period t with
  | None => filter (fun u => negb (Nat.eqb (tid u) (tid t))) ts
  | Some d =>
      map (fun u => if Nat.eqb (tid u) (tid t)
                    then {| tid := tid u; due := due u + d; period := period u; act := act u |}
                    else u) ts
  end.

Definition pop_timer (b : Page) : option (Timer * Page) :=
  match next_timer (timers b) with
  | None => None
  | Some t => Some (t, set_now (Z.max (now b) (due t)) (set_timers (rearm t (timers b)) b))
  end.

(** Time passing without any timer firing: the clock never moves past a
    pending timer. *)
Definition advance (dt : Z) (b : Page) : Page :=
  let target := now b + Z.max 0 dt in
  match next_timer (timers b) with
  | None => set_now target b
  | Some t => set_now (Z.max (now b) (Z.min target (due t))) b
  end.

(** ** The loaders *)

(** [(window as any).grecaptcha] / [(window as any).turnstile] as a condition *)
Definition api_truthy (p : CaptchaProvider) (w : Window) : bool :=
  match p with
  | GoogleV3 => match grecaptcha w with GUndefined => false | _ => true end
  | CloudflareTurnstile => turnstile w
  end.

(** The readiness test of the executor and of the poll:
    [grecaptcha && grecaptcha.execute] for Google (googleLoader.ts 31-34, 51-54),
    [turnstile] alone for Cloudflare (cloudflareLoader.ts 30, 48). *)
Definition api_ready (p : CaptchaProvider) (w : Window) : bool :=
  match p with
  | GoogleV3 => match grecaptcha w with GReady => true | _ => false end
  | CloudflareTurnstile => turnstile w
  end.

Definition script_src (p : CaptchaProvider) (siteKey : string) : string :=
  match p with
  | GoogleV3 => String.append "https://www.google.com/recaptcha/api.js?render=" siteKey
  | CloudflareTurnstile => "https://challenges.cloudflare.com/turnstile/v0/api.js"
  end.

Definition selector_needle (p : CaptchaProvider) : string :=
  match p with
  | GoogleV3 => "google.com/recaptcha"
  | CloudflareTurnstile => "challenges.cloudflare.com/turnstile"
  end.

Definition timeout_error (p : CaptchaProvider) : JsError :=
  match p with
  | GoogleV3 => Error "Google reCAPTCHA failed to load"
  | CloudflareTurnstile => Error "Cloudflare Turnstile failed to load"
  end.

Definition fetch_error (p : CaptchaProvider) : JsError :=
  match p with
  | GoogleV3 => Error "Failed to load Google reCAPTCHA script"
  | CloudflareTurnstile => Error "Failed to load Cloudflare Turnstile script"
  end.

(** [needle] occurs in [s]: the attribute selector [src*="needle"] *)
Fixpoint contains (needle s : string) : bool :=
  String.prefix needle s
  || match s with
     | EmptyString => false
     | String _ rest => contains needle rest
     end.

(** [document.querySelector('script[src*="..."]')] as a condition *)
Definition querySelector (p : CaptchaProvider) (ss : list Script) : bool :=
  existsb (fun s => contains (selector_needle p) (src s)) ss.

Definition appendChild (s : Script) (b : Page) : Page :=
  set_scripts (scripts b ++ [s]) b.

(** [Promise.resolve()] *)
Definition promise_resolved (b : Page) : nat * Page :=
  new_promise ByLoader (Fulfilled "") b.

(** [loadGoogleScript(siteKey)] (googleLoader.ts 6-81) and
    [loadCloudflareScript()] (cloudflareLoader.ts 5-79), which differ in the
    API tests, the URL, the selector and the messages only. *)
Definition loadScript (p : CaptchaProvider) (siteKey : string) (b : Page)
  : nat * Page :=
  let v := vars p b in
  if scriptLoaded v && api_truthy p (window b) then
    promise_resolved b
  else
    match scriptLoading v, loadPromise v with
    | true, Some pid => (pid, b)
    | _, _ =>
      if querySelector p (scripts b) && api_truthy p (window b) then
        let '(pid, b1) := promise_resolved b in
        (pid, set_vars p {| scriptLoaded := true;
                            scriptLoading := scriptLoading v;
                            loadPromise := loadPromise v |} b1)
      else if api_ready p (window b) then
        (* the executor resolves at once *)
        let '(pid, b1) := new_promise ByLoader (Fulfilled "") b in
        (pid, set_vars p {| scriptLoaded := true;
                            scriptLoading := false;
                            loadPromise := Some pid |} b1)
      else
        let '(pid, b1) := new_promise ByLoader Pending b in
        let script := {| src := script_src p siteKey; handlers := Some (p, pid) |} in
        (pid, set_vars p {| scriptLoaded := scriptLoaded v;
                            scriptLoading := true;
                            loadPromise := Some pid |} (appendChild script b1))
    end.

Definition loadGoogleScript (siteKey : string) (b : Page) : nat * Page :=
  loadScript GoogleV3 siteKey b.

Definition loadCloudflareScript (b : Page) : nat * Page :=
  loadScript CloudflareTurnstile "" b.

(** [resetGoogleScript()] / [resetCloudflareScript()] *)
Definition resetScript (p : CaptchaProvider) (b : Page) : Page :=
  set_vars p loaderInit b.

Definition resetGoogleScript (b : Page) : Page := resetScript GoogleV3 b.
Definition resetCloudflareScript (b : Page) : Page := resetScript CloudflareTurnstile b.

(** [script.onload] *)
Definition script_onload (p : CaptchaProvider) (pid : nat) (b : Page) : Page :=
  let v := vars p b in
  let b1 := set_vars p {| scriptLoaded := true; scriptLoading := false;
                          loadPromise := loadPromise v |} b in
  let '(checkReady, b2) := setInterval (CheckReady p pid) 100 b1 in
  snd (setTimeout (LoadTimeout p pid checkReady) 10000 b2).

(** [script.onerror] *)
Definition script_onerror (p : CaptchaProvider) (pid : nat) (b : Page) : Page :=
  let v := vars p b in
  let b1 := set_vars p {| scriptLoaded := scriptLoaded v; scriptLoading := false;
                          loadPromise := None |} b in
  reject pid (fetch_error p) b1.

(** The body of the [setInterval] callback; [self] is [checkReady]. *)
Definition checkReady_tick (p : CaptchaProvider) (pid self : nat) (b : Page) : Page :=
  if api_ready p (window b) then resolve pid (clearTimer self b) else b.

(** The body of the 10 s [setTimeout] callback. *)
Definition loadTimeout_fire (p : CaptchaProvider) (pid cid : nat) (b : Page) : Page :=
  let b1 := clearTimer cid b in
  if api_truthy p (window b1) then resolve pid b1
  else reject pid (timeout_error p) b1.

(** The [load] or [error] event of the [i]-th script element of the
    document.  An element fires one of them, once. *)
Definition script_event (ok : bool) (i : nat) (b : Page) : Page :=
  match nth_error (scripts b) i with
  | Some {| src := u; handlers := Some (p, pid) |} =>
      let b1 := set_scripts (list_set i {| src := u; handlers := None |} (scripts b)) b in
      if ok then script_onload p pid b1 else script_onerror p pid b1
  | _ => b
  end.

Definition run_loader_action (t : Timer) (b : Page) : Page :=
  match act t with
  | CheckReady p pid => checkReady_tick p pid (tid t) b
  | LoadTimeout p pid cid => loadTimeout_fire p pid cid b
  | _ => b
  end.

(** *** The loaders on their own: any number of callers *)

Inductive LEvent :=
| LLoad (p : CaptchaProvider) (siteKey : string)  (* some caller invokes the loader *)
| LScriptLoad (i : nat)
| LScriptError (i : nat)
| LTimer                                         (* the next timer fires *)
| LAdvance (dt : Z)
| LWindow (w : Window).                          (* the globals change *)

(** A loader run: the page and the promises handed to the callers, in call
    order. *)
Record LState := { lpage : Page; returned : list nat }.

Definition lstep (ev : LEvent) (s : LState) : LState :=
  match ev with
  | LLoad p k =>
      let '(pid, b) := loadScript p k (lpage s) in
      {| lpage := b; returned := returned s ++ [pid] |}
  | LScriptLoad i => {| lpage := script_event true i (lpage s); returned := returned s |}
  | LScriptError i => {| lpage := script_event false i (lpage s); returned := returned s |}
  | LTimer =>
      match pop_timer (lpage s) with
      | Some (t, b) => {| lpage := run_loader_action t b; returned := returned s |}
      | None => s
      end
  | LAdvance dt => {| lpage := advance dt (lpage s); returned := returned s |}
  | LWindow w => {| lpage := set_window w (lpage s); returned := returned s |}
  end.

Definition lrun (evs : list LEvent) (s : LState) : LState :=
  fold_left (fun acc ev => lstep ev acc) evs s.

(** A freshly loaded page: no timers, no promises, no script elements,
    loader modules just evaluated. *)
Definition fresh_page (w : Window) : Page :=
  {| now := 0; window := w; timers := []; next_tid := 0; promises := [];
     scripts := []; gvars := loaderInit; cvars := loaderInit |}.

Definition lfresh (w : Window) : LState :=
  {| lpage := fresh_page w; returned := [] |}.

Definition no_api : Window :=
  {| grecaptcha := GUndefined; turnstile := false; faulty := false |}.


(** ** The Captcha component *)

(** The component runs inside React and the browser's event loop.  What the
    embedding takes from them:
    - the host passes the same props, the same [onVerify] included, on every
      render, so [isInitialized] is the only dependency of the effect that
      can change;
    - a state update re-renders before the next event; when the committed
      [isInitialized] differs from the one last rendered, the cleanup of the
      previous effect runs, then the effect runs again with the new value in
      its closure; an update to the value already rendered runs no effect,
      and an update of an unmounted component is dropped;
    - one event is one task: its synchronous code, then every continuation
      whose awaited promise is settled, then the commit;
    - timers fire in the order of their due times. *)

(** [CaptchaProps] after the defaults of the parameter list have been
    applied.  The host's [onVerify] is an opaque callback: each call is
    recorded in the trace, and [onVerifyOk token] tells whether the call
    returns normally ([false]: it throws). *)
Record CaptchaProps := {
  provider : CaptchaProvider;
  siteKey : string;
  action : string;
  mode : CaptchaMode;
  theme : CaptchaTheme;
  skip : bool;
  onVerifyOk : string -> bool
}.

(** The props as the host writes them, and the defaults of Captcha.tsx 16-22. *)
Record HostProps := {
  h_provider : CaptchaProvider;
  h_siteKey : string;
  h_action : option string;
  h_mode : option CaptchaMode;
  h_theme : option CaptchaTheme;
  h_skip : option bool;
  h_onVerifyOk : string -> bool
}.

Definition or_default {A : Type} (o : option A) (d : A) : A :=
  match o with Some a => a | None => d end.

Definition destructure (h : HostProps) : CaptchaProps :=
  {| provider := h_provider h;
     siteKey := h_siteKey h;
     action := or_default (h_action h) "default";
     mode := or_default (h_mode h) Invisible;
     theme := or_default (h_theme h) Light;
     skip := or_default (h_skip h) false;
     onVerifyOk := h_onVerifyOk h |}.

(** The members of the two handle interfaces of [src/types/index.ts]. *)
Definition CaptchaHandle_members : list string := ["execute"; "reset"].
Definition CaptchaRef_members : list string := ["reset"].

(** What leaves the component. *)
Inductive Obs :=
| OnVerify (token : string)
| SetIsInitialized (b : bool)
| GrecaptchaExecute (key act : string)
| TurnstileRender (key : string) (th : CaptchaTheme) (size : CaptchaMode)
| TurnstileExecute (wid : option nat)
| TurnstileReset (wid : nat)
| TurnstileRemove (wid : nat)
| ConsoleError (msg : string).

(** One instance of the component.
    - [isInitialized] is the [useState] cell, [renderedInit] the value the
      last committed render saw (the one in the dependency list of the
      effect and captured by its closure);
    - [effLive] is the closure of the effect run whose cleanup has not run
      yet, named by its [timeoutId]: [isMounted] of closure [g] is [true]
      exactly while [effLive = Some g];
    - [waiters] are the continuations suspended on a promise;
    - [widgets] lists the rendered Turnstile widgets by the closure their
      callbacks belong to; a widget identifier is an index in this list. *)
Record Comp := {
  mounted : bool;
  isInitialized : bool;
  renderedInit : bool;
  widgetIdRef : option nat;
  effLive : option nat;
  waiters : list (nat * Kont);
  widgets : list nat
}.

Record World := {
  page : Page;
  comp : Comp;
  trace : list Obs;
  uncaught : list JsError
}.

Definition set_page (b : Page) (w : World) : World :=
  {| page := b; comp := comp w; trace := trace w; uncaught := uncaught w |}.
Definition set_comp (c : Comp) (w : World) : World :=
  {| page := page w; comp := c; trace := trace w; uncaught := uncaught w |}.
Definition log (o : Obs) (w : World) : World :=
  {| page := page w; comp := comp w; trace := trace w ++ [o]; uncaught := uncaught w |}.
Definition escape (e : JsError) (w : World) : World :=
  {| page := page w; comp := comp w; trace := trace w; uncaught := uncaught w ++ [e] |}.

Definition set_mounted (x : bool) (c : Comp) : Comp :=
  {| mounted := x; isInitialized := isInitialized c; renderedInit := renderedInit c;
     widgetIdRef := widgetIdRef c; effLive := effLive c; waiters := waiters c;
     widgets := widgets c |}.
Definition set_isInitialized (x : bool) (c : Comp) : Comp :=
  {| mounted := mounted c; isInitialized := x; renderedInit := renderedInit c;
     widgetIdRef := widgetIdRef c; effLive := effLive c; waiters := waiters c;
     widgets := widgets c |}.
Definition set_renderedInit (x : bool) (c : Comp) : Comp :=
  {| mounted := mounted c; isInitialized := isInitialized c; renderedInit := x;
     widgetIdRef := widgetIdRef c; effLive := effLive c; waiters := waiters c;
     widgets := widgets c |}.
Definition set_widgetIdRef (x : option nat) (c : Comp) : Comp :=
  {| mounted := mounted c; isInitialized := isInitialized c; renderedInit := renderedInit c;
     widgetIdRef := x; effLive := effLive c; waiters := waiters c;
     widgets := widgets c |}.
Definition set_effLive (x : option nat) (c : Comp) : Comp :=
  {| mounted := mounted c; isInitialized := isInitialized c; renderedInit := renderedInit c;
     widgetIdRef := widgetIdRef c; effLive := x; waiters := waiters c;
     widgets := widgets c |}.
Definition set_waiters (x : list (nat * Kont)) (c : Comp) : Comp :=
  {| mounted := mounted c; isInitialized := isInitialized c; renderedInit := renderedInit c;
     widgetIdRef := widgetIdRef c; effLive := effLive c; waiters := x;
     widgets := widgets c |}.
Definition set_widgets (x : list nat) (c : Comp) : Comp :=
  {| mounted := mounted c; isInitialized := isInitialized c; renderedInit := renderedInit c;
     widgetIdRef := widgetIdRef c; effLive := effLive c; waiters := waiters c;
     widgets := x |}.

Definition upd_comp (f : Comp -> Comp) (w : World) : World := set_comp (f (comp w)) w.

(** *** Exceptions *)

(** A piece of code either runs to its end (or to an [await]) or throws. *)
Inductive Res :=
| Ok (w : World)
| Throw (e : JsError) (w : World).

Definition bind (r : Res) (k : World -> Res) : Res :=
  match r with Ok w => k w | Throw e w => Throw e w end.

Notation "r >>= k" := (bind r k) (at level 50, left associativity).

(** [try { body } catch (err) { handler }] *)
Definition try_catch (body : Res) (handler : JsError -> World -> World) : Res :=
  match body with Ok w => Ok w | Throw e w => Ok (handler e w) end.

(** A task of the event loop: what it throws and nobody catches escapes. *)
Definition task (r : Res) : World :=
  match r with Ok w => w | Throw e w => escape e w end.

Definition console_error (msg : string) (_ : JsError) (w : World) : World :=
  log (ConsoleError msg) w.

(** *** Suspension *)

(** [await p]: the rest of the function waits for [p]. *)
Definition await (pid : nat) (k : Kont) (w : World) : World :=
  upd_comp (fun c => set_waiters (waiters c ++ [(pid, k)]) c) w.

(** [await new Promise((r) => setTimeout(r, ms))] *)
Definition sleep (ms : Z) (k : Kont) (w : World) : World :=
  set_page (snd (setTimeout (Resume k) ms (page w))) w.

(** *** Provider calls *)

Definition typeError : JsError := Error "TypeError".
Definition providerError : JsError := Error "provider error".

(** [(window as any).grecaptcha.execute(siteKey, { action })], awaited *)
Definition grecaptcha_execute (key act : string) (k : Kont) (w : World) : Res :=
  match grecaptcha (window (page w)) with
  | GReady =>
      let w1 := log (GrecaptchaExecute key act) w in
      if faulty (window (page w)) then Throw providerError w1
      else let '(pid, b) := new_promise ByProvider Pending (page w1) in
           Ok (await pid k (set_page b w1))
  | _ => Throw typeError w
  end.

(** A method of [(window as any).turnstile] *)
Definition turnstile_call (o : Obs) (w : World) : Res :=
  if turnstile (window (page w)) then
    let w1 := log o w in
    if faulty (window (page w)) then Throw providerError w1 else Ok w1
  else Throw typeError w.

Section Component.

Variable props : CaptchaProps.

(** The JSX the component returns (Captcha.tsx 213-233): [None] is [null],
    otherwise the container [div] with its [minHeight]. *)
Definition render : option string :=
  if skip props then None
  else match provider props with
       | CloudflareTurnstile =>
           Some (match mode props with Checkbox => "65px" | Invisible => "0px" end)
       | GoogleV3 => None
       end.

(** [widgetRef.current]: React attaches the [div] while the component is
    mounted and has rendered one. *)
Definition widgetRef_current (w : World) : bool :=
  mounted (comp w) && match render with Some _ => true | None => false end.

(** [setIsInitialized(b)]; React drops updates of an unmounted component. *)
Definition setIsInitialized (b : bool) (w : World) : World :=
  let w1 := log (SetIsInitialized b) w in
  if mounted (comp w1) then upd_comp (set_isInitialized b) w1 else w1.

Definition onVerify (token : string) (w : World) : Res :=
  let w1 := log (OnVerify token) w in
  if onVerifyOk props token then Ok w1 else Throw (Error "onVerify threw") w1.

Definition isMounted (g : nat) (w : World) : bool :=
  match effLive (comp w) with Some g' => Nat.eqb g g' | None => false end.

(** The [catch] of [initCaptcha] (Captcha.tsx 175-177). *)
Definition init_try (body : Res) : Res :=
  try_catch body (console_error "Captcha initialization failed:").

(** [initCaptcha()] up to its first [await] (Captcha.tsx 84-102, 125-126).
    [g] is the closure, [capturedInit] the [isInitialized] it captured. *)
Definition initCaptcha (g : nat) (capturedInit : bool) (w : World) : Res :=
  if skip props then
    onVerify "skipped" w >>= fun w1 => Ok (setIsInitialized true w1)
  else if capturedInit then Ok w
  else
    init_try
      (match provider props with
       | GoogleV3 =>
           let '(pid, b) := loadGoogleScript (siteKey props) (page w) in
           Ok (await pid (KInitAfterLoad g) (set_page b w))
       | CloudflareTurnstile =>
           let '(pid, b) := loadCloudflareScript (page w) in
           Ok (await pid (KInitAfterLoad g) (set_page b w))
       end).

(** The options object of [turnstile.render] (Captcha.tsx 137-162); the
    three callbacks are the closure [g]. *)
Definition turnstile_render (g : nat) (w : World) : Res :=
  turnstile_call (TurnstileRender (siteKey props) (theme props) (mode props)) w
  >>= fun w1 =>
    let wid := List.length (widgets (comp w1)) in
    Ok (upd_comp (fun c => set_widgetIdRef (Some wid) (set_widgets (widgets c ++ [g]) c)) w1).

(** Captcha.tsx 107-119 (Google) and 131-173 (Cloudflare): what follows the
    500 ms settle delay. *)
Definition init_after_settle (g : nat) (w : World) : Res :=
  match provider props with
  | GoogleV3 =>
      match grecaptcha (window (page w)) with
      | GReady => grecaptcha_execute (siteKey props) (action props) (KInitGotToken g) w
      | _ => Ok (log (ConsoleError "grecaptcha.execute not available") w)
      end
  | CloudflareTurnstile =>
      if negb (turnstile (window (page w))) then
        Ok (log (ConsoleError "Cloudflare Turnstile not loaded") w)
      else
        match widgetRef_current w, widgetIdRef (comp w) with
        | true, None =>
            turnstile_render g w >>= fun w1 =>
            match mode props with
            | Invisible => Ok (sleep 500 (KInitAutoExec g) w1)
            | Checkbox => Ok w1
            end
        | _, _ => Ok w
        end
  end.

(** The [catch] blocks of [reset()] (Captcha.tsx 54-56, 70-75). *)
Definition reset_cf_try (body : Res) : Res :=
  try_catch body (console_error " Failed to reset Turnstile:").
Definition reset_google_try (body : Res) : Res :=
  try_catch body (console_error "Failed to reset Google reCAPTCHA v3:").

(** A continuation resumes with the outcome of what it awaited. *)
Definition resume (k : Kont) (outcome : PState) (w : World) : Res :=
  match k with
  | KInitAfterLoad g =>
      init_try
        (match outcome with
         | Rejected e => Throw e w
         | _ => if negb (isMounted g w) then Ok w
                else Ok (sleep 500 (KInitAfterSettle g) w)
         end)
  | KInitAfterSettle g => init_try (init_after_settle g w)
  | KInitGotToken g =>
      init_try
        (match outcome with
         | Fulfilled token =>
             if isMounted g w then onVerify token (setIsInitialized true w) else Ok w
         | Rejected e => Throw e w
         | Pending => Ok w
         end)
  | KInitAutoExec g =>
      init_try
        (try_catch (turnstile_call (TurnstileExecute (widgetIdRef (comp w))) w)
                   (console_error " Failed to execute invisible Turnstile:"))
  | KResetAutoExec =>
      reset_cf_try (turnstile_call (TurnstileExecute (widgetIdRef (comp w))) w)
  | KResetGotToken =>
      reset_google_try
        (match outcome with
         | Fulfilled token => onVerify token (setIsInitialized true w)
         | Rejected e => Throw e w
         | Pending => Ok w
         end)
  end.

(** [reset()] of the imperative handle, up to its first [await]
    (Captcha.tsx 34-77).  The two provider blocks exclude each other. *)
Definition reset (w : World) : Res :=
  if skip props then Ok w
  else
    let w1 := setIsInitialized false w in
    match provider props with
    | CloudflareTurnstile =>
        match widgetIdRef (comp w1), turnstile (window (page w1)) with
        | Some wid, true =>
            reset_cf_try
              (turnstile_call (TurnstileReset wid) w1 >>= fun w2 =>
               match mode props with
               | Invisible => Ok (sleep 100 KResetAutoExec w2)
               | Checkbox => Ok w2
               end)
        | _, _ => Ok w1
        end
    | GoogleV3 =>
        reset_google_try
          (match grecaptcha (window (page w1)) with
           | GReady => grecaptcha_execute (siteKey props) (action props) KResetGotToken w1
           | _ => Ok w1
           end)
    end.

(** The callbacks handed to [turnstile.render] (Captcha.tsx 147-160). *)
Definition ts_callback (g : nat) (token : string) (w : World) : Res :=
  if negb (isMounted g w) then Ok w
  else onVerify token (setIsInitialized true w).

Definition ts_expired_callback (w : World) : Res :=
  Ok (setIsInitialized false w).

Definition ts_error_callback (w : World) : Res :=
  Ok (setIsInitialized false (log (ConsoleError " Turnstile error:") w)).

(** The effect (Captcha.tsx 80-180): it only arms the 100 ms timer. *)
Definition run_effect (w : World) : World :=
  let '(timeoutId, b) :=
    setTimeout (InitCaptcha (renderedInit (comp w))) 100 (page w) in
  upd_comp (set_effLive (Some timeoutId)) (set_page b w).

(** Its cleanup (Captcha.tsx 182-201). *)
Definition cleanup (w : World) : World :=
  match effLive (comp w) with
  | None => w
  | Some timeoutId =>
      let w1 := upd_comp (set_effLive None) w in
      let w2 := set_page (clearTimer timeoutId (page w1)) w1 in
      match provider props, widgetIdRef (comp w2), turnstile (window (page w2)) with
      | CloudflareTurnstile, Some wid, true =>
          task (try_catch
                  (turnstile_call (TurnstileRemove wid) w2 >>= fun w3 =>
                   Ok (upd_comp (set_widgetIdRef None) w3))
                  (console_error "Failed to remove Turnstile widget:"))
      | _, _, _ => w2
      end
  end.

(** React commits a render when the state differs from the one last
    rendered; [isInitialized] is then the one dependency of the effect that
    changed, so the old cleanup runs and the effect runs again. *)
Definition flush (w : World) : World :=
  if mounted (comp w) && negb (Bool.eqb (isInitialized (comp w)) (renderedInit (comp w)))
  then run_effect (cleanup (upd_comp (set_renderedInit (isInitialized (comp w))) w))
  else w.

(** The microtask checkpoint: continuations whose promise has settled run,
    in the order they were suspended. *)
Fixpoint drain_from (ws : list (nat * Kont)) (w : World) : World :=
  match ws with
  | [] => w
  | (pid, k) :: rest =>
      match promise_state pid (page w) with
      | Some (Fulfilled v) => drain_from rest (task (resume k (Fulfilled v) w))
      | Some (Rejected e) => drain_from rest (task (resume k (Rejected e) w))
      | _ => drain_from rest (await pid k w)
      end
  end.

Definition drain (w : World) : World :=
  drain_from (waiters (comp w)) (upd_comp (set_waiters []) w).

(** *** Events *)

Inductive Event :=
| EvTimer                                   (* the next timer fires *)
| EvAdvance (dt : Z)
| EvWindow (win : Window)                   (* the globals change *)
| EvScriptLoad (i : nat)
| EvScriptError (i : nat)
| EvSettle (pid : nat) (r : option string)  (* a provider promise settles *)
| EvTsSuccess (wid : nat) (token : string)  (* Turnstile invokes a callback *)
| EvTsExpired (wid : nat)
| EvTsError (wid : nat)
| EvReset                                   (* the host calls reset() of the handle *)
| EvUnmount.

Definition provider_settle (pid : nat) (r : option string) (b : Page) : Page :=
  match nth_error (promises b) pid with
  | Some {| owner := ByProvider; pstate := Pending |} =>
      settle pid (match r with
                  | Some token => Fulfilled token
                  | None => Rejected providerError
                  end) b
  | _ => b
  end.

Definition unmount (w : World) : World :=
  if mounted (comp w) then upd_comp (set_mounted false) (cleanup w) else w.

Definition handle (ev : Event) (w : World) : World :=
  match ev with
  | EvTimer =>
      match pop_timer (page w) with
      | None => w
      | Some (t, b) =>
          let w1 := set_page b w in
          match act t with
          | InitCaptcha c => task (initCaptcha (tid t) c w1)
          | Resume k => task (resume k (Fulfilled "") w1)
          | _ => set_page (run_loader_action t b) w
          end
      end
  | EvAdvance dt => set_page (advance dt (page w)) w
  | EvWindow win => set_page (set_window win (page w)) w
  | EvScriptLoad i => set_page (script_event true i (page w)) w
  | EvScriptError i => set_page (script_event false i (page w)) w
  | EvSettle pid r => set_page (provider_settle pid r (page w)) w
  | EvTsSuccess wid token =>
      match nth_error (widgets (comp w)) wid with
      | Some g => task (ts_callback g token w)
      | None => w
      end
  | EvTsExpired wid =>
      match nth_error (widgets (comp w)) wid with
      | Some _ => task (ts_expired_callback w)
      | None => w
      end
  | EvTsError wid =>
      match nth_error (widgets (comp w)) wid with
      | Some _ => task (ts_error_callback w)
      | None => w
      end
  | EvReset => task (reset w)
  | EvUnmount => unmount w
  end.

(** One turn of the event loop: the handler, the continuations it made
    ready, then React's commit. *)
Definition step (ev : Event) (w : World) : World :=
  flush (drain (handle ev w)).

Definition run (evs : list Event) (w : World) : World :=
  fold_left (fun acc ev => step ev acc) evs w.

(** Mounting: the first render and the first run of the effect. *)
Definition mount (b : Page) : World :=
  run_effect
    {| page := b;
       comp := {| mounted := true; isInitialized := false; renderedInit := false;
                  widgetIdRef := None; effLive := None; waiters := [];
                  widgets := [] |};
       trace := []; uncaught := [] |}.

(** The object built by [useImperativeHandle] (Captcha.tsx 33-78): its
    members by name, each with the event a call amounts to.  [reset] has no
    test of its own for the component being mounted: a host that has kept
    the object can call it at any time, which is the event [EvReset]. *)
Definition imperativeHandle : list (string * Event) := [("reset", EvReset)].

Definition handle_member (name : string) : option Event :=
  option_map snd (find (fun kv => String.eqb (fst kv) name) imperativeHandle).

(** [ref.current]: React attaches the handle while the component is mounted
    and sets the ref to [null] when it unmounts. *)
Definition ref_current (w : World) : option (list (string * Event)) :=
  if mounted (comp w) then Some imperativeHandle else None.

(** [ref.current.name()]: [None] is the TypeError of reading a member of
    [null] or of calling what is not a function. *)
Definition call_handle (name : string) (w : World) : option World :=
  match ref_current w with
  | Some h =>
      option_map (fun kv => step (snd kv) w)
        (find (fun kv => String.eqb (fst kv) name) h)
  | None => None
  end.

End Component.

(** * Vocabulary of the statements *)

Definition pending_cell : PCell := {| owner := ByLoader; pstate := Pending |}.

(** The run every statement below starts from: a first [load()] on a fresh
    page, then the [load] event of the script element it inserted. *)
Definition after_onload (p : CaptchaProvider) (key : string) (w : Window) : LState :=
  lrun [LLoad p key; LScriptLoad 0] (lfresh w).

(** Events of a loader run that are timer firings. *)
Definition is_timer (ev : LEvent) : bool :=
  match ev with LTimer => true | _ => false end.

(** Number of timer firings in a run. *)
Definition firings (evs : list LEvent) : nat := List.length (filter is_timer evs).

(** An environment in which the global stays unready for a whole run:
    [allowed] holds of every [window] the run sees; on [allowed] windows the
    readiness test fails and the truthiness of the global is the constant
    [truthy]. *)
Definition unready_env (p : CaptchaProvider) (allowed : Window -> bool) (truthy : bool)
  : Prop :=
  (forall w, allowed w = true -> api_ready p w = false) /\
  (forall w, allowed w = true -> api_truthy p w = truthy).

Definition waiting_event (allowed : Window -> bool) (ev : LEvent) : bool :=
  match ev with
  | LTimer | LAdvance _ => true
  | LWindow w => allowed w
  | _ => false
  end.

(** What the 10 s timeout does to the promise in such an environment. *)
Definition timeout_outcome (p : CaptchaProvider) (truthy : bool) : PState :=
  if truthy then Fulfilled "" else Rejected (timeout_error p).

Definition poll_timers (p : CaptchaProvider) (n : nat) : list Timer :=
  [ {| tid := 0; due := 100 * (Z.of_nat n + 1); period := Some 100; act := CheckReady p 0 |};
    {| tid := 1; due := 10000; period := None; act := LoadTimeout p 0 0 |} ].

Definition polled_vars : LoaderVars :=
  {| scriptLoaded := true; scriptLoading := false; loadPromise := Some 0%nat |}.

(** The page while the poll runs, after [n] ticks, at clock [t]. *)
Definition poll_page (p : CaptchaProvider) (key : string) (w : Window) (n : nat) (t : Z)
  : Page :=
  set_vars p polled_vars
    {| now := t; window := w; timers := poll_timers p n; next_tid := 2;
       promises := [pending_cell];
       scripts := [{| src := script_src p key; handlers := None |}];
       gvars := loaderInit; cvars := loaderInit |}.

(** The page once the timeout has fired. *)
Definition timed_out_page (p : CaptchaProvider) (key : string) (w : Window) (t : Z)
  (out : PState) : Page :=
  set_vars p polled_vars
    {| now := t; window := w; timers := []; next_tid := 2;
       promises := [{| owner := ByLoader; pstate := out |}];
       scripts := [{| src := script_src p key; handlers := None |}];
       gvars := loaderInit; cvars := loaderInit |}.

(** The invariant of the poll, indexed by the number of timer firings. *)
Definition poll_inv p key (allowed : Window -> bool) (truthy : bool) (m : nat) (s : LState)
  : Prop :=
  returned s = [0%nat] /\
  exists w t, allowed w = true /\
    (((m <= 100)%nat /\ t <= 10000 /\ lpage s = poll_page p key w m t) \/
     ((100 < m)%nat /\ 10000 <= t
      /\ lpage s = timed_out_page p key w t (timeout_outcome p truthy))).

(** The global is absent. *)
Definition api_absent (p : CaptchaProvider) (w : Window) : bool := negb (api_truthy p w).

(** [window.grecaptcha] exists and has no [execute]. *)
Definition no_execute (w : Window) : bool :=
  match grecaptcha w with GNoExecute => true | _ => false end.

(** What may happen before the [load]/[error] event of the script element:
    further calls, changes of the globals, time passing. *)
Definition before_onload (ev : LEvent) : bool :=
  match ev with
  | LLoad _ _ | LWindow _ | LAdvance _ => true
  | _ => false
  end.

(** Number of calls of the loader of [p] in a run. *)
Definition loads_of (p : CaptchaProvider) (evs : list LEvent) : nat :=
  List.length (filter (fun ev => match ev with
                                 | LLoad q _ => provider_eqb p q
                                 | _ => false
                                 end) evs).

(** The tokens handed to [onVerify], in call order. *)
Definition verify_calls (tr : list Obs) : list string :=
  flat_map (fun o => match o with OnVerify token => [token] | _ => [] end) tr.

(** The calls of [grecaptcha.execute]. *)
Definition execute_calls (tr : list Obs) : list Obs :=
  filter (fun o => match o with GrecaptchaExecute _ _ => true | _ => false end) tr.

(** A host callback that always returns normally. *)
Definition returns_normally (_ : string) : bool := true.

(** What was recorded between two worlds of one run. *)
Definition since (before after : World) : list Obs :=
  skipn (List.length (trace before)) (trace after).

(** Sample inputs. *)
Definition api_loaded : Window :=
  {| grecaptcha := GReady; turnstile := true; faulty := false |}.

Definition google_props (key act : string) : CaptchaProps :=
  {| provider := GoogleV3; siteKey := key; action := act; mode := Invisible;
     theme := Light; skip := false; onVerifyOk := returns_normally |}.

Definition turnstile_props (key : string) (m : CaptchaMode) : CaptchaProps :=
  {| provider := CloudflareTurnstile; siteKey := key; action := "default"; mode := m;
     theme := Light; skip := false; onVerifyOk := returns_normally |}.

Definition skip_props (p : CaptchaProvider) (key act : string) (m : CaptchaMode)
  (th : CaptchaTheme) : CaptchaProps :=
  {| provider := p; siteKey := key; action := act; mode := m;
     theme := th; skip := true; onVerifyOk := returns_normally |}.

(** A Google instance brought to its initialized state on a fresh page: the
    100 ms timer starts [initCaptcha], the script arrives and defines the
    API, the poll resolves the load, the settle delay passes,
    [grecaptcha.execute] is called and answers with [token]; the effect then
    runs again and its [initCaptcha] stops at the guard. *)
Definition google_initialized (key act token : string) : World :=
  run (google_props key act)
    [EvTimer; EvWindow api_loaded; EvScriptLoad 0; EvTimer; EvTimer;
     EvSettle 1 (Some token); EvTimer]
    (mount (fresh_page no_api)).

(** A Turnstile instance whose widget has just been rendered. *)
Definition turnstile_rendered (key : string) (m : CaptchaMode) : World :=
  run (turnstile_props key m)
    [EvTimer; EvWindow api_loaded; EvScriptLoad 0; EvTimer; EvTimer]
    (mount (fresh_page no_api)).

(** An instance whose [initCaptcha] waits for the script to load. *)
Definition awaiting_script (props : CaptchaProps) : World :=
  run props [EvTimer] (mount (fresh_page no_api)).

(** Timers that belong to a loader. *)
Definition loader_timer (t : Timer) : bool :=
  match act t with
  | CheckReady _ _ | LoadTimeout _ _ _ => true
  | _ => false
  end.

(** Continuations suspended on [await load...Script()]. *)
Definition load_waiter (x : nat * Kont) : bool :=
  match snd x with KInitAfterLoad _ => true | _ => false end.

(** The 100 ms timer of the live effect closure. *)
Definition live_init_timer (w : World) (t : Timer) : bool :=
  match act t, effLive (comp w) with
  | InitCaptcha _, Some g => Nat.eqb (tid t) g
  | _, _ => false
  end.

(** A mounted instance in the middle of its initialization, before the
    script load has resolved: [initCaptcha] has not started yet (its timer is
    pending) or waits on the promise of the loader; no widget has been
    rendered and nothing else is in flight.  The predicate is structural, so
    it also holds of an instance with no widget that has nothing pending at
    all. *)
Definition mid_init (w : World) : bool :=
  mounted (comp w)
  && match widgets (comp w) with [] => true | _ => false end
  && forallb load_waiter (waiters (comp w))
  && forallb (fun t => loader_timer t || live_init_timer w t) (timers (page w)).

(** What is left of such an instance after its unmount. *)
Definition quiet (w : World) : Prop :=
  mounted (comp w) = false
  /\ effLive (comp w) = None
  /\ widgets (comp w) = []
  /\ forallb load_waiter (waiters (comp w)) = true
  /\ forallb loader_timer (timers (page w)) = true.

(** Two worlds that differ by calls other than [onVerify] and by no
    escaped exception. *)
Definition silent (w w' : World) : Prop :=
  verify_calls (trace w') = verify_calls (trace w) /\ uncaught w' = uncaught w.

(** Two worlds with the same mounted flag, live closure and widgets. *)
Definition same_core (w w' : World) : Prop :=
  mounted (comp w') = mounted (comp w)
  /\ effLive (comp w') = effLive (comp w)
  /\ widgets (comp w') = widgets (comp w).

(** The world a piece of code leaves behind, thrown or not. *)
Definition world_of (r : Res) : World :=
  match r with Ok w => w | Throw _ w => w end.

(** A call of [reset()] by the host. *)
Definition host_reset (ev : Event) : bool :=
  match ev with EvReset => true | _ => false end.

(** The state of a mounted instance whose [initCaptcha] waits for the
    script load, on the pending promise [lp], while a [reset()] of the host
    waits for the answer of [grecaptcha.execute], on the pending promise
    [pid]. *)
Definition reset_in_flight (w : World) (g lp pid : nat) : Prop :=
  mounted (comp w) = true
  /\ waiters (comp w) = [(lp, KInitAfterLoad g); (pid, KResetGotToken)]
  /\ nth_error (promises (page w)) lp = Some pending_cell
  /\ nth_error (promises (page w)) pid = Some {| owner := ByProvider; pstate := Pending |}.

(** * Vocabulary of the further properties *)

Definition fulfilled_cell : PCell := {| owner := ByLoader; pstate := Fulfilled "" |}.

(** No promise of the page is pending. *)
Definition all_settled (b : Page) : bool :=
  forallb (fun c => match pstate c with Pending => false | _ => true end) (promises b).

(** No script element of the page can still fire [load] or [error]. *)
Definition all_fired (b : Page) : bool :=
  forallb (fun s => match handlers s with None => true | Some _ => false end) (scripts b).

(** A page on which the loader of [p] has finished: its loaded flag is
    set, the global is there, and nothing is left that could settle or
    load. *)
Definition loaded_page (p : CaptchaProvider) (b : Page) : bool :=
  scriptLoaded (vars p b) && api_truthy p (window b)
  && all_settled b && all_fired b && forallb loader_timer (timers b).

(** What may happen on such a page: calls of the loader of [p] with any
    site key, timers, time passing, script events, and changes of the
    globals that keep the global of [p]. *)
Definition after_load_event (p : CaptchaProvider) (ev : LEvent) : bool :=
  match ev with
  | LLoad q _ => provider_eqb p q
  | LWindow w => api_truthy p w
  | _ => true
  end.

(** The page while the script element inserted by the first call is still
    loading, at clock [t]. *)
Definition loading_page (p : CaptchaProvider) (key : string) (w : Window) (t : Z) : Page :=
  set_vars p {| scriptLoaded := false; scriptLoading := true; loadPromise := Some 0%nat |}
    {| now := t; window := w; timers := []; next_tid := 0;
       promises := [pending_cell];
       scripts := [{| src := script_src p key; handlers := Some (p, 0%nat) |}];
       gvars := loaderInit; cvars := loaderInit |}.

(** What may happen while it loads, the global staying absent: further calls
    of the same loader, time passing, changes of the other globals. *)
Definition loading_event (p : CaptchaProvider) (ev : LEvent) : bool :=
  match ev with
  | LLoad q _ => provider_eqb p q
  | LAdvance _ => true
  | LWindow w => negb (api_truthy p w)
  | _ => false
  end.

(** The page once a poll has found the global ready: the promise is
    fulfilled, the interval is cleared, the 10 s timer is still armed. *)
Definition resolved_page (p : CaptchaProvider) (key : string) (w : Window) (t : Z) : Page :=
  set_vars p polled_vars
    {| now := t; window := w;
       timers := [ {| tid := 1; due := 10000; period := None; act := LoadTimeout p 0 0 |} ];
       next_tid := 2;
       promises := [fulfilled_cell];
       scripts := [{| src := script_src p key; handlers := None |}];
       gvars := loaderInit; cvars := loaderInit |}.

(** Globals whose provider calls throw. *)
Definition api_faulty : Window :=
  {| grecaptcha := GReady; turnstile := true; faulty := true |}.

(** Continuations that hand a token to [onVerify] when they resume. *)
Definition token_kont (k : Kont) : bool :=
  match k with KInitGotToken _ | KResetGotToken => true | _ => false end.

Definition timer_ok (t : Timer) : bool :=
  match act t with Resume k => negb (token_kont k) | _ => true end.

(** Nothing suspended is waiting for a token of [grecaptcha.execute]. *)
Definition no_token_pending (w : World) : bool :=
  forallb (fun x => negb (token_kont (snd x))) (waiters (comp w))
  && forallb timer_ok (timers (page w)).

(** The tokens Turnstile delivers through its success callback in a run. *)
Definition delivered (evs : list Event) : list string :=
  flat_map (fun ev => match ev with EvTsSuccess _ token => [token] | _ => [] end) evs.

(** [l] is [m] with some elements left out. *)
Inductive subseq {A : Type} : list A -> list A -> Prop :=
| subseq_nil : subseq [] []
| subseq_skip l m a : subseq l m -> subseq l (a :: m)
| subseq_take l m a : subseq l m -> subseq (a :: l) (a :: m).

(** A piece of code that calls [onVerify] not at all and suspends nothing
    that would. *)
Definition tame (w w' : World) : Prop :=
  verify_calls (trace w') = verify_calls (trace w)
  /\ (no_token_pending w = true -> no_token_pending w' = true).

(** Observations that touch neither a provider nor the console. *)
Definition host_only (o : Obs) : bool :=
  match o with OnVerify _ | SetIsInitialized _ => true | _ => false end.

(** How many more calls of [onVerify] an instance with [skip] can make: one
    for each run of [initCaptcha] its pending timer leads to. *)
Definition skip_budget (w : World) : nat :=
  match timers (page w) with
  | [] => 0
  | _ => if isInitialized (comp w) then 1 else 2
  end.

(** The states of an instance with [skip] on a page nothing else uses. *)
Definition skip_inv (w : World) : Prop :=
  scripts (page w) = []
  /\ promises (page w) = []
  /\ widgets (comp w) = []
  /\ waiters (comp w) = []
  /\ widgetIdRef (comp w) = None
  /\ renderedInit (comp w) = isInitialized (comp w)
  /\ forallb host_only (trace w) = true
  /\ (exists n, verify_calls (trace w) = repeat "skipped" n /\ (n + skip_budget w <= 2)%nat)
  /\ (timers (page w) = []
      \/ exists g d c,
           timers (page w) = [ {| tid := g; due := d; period := None; act := InitCaptcha c |} ]
           /\ effLive (comp w) = Some g /\ mounted (comp w) = true).

(** What may happen before the 100 ms timer of the effect fires, the host
    leaving the instance alone: time passing, changes of the globals, stray
    events. *)
Definition before_first_timer (ev : Event) : bool :=
  match ev with EvTimer | EvReset | EvUnmount => false | _ => true end.

(** A freshly mounted instance whose [initCaptcha] has not started. *)
Definition just_mounted (w : World) : Prop :=
  comp w = {| mounted := true; isInitialized := false; renderedInit := false;
              widgetIdRef := None; effLive := Some 0%nat; waiters := []; widgets := [] |}
  /\ timers (page w) = [ {| tid := 0; due := 100; period := None; act := InitCaptcha false |} ]
  /\ scripts (page w) = [] /\ promises (page w) = []
  /\ trace w = [] /\ uncaught w = [].

(** An instance that has left nothing behind. *)
Definition inert (w : World) : Prop :=
  mounted (comp w) = false /\ effLive (comp w) = None
  /\ waiters (comp w) = [] /\ widgets (comp w) = []
  /\ timers (page w) = [] /\ scripts (page w) = [] /\ promises (page w) = []
  /\ trace w = [] /\ uncaught w = [].

(** * Properties of the loaders *)

Lemma api_ready_truthy p w : api_ready p w = true -> api_truthy p w = true.
Proof. destruct p; simpl; [destruct (grecaptcha w)|]; auto; discriminate. Qed.

Lemma api_absent_not_ready p w : api_truthy p w = false -> api_ready p w = false.
Proof.
  intros H. destruct (api_ready p w) eqn:E; auto.
  apply api_ready_truthy in E. congruence.
Qed.

Lemma after_onload_page p key w :
  api_ready p w = false ->
  after_onload p key w = {| lpage := poll_page p key w 0 0; returned := [0%nat] |}.
Proof.
  destruct w as [g ts f]. intros Ha.
  destruct p, g, ts; try discriminate Ha; reflexivity.
Qed.

Lemma poll_establish p key allowed truthy w :
  allowed w = true -> api_ready p w = false ->
  poll_inv p key allowed truthy 0 (after_onload p key w).
Proof.
  intros Hw Ha. rewrite (after_onload_page _ _ _ Ha). split; [reflexivity|].
  exists w, 0. split; [exact Hw|]. left. repeat split; lia.
Qed.

Lemma poll_tick p key w n t r :
  api_ready p w = false -> (n < 100)%nat ->
  lstep LTimer {| lpage := poll_page p key w n t; returned := r |}
  = {| lpage := poll_page p key w (S n) (Z.max t (100 * (Z.of_nat n + 1))); returned := r |}.
Proof.
  intros Hw Hn.
  assert (E : (10000 <? 100 * (Z.of_nat n + 1)) = false) by (apply Z.ltb_ge; lia).
  assert (D : 100 * (Z.of_nat n + 1) + 100 = 100 * (Z.of_nat (S n) + 1)) by lia.
  destruct p; unfold lstep, pop_timer, poll_page, poll_timers;
    cbn [lpage returned set_vars timers next_timer due]; rewrite E;
    cbn [rearm period tid act run_loader_action map Nat.eqb due set_timers set_now
         now window timers next_tid promises scripts gvars cvars];
    unfold checkReady_tick, set_now, set_timers;
    cbn [now window timers next_tid promises scripts gvars cvars];
    rewrite Hw, D; reflexivity.
Qed.

Lemma poll_timeout p key w t r :
  t <= 10000 ->
  lstep LTimer {| lpage := poll_page p key w 100 t; returned := r |}
  = {| lpage := timed_out_page p key w 10000 (timeout_outcome p (api_truthy p w));
       returned := r |}.
Proof.
  intros Ht.
  assert (M : Z.max t 10000 = 10000) by lia.
  destruct p; unfold lstep, pop_timer, poll_page, poll_timers;
    cbn [lpage returned set_vars timers]; simpl next_timer;
    cbn [rearm period tid act run_loader_action filter negb Nat.eqb due set_timers set_now
         now window timers next_tid promises scripts gvars cvars];
    rewrite M; unfold loadTimeout_fire, timed_out_page, timeout_outcome; cbn.
  - destruct (grecaptcha w); reflexivity.
  - destruct (turnstile w); reflexivity.
Qed.

Lemma poll_preserve p key allowed truthy ev m s :
  unready_env p allowed truthy ->
  waiting_event allowed ev = true -> poll_inv p key allowed truthy m s ->
  poll_inv p key allowed truthy (if is_timer ev then S m else m) (lstep ev s).
Proof.
  intros [Hunready Htruthy] Hev [Hr (w & t & Hw & Hs)].
  destruct s as [b r]. simpl in Hr, Hs. subst r.
  destruct ev; simpl in Hev; try discriminate; simpl is_timer; cbv iota.
  - (* timer *)
    destruct Hs as [(Hm & Ht & ->) | (Hm & Ht & ->)].
    + destruct (Nat.eq_dec m 100) as [->|Hne].
      * rewrite (poll_timeout _ _ _ _ _ Ht), (Htruthy _ Hw). split; [reflexivity|].
        exists w, 10000. split; [exact Hw|]. right. repeat split; lia.
      * rewrite poll_tick by (auto; lia). split; [reflexivity|].
        exists w, (Z.max t (100 * (Z.of_nat m + 1))). split; [exact Hw|].
        left. repeat split; lia.
    + split; [destruct p; reflexivity|].
      exists w, t. split; [exact Hw|]. right. repeat split; try lia.
      destruct p; reflexivity.
  - (* time passes *)
    split; [reflexivity|].
    destruct Hs as [(Hm & Ht & ->) | (Hm & Ht & ->)].
    + set (c := Z.min (t + Z.max 0 dt) (if 10000 <? 100 * (Z.of_nat m + 1)
                                        then 10000 else 100 * (Z.of_nat m + 1))).
      exists w, (Z.max t c). split; [exact Hw|]. left.
      split; [exact Hm|]. split.
      * subst c. destruct (10000 <? 100 * (Z.of_nat m + 1)) eqn:E; lia.
      * subst c. destruct p; unfold lstep, advance, poll_page, poll_timers;
          cbn [lpage returned set_vars timers next_timer due now];
          destruct (10000 <? 100 * (Z.of_nat m + 1)); reflexivity.
    + exists w, (t + Z.max 0 dt). split; [exact Hw|]. right.
      split; [exact Hm|]. split; [lia|]. destruct p; reflexivity.
  - (* the globals change *)
    split; [reflexivity|].
    exists w0. destruct Hs as [(Hm & Ht & ->) | (Hm & Ht & ->)].
    + exists t. split; [exact Hev|]. left. repeat split; auto. destruct p; reflexivity.
    + exists t. split; [exact Hev|]. right. repeat split; auto. destruct p; reflexivity.
Qed.

Lemma poll_run p key allowed truthy evs : forall m s,
  unready_env p allowed truthy ->
  forallb (waiting_event allowed) evs = true -> poll_inv p key allowed truthy m s ->
  poll_inv p key allowed truthy (m + firings evs) (lrun evs s).
Proof.
  induction evs as [|ev evs IH]; intros m s Henv Hall Hinv.
  - simpl. unfold firings; simpl. rewrite Nat.add_0_r. exact Hinv.
  - simpl in Hall. apply andb_prop in Hall as [Hev Hall].
    unfold lrun; simpl. fold (lrun evs (lstep ev s)).
    pose proof (poll_preserve _ _ _ _ ev _ _ Henv Hev Hinv) as Hstep.
    specialize (IH _ _ Henv Hall Hstep).
    unfold firings in *; simpl. destruct (is_timer ev); simpl in *.
    + rewrite Nat.add_succ_r. exact IH.
    + exact IH.
Qed.

Lemma poll_use p key allowed truthy m s :
  poll_inv p key allowed truthy m s ->
  promise_state 0 (lpage s)
    = Some (if (m <=? 100)%nat then Pending else timeout_outcome p truthy)
  /\ (if (m <=? 100)%nat then now (lpage s) <= 10000 else 10000 <= now (lpage s))
  /\ allowed (window (lpage s)) = true.
Proof.
  intros [_ (w & t & Hw & [(Hm & Ht & ->) | (Hm & Ht & ->)])].
  - apply Nat.leb_le in Hm as ->. destruct p; repeat split; simpl; auto.
  - apply Nat.leb_gt in Hm as ->. destruct p; repeat split; simpl; auto.
Qed.

Lemma absent_env p : unready_env p (api_absent p) false.
Proof.
  split; intros w H; apply negb_true_iff in H; auto using api_absent_not_ready.
Qed.

Lemma no_execute_env : unready_env GoogleV3 no_execute true.
Proof.
  split; intros w H; unfold no_execute in H; simpl;
    destruct (grecaptcha w); auto; discriminate.
Qed.

(** *** Promise store *)
Lemma nth_error_list_set {A : Type} (l : list A) : forall i x y,
  nth_error l i = Some y -> nth_error (list_set i x l) i = Some x.
Proof.
  induction l as [|h t IH]; intros [|i] x y H; simpl in *; try discriminate; eauto.
Qed.

Lemma promise_state_settle pid out b :
  promise_state pid b = Some Pending ->
  promise_state pid (settle pid out b) = Some out.
Proof.
  unfold promise_state, settle. intros H.
  destruct (nth_error (promises b) pid) as [[o st]|] eqn:E; simpl in H; try discriminate.
  injection H as ->. simpl.
  rewrite (nth_error_list_set _ _ _ _ E). reflexivity.
Qed.

(** *** Calls that arrive while the script element is still loading *)
(** While the loading flag is set and the script has not loaded, the loader
    hands out the cached promise and touches nothing. *)
Lemma load_while_loading p key b pid :
  scriptLoaded (vars p b) = false ->
  scriptLoading (vars p b) = true ->
  loadPromise (vars p b) = Some pid ->
  loadScript p key b = (pid, b).
Proof.
  intros H1 H2 H3. unfold loadScript. rewrite H1, H2, H3. reflexivity.
Qed.

Lemma shared_run p evs : forall b n,
  forallb before_onload evs = true ->
  (forall q k, In (LLoad q k) evs -> q = p) ->
  scriptLoaded (vars p b) = false ->
  scriptLoading (vars p b) = true ->
  loadPromise (vars p b) = Some 0%nat ->
  let s := lrun evs {| lpage := b; returned := repeat 0%nat n |} in
  returned s = repeat 0%nat (n + loads_of p evs)
  /\ promises (lpage s) = promises b
  /\ scripts (lpage s) = scripts b.
Proof.
  induction evs as [|ev evs IH]; intros b n Hall Hp H1 H2 H3.
  - simpl. rewrite Nat.add_0_r. auto.
  - simpl in Hall. apply andb_prop in Hall as [Hev Hall].
    assert (Hp' : forall q k, In (LLoad q k) evs -> q = p)
      by (intros; eapply Hp; right; eauto).
    unfold lrun; simpl fold_left. fold (lrun evs).
    destruct ev; simpl in Hev; try discriminate.
    + assert (p0 = p) by (eapply Hp; left; reflexivity). subst p0.
      unfold lstep; cbn [lpage returned].
      rewrite (load_while_loading _ siteKey0 _ _ H1 H2 H3).
      replace (repeat 0%nat n ++ [0%nat]) with (repeat 0%nat (S n))
        by (rewrite <- repeat_cons; reflexivity).
      specialize (IH b (S n) Hall Hp' H1 H2 H3).
      unfold loads_of in *. simpl filter.
      replace (provider_eqb p p) with true by (destruct p; reflexivity).
      simpl List.length. rewrite Nat.add_succ_r. exact IH.
    + unfold lstep; cbn [lpage returned].
      assert (Hn : exists tm, advance dt b = set_now tm b).
      { unfold advance. destruct (next_timer (timers b)); eauto. }
      destruct Hn as [tm ->].
      apply (IH (set_now tm b) n Hall Hp'); destruct p; auto.
    + unfold lstep; cbn [lpage returned].
      apply (IH (set_window w b) n Hall Hp'); destruct p; auto.
Qed.

(** Any number of calls before the [load]/[error] event of the script
    element share one promise and one script element, whatever happens to
    the globals and to the clock in between. *)
Lemma concurrent_loads_share p key w evs :
  api_ready p w = false ->
  forallb before_onload evs = true ->
  (forall q k, In (LLoad q k) evs -> q = p) ->
  let s := lrun evs (lstep (LLoad p key) (lfresh w)) in
  returned s = repeat 0%nat (S (loads_of p evs))
  /\ promise_state 0 (lpage s) = Some Pending
  /\ scripts (lpage s) = [{| src := script_src p key; handlers := Some (p, 0%nat) |}].
Proof.
  intros Hw Hall Hp.
  assert (Hinit : exists b, lstep (LLoad p key) (lfresh w)
                            = {| lpage := b; returned := repeat 0%nat 1 |}
            /\ scriptLoaded (vars p b) = false /\ scriptLoading (vars p b) = true
            /\ loadPromise (vars p b) = Some 0%nat
            /\ promises b = [pending_cell]
            /\ scripts b = [{| src := script_src p key; handlers := Some (p, 0%nat) |}]).
  { destruct w as [g ts f].
    destruct p, g, ts; try discriminate Hw; eexists; repeat split. }
  destruct Hinit as (b0 & -> & H1 & H2 & H3 & H4 & H5). cbv zeta.
  destruct (shared_run p evs b0 1 Hall Hp H1 H2 H3) as (R1 & R2 & R3).
  split; [exact R1|]. split.
  - unfold promise_state. rewrite R2, H4. reflexivity.
  - rewrite R3. exact H5.
Qed.

(** *** The window between the [load] event and readiness *)

(** C2. Calls that arrive while a load is in flight are meant to share its
    promise and its script element.  They do until the script element fires
    [load] (see [concurrent_loads_share]); [script.onload] then clears the
    loading flag before the global is ready, and a call in that window, the
    first promise still pending, starts a second load: a second script
    element for the same URL and a second pending promise.  For Google, when
    [grecaptcha] exists without [execute], the call is instead answered with
    a fresh promise that is already fulfilled. *)
Theorem load_after_onload_duplicates p key w :
  api_truthy p w = false ->
  let s := lrun [LLoad p key; LScriptLoad 0; LLoad p key] (lfresh w) in
  returned s = [0%nat; 1%nat]
  /\ promise_state 0 (lpage s) = Some Pending
  /\ promise_state 1 (lpage s) = Some Pending
  /\ map src (scripts (lpage s)) = [script_src p key; script_src p key]
  /\ (p = GoogleV3 ->
      let w' := {| grecaptcha := GNoExecute; turnstile := turnstile w; faulty := faulty w |} in
      let s' := lrun [LLoad p key; LScriptLoad 0; LWindow w'; LLoad p key] (lfresh w) in
      returned s' = [0%nat; 1%nat]
      /\ promise_state 0 (lpage s') = Some Pending
      /\ promise_state 1 (lpage s') = Some (Fulfilled "")).
Proof.
  destruct w as [g ts f]. intros Ha.
  destruct p, g, ts; try discriminate Ha; cbv zeta;
    repeat split; try reflexivity; intros; try discriminate; repeat split.
Qed.

Lemma load_after_onload_duplicates_witness :
  api_truthy CloudflareTurnstile no_api = false
  /\ map src (scripts (lpage (lrun [LLoad CloudflareTurnstile ""; LScriptLoad 0;
                                    LLoad CloudflareTurnstile ""] (lfresh no_api))))
     = [script_src CloudflareTurnstile ""; script_src CloudflareTurnstile ""].
Proof.
  split; [reflexivity|].
  apply (load_after_onload_duplicates CloudflareTurnstile "" no_api). reflexivity.
Defined.

(** *** The 10 s bound *)

(** C4. A script element that loads while the global never appears: the
    promise returned by [load()] stays pending through the hundred polls,
    and the timer that fires next, at clock 10000, rejects it with the error
    of the timeout path.  A fetch failure rejects with a different error
    (the two are plain [Error] objects told apart by their messages). *)
Theorem load_timeout_rejects p key w evs :
  api_truthy p w = false ->
  forallb (waiting_event (api_absent p)) evs = true ->
  let s := lrun evs (after_onload p key w) in
  returned s = [0%nat]
  /\ promise_state 0 (lpage s)
     = Some (if (firings evs <=? 100)%nat then Pending else Rejected (timeout_error p))
  /\ (if (firings evs <=? 100)%nat
      then now (lpage s) <= 10000 else 10000 <= now (lpage s))
  /\ promise_state 0 (lpage (lrun [LLoad p key; LScriptError 0] (lfresh w)))
     = Some (Rejected (fetch_error p))
  /\ timeout_error p <> fetch_error p.
Proof.
  intros Ha Hall. cbv zeta.
  assert (Hw : api_absent p w = true) by (unfold api_absent; rewrite Ha; reflexivity).
  pose proof (poll_run p key (api_absent p) false evs 0 _ (absent_env p) Hall
                (poll_establish p key _ false w Hw (api_absent_not_ready _ _ Ha))) as Hinv.
  simpl Nat.add in Hinv.
  destruct (poll_use _ _ _ _ _ _ Hinv) as (U1 & U2 & _).
  split; [exact (proj1 Hinv)|]. split; [exact U1|]. split; [exact U2|]. split.
  - destruct w as [g ts f]. destruct p, g, ts; try discriminate Ha; reflexivity.
  - destruct p; discriminate.
Qed.

Lemma load_timeout_rejects_witness :
  api_truthy GoogleV3 no_api = false
  /\ forallb (waiting_event (api_absent GoogleV3))
             (repeat LTimer 50 ++ [LAdvance 30] ++ repeat LTimer 51) = true
  /\ promise_state 0
       (lpage (lrun (repeat LTimer 50 ++ [LAdvance 30] ++ repeat LTimer 51)
                    (after_onload GoogleV3 "site" no_api)))
     = Some (Rejected (Error "Google reCAPTCHA failed to load")).
Proof.
  assert (H1 : api_truthy GoogleV3 no_api = false) by reflexivity.
  assert (H2 : forallb (waiting_event (api_absent GoogleV3))
                 (repeat LTimer 50 ++ [LAdvance 30] ++ repeat LTimer 51) = true)
    by (vm_compute; reflexivity).
  split; [exact H1|]. split; [exact H2|].
  destruct (load_timeout_rejects GoogleV3 "site" no_api _ H1 H2) as (_ & H & _).
  rewrite H. vm_compute. reflexivity.
Defined.

(** C8. After the timeout has rejected a load, the loaded flag set by
    [script.onload] is still [true] and the cached promise is still the
    rejected one; the global being absent, the next [load()] passes every
    early return, creates a new pending promise and appends a second script
    element with the same URL. *)
Theorem load_after_timeout_appends_again p key w evs :
  api_truthy p w = false ->
  forallb (waiting_event (api_absent p)) evs = true ->
  (100 < firings evs)%nat ->
  let s := lrun evs (after_onload p key w) in
  promise_state 0 (lpage s) = Some (Rejected (timeout_error p))
  /\ scriptLoaded (vars p (lpage s)) = true
  /\ scriptLoading (vars p (lpage s)) = false
  /\ loadPromise (vars p (lpage s)) = Some 0%nat
  /\ let s' := lstep (LLoad p key) s in
     returned s' = [0%nat; 1%nat]
     /\ promise_state 1 (lpage s') = Some Pending
     /\ loadPromise (vars p (lpage s')) = Some 1%nat
     /\ scripts (lpage s')
        = [ {| src := script_src p key; handlers := None |};
            {| src := script_src p key; handlers := Some (p, 1%nat) |} ].
Proof.
  intros Ha Hall Hn. cbv zeta.
  assert (Hw : api_absent p w = true) by (unfold api_absent; rewrite Ha; reflexivity).
  pose proof (poll_run p key (api_absent p) false evs 0 _ (absent_env p) Hall
                (poll_establish p key _ false w Hw (api_absent_not_ready _ _ Ha))) as Hinv.
  simpl Nat.add in Hinv.
  destruct Hinv as [Hr (w' & t & Hw' & [(Hm & _) | (_ & _ & Hp)])]; [lia|].
  destruct (lrun evs (after_onload p key w)) as [b r]. simpl in Hr, Hp. subst b r.
  apply negb_true_iff in Hw'. destruct w' as [g ts f].
  destruct p, g, ts; try discriminate Hw'; repeat split.
Qed.

Lemma load_after_timeout_appends_again_witness :
  api_truthy CloudflareTurnstile no_api = false
  /\ forallb (waiting_event (api_absent CloudflareTurnstile)) (repeat LTimer 101) = true
  /\ (100 < firings (repeat LTimer 101))%nat
  /\ map src (scripts (lpage (lstep (LLoad CloudflareTurnstile "")
                                (lrun (repeat LTimer 101)
                                      (after_onload CloudflareTurnstile "" no_api)))))
     = [ "https://challenges.cloudflare.com/turnstile/v0/api.js";
         "https://challenges.cloudflare.com/turnstile/v0/api.js" ].
Proof.
  assert (H1 : api_truthy CloudflareTurnstile no_api = false) by reflexivity.
  assert (H2 : forallb (waiting_event (api_absent CloudflareTurnstile))
                 (repeat LTimer 101) = true) by (vm_compute; reflexivity).
  assert (H3 : (100 < firings (repeat LTimer 101))%nat) by (vm_compute; lia).
  split; [exact H1|]. split; [exact H2|]. split; [exact H3|].
  destruct (load_after_timeout_appends_again CloudflareTurnstile "" no_api _ H1 H2 H3)
    as (_ & _ & _ & _ & _ & _ & _ & H).
  rewrite H. reflexivity.
Defined.

(** C9. In [loadGoogleScript] the poll resolves only on
    [grecaptcha && grecaptcha.execute], the timeout handler already on
    [grecaptcha]: where [grecaptcha] exists without [execute] for the whole
    wait, the promise is still pending after the hundred polls and is
    fulfilled by the timeout at clock 10000, [execute] being unavailable. *)
Theorem google_timeout_resolves_without_execute key w evs :
  no_execute w = true ->
  forallb (waiting_event no_execute) evs = true ->
  let s := lrun evs (after_onload GoogleV3 key w) in
  promise_state 0 (lpage s)
    = Some (if (firings evs <=? 100)%nat then Pending else Fulfilled "")
  /\ (if (firings evs <=? 100)%nat
      then now (lpage s) <= 10000 else 10000 <= now (lpage s))
  /\ api_ready GoogleV3 (window (lpage s)) = false
  /\ (forall b pid self,
        api_ready GoogleV3 (window b) = false ->
        checkReady_tick GoogleV3 pid self b = b)
  /\ (forall b pid cid,
        promise_state pid b = Some Pending ->
        api_truthy GoogleV3 (window b) = true ->
        promise_state pid (loadTimeout_fire GoogleV3 pid cid b) = Some (Fulfilled "")).
Proof.
  intros Hw Hall. cbv zeta.
  destruct no_execute_env as [Hunready Htruthy].
  pose proof (poll_run GoogleV3 key no_execute true evs 0 _ no_execute_env Hall
                (poll_establish GoogleV3 key _ true w Hw (Hunready _ Hw))) as Hinv.
  simpl Nat.add in Hinv.
  destruct (poll_use _ _ _ _ _ _ Hinv) as (U1 & U2 & U3).
  split; [exact U1|]. split; [exact U2|]. split; [exact (Hunready _ U3)|]. split.
  - intros b pid self Hb. unfold checkReady_tick. rewrite Hb. reflexivity.
  - intros b pid cid Hp Hb. unfold loadTimeout_fire.
    change (window (clearTimer cid b)) with (window b). rewrite Hb.
    apply promise_state_settle. exact Hp.
Qed.

Lemma google_timeout_resolves_without_execute_witness :
  no_execute {| grecaptcha := GNoExecute; turnstile := false; faulty := false |} = true
  /\ forallb (waiting_event no_execute) (repeat LTimer 101) = true
  /\ promise_state 0
       (lpage (lrun (repeat LTimer 101)
                 (after_onload GoogleV3 "site"
                    {| grecaptcha := GNoExecute; turnstile := false; faulty := false |})))
     = Some (Fulfilled "").
Proof.
  assert (H1 : no_execute {| grecaptcha := GNoExecute; turnstile := false;
                             faulty := false |} = true) by reflexivity.
  assert (H2 : forallb (waiting_event no_execute) (repeat LTimer 101) = true)
    by (vm_compute; reflexivity).
  split; [exact H1|]. split; [exact H2|].
  destruct (google_timeout_resolves_without_execute "site" _ _ H1 H2) as (H & _).
  rewrite H. vm_compute. reflexivity.
Defined.

(** * Properties of the component *)

Lemma run_app props evs1 evs2 w :
  run props (evs1 ++ evs2) w = run props evs2 (run props evs1 w).
Proof. unfold run. apply fold_left_app. Qed.

(** *** Skip mode *)

Lemma step_quiescent props w :
  timers (page w) = [] -> waiters (comp w) = [] ->
  isInitialized (comp w) = renderedInit (comp w) ->
  step props EvTimer w = w.
Proof.
  intros Ht Hw Hi. unfold step, handle, pop_timer. rewrite Ht. simpl.
  unfold drain. rewrite Hw. simpl. unfold flush, upd_comp, set_comp, set_waiters.
  simpl. rewrite Hi, eqb_reflx, andb_false_r.
  destruct w as [b [m i r wi e ws wd] tr u]. simpl in *. subst. reflexivity.
Qed.

Lemma skip_first_step p key act m th w :
  let w1 := run (skip_props p key act m th) [EvTimer] (mount (fresh_page w)) in
  verify_calls (trace w1) = ["skipped"] /\ now (page w1) = 100.
Proof.
  destruct p, w as [[] [] []]; vm_compute; split; reflexivity.
Qed.

Lemma skip_second_step p key act m th w :
  let w2 := run (skip_props p key act m th) [EvTimer; EvTimer] (mount (fresh_page w)) in
  verify_calls (trace w2) = ["skipped"; "skipped"] /\ now (page w2) = 200
  /\ timers (page w2) = [] /\ uncaught w2 = []
  /\ waiters (comp w2) = []
  /\ isInitialized (comp w2) = renderedInit (comp w2).
Proof.
  destruct p, w as [[] [] []]; vm_compute; repeat split; reflexivity.
Qed.

Lemma run_quiescent props n w :
  timers (page w) = [] -> waiters (comp w) = [] ->
  isInitialized (comp w) = renderedInit (comp w) ->
  run props (repeat EvTimer n) w = w.
Proof.
  intros T Wt I. induction n as [|n IH]; [reflexivity|].
  cbn [repeat run fold_left]. rewrite step_quiescent by assumption. exact IH.
Qed.

(** C1. With [skip] the component renders [null], and [onVerify("skipped")]
    is called when the 100 ms timer of the effect fires.  The call is
    followed by [setIsInitialized(true)]; [isInitialized] is a dependency of
    the effect, so the effect runs again, and the skip branch of
    [initCaptcha] comes before the [isInitialized] guard: a mount left alone
    hands "skipped" to [onVerify] twice, at clock 100 and at clock 200, and
    then schedules nothing more. *)
Theorem skip_mount_verifies_twice p key act m th w n :
  let props := skip_props p key act m th in
  let first := run props [EvTimer] (mount (fresh_page w)) in
  let final := run props ([EvTimer; EvTimer] ++ repeat EvTimer n) (mount (fresh_page w)) in
  render props = None
  /\ verify_calls (trace first) = ["skipped"] /\ now (page first) = 100
  /\ verify_calls (trace final) = ["skipped"; "skipped"] /\ now (page final) = 200
  /\ timers (page final) = [] /\ uncaught final = [].
Proof.
  cbv zeta. rewrite run_app.
  pose proof (skip_first_step p key act m th w) as V1.
  pose proof (skip_second_step p key act m th w) as V2.
  cbv zeta in V1, V2.
  destruct V1 as (A1 & A2). destruct V2 as (B1 & B2 & B3 & B4 & B5 & B6).
  rewrite (run_quiescent _ n _ B3 B5 B6).
  split; [reflexivity|]. repeat split; assumption.
Qed.

(** *** The imperative handle *)

(** After the unmount the ref is [null]: nothing can be called through
    it. *)
Lemma call_handle_unmounted props name w :
  mounted (comp w) = false -> call_handle props name w = None.
Proof. intros H. unfold call_handle, ref_current. rewrite H. reflexivity. Qed.

(** C3, as the code has it. The object handed to [useImperativeHandle] has
    the single member [reset], as the [CaptchaRef] interface declares.  For
    every mounted instance without [skip], calling [reset()] through the ref
    is defined and amounts to the reset event; calling [execute()] through
    the ref is not defined, nor is any other name. *)
Theorem handle_exposes_reset_only props w :
  mounted (comp w) = true ->
  skip props = false ->
  map fst imperativeHandle = CaptchaRef_members
  /\ call_handle props "reset" w = Some (step props EvReset w)
  /\ call_handle props "execute" w = None
  /\ forall name,
       call_handle props name w
       = if String.eqb name "reset" then Some (step props EvReset w) else None.
Proof.
  intros Hm _. unfold call_handle, ref_current. rewrite Hm.
  split; [reflexivity|]. split; [reflexivity|]. split; [reflexivity|].
  intros name. unfold imperativeHandle.
  cbn [find fst snd]. rewrite String.eqb_sym.
  destruct (String.eqb name "reset"); reflexivity.
Qed.

Lemma handle_exposes_reset_only_witness :
  let props := google_props "site" "login" in
  let w := mount (fresh_page no_api) in
  call_handle props "reset" w = Some (step props EvReset w)
  /\ call_handle props "execute" w = None.
Proof.
  cbv zeta.
  destruct (handle_exposes_reset_only (google_props "site" "login")
              (mount (fresh_page no_api)) eq_refl eq_refl) as (_ & R & E & _).
  split; [exact R|exact E].
Defined.

(** C3 fails as stated: [execute] is a member of [CaptchaHandle], which the
    component does not implement; on a mounted instance without [skip],
    [execute] through the ref is not a function. *)
Lemma execute_is_not_exposed :
  let props := turnstile_props "site" Invisible in
  let w := turnstile_rendered "site" Invisible in
  mounted (comp w) = true
  /\ skip props = false
  /\ In "execute" CaptchaHandle_members
  /\ handle_member "execute" = None
  /\ call_handle props "execute" w = None.
Proof.
  cbv zeta. split; [vm_compute; reflexivity|]. split; [reflexivity|].
  split; [left; reflexivity|]. split; [reflexivity|].
  unfold call_handle, ref_current.
  destruct (mounted (comp (turnstile_rendered "site" Invisible))); reflexivity.
Qed.

(** *** [reset()] on Google reCAPTCHA v3 *)

Lemma google_initialized_state key act token :
  let w0 := google_initialized key act token in
  isInitialized (comp w0) = true
  /\ mounted (comp w0) = true
  /\ trace w0 = [GrecaptchaExecute key act; SetIsInitialized true; OnVerify token]
  /\ waiters (comp w0) = []
  /\ uncaught w0 = [].
Proof. vm_compute. repeat split; reflexivity. Qed.

(** C5. [reset()] on an initialized Google instance calls
    [grecaptcha.execute] itself, and its [setIsInitialized(false)] also
    re-runs the effect, whose [initCaptcha] no longer stops at the guard.
    Only when the provider answers within the 100 ms of the effect's timer
    is there one [execute] and one [onVerify]; when it answers later than
    that, [initCaptcha] issues a second [execute] 600 ms after the reset, and
    when both answers arrive after that, [onVerify] is called twice. *)
Theorem reset_google_executes_twice key act token first second :
  let props := google_props key act in
  let w0 := google_initialized key act token in
  let fast := run props [EvReset; EvSettle 2 (Some first); EvTimer] w0 in
  let slow := run props [EvReset; EvTimer; EvSettle 2 (Some first); EvTimer; EvTimer] w0 in
  let slower := run props [EvReset; EvTimer; EvTimer;
                           EvSettle 4 (Some second); EvSettle 2 (Some first)] w0 in
  (execute_calls (since w0 fast) = [GrecaptchaExecute key act]
   /\ verify_calls (since w0 fast) = [first])
  /\ (execute_calls (since w0 slow) = [GrecaptchaExecute key act; GrecaptchaExecute key act]
      /\ verify_calls (since w0 slow) = [first]
      /\ now (page slow) = now (page w0) + 600)
  /\ (execute_calls (since w0 slower)
        = [GrecaptchaExecute key act; GrecaptchaExecute key act]
      /\ verify_calls (since w0 slower) = [second; first]
      /\ uncaught slower = []).
Proof. vm_compute. repeat split; reflexivity. Qed.

(** *** Timers of the loaders *)

Lemma next_timer_In ts t : next_timer ts = Some t -> In t ts.
Proof.
  revert t. induction ts as [|u ts IH]; intros t H; simpl in H; [discriminate|].
  destruct (next_timer ts) as [v|].
  - destruct (due v <? due u); injection H as <-; [right; apply IH; reflexivity|left; reflexivity].
  - injection H as <-. left; reflexivity.
Qed.

Lemma forallb_filter {A : Type} (f g : A -> bool) l :
  forallb f l = true -> forallb f (filter g l) = true.
Proof.
  induction l as [|a l IH]; simpl; auto.
  intros H. apply andb_prop in H as [Ha Hl].
  destruct (g a); simpl; auto. rewrite Ha. auto.
Qed.

Lemma loader_timers_rearm t ts :
  forallb loader_timer ts = true -> forallb loader_timer (rearm t ts) = true.
Proof.
  unfold rearm. destruct (period t).
  - induction ts as [|u ts IH]; simpl; auto.
    intros H. apply andb_prop in H as [Hu Hts]. rewrite (IH Hts), andb_true_r.
    destruct (Nat.eqb (tid u) (tid t)); auto.
  - apply forallb_filter.
Qed.

Lemma settle_timers pid out b : timers (settle pid out b) = timers b.
Proof.
  unfold settle. destruct (nth_error (promises b) pid) as [[o []]|]; reflexivity.
Qed.

Lemma settle_window pid out b : window (settle pid out b) = window b.
Proof.
  unfold settle. destruct (nth_error (promises b) pid) as [[o []]|]; reflexivity.
Qed.

Lemma loader_timers_action t b :
  forallb loader_timer (timers b) = true ->
  forallb loader_timer (timers (run_loader_action t b)) = true.
Proof.
  intros H. unfold run_loader_action, checkReady_tick, loadTimeout_fire, resolve, reject.
  destruct (act t); auto.
  - destruct (api_ready p (window b)); auto.
    rewrite settle_timers. apply forallb_filter. exact H.
  - destruct (api_truthy p (window (clearTimer cid b)));
      rewrite settle_timers; apply forallb_filter; exact H.
Qed.

Lemma loader_timers_pop b t b' :
  pop_timer b = Some (t, b') ->
  forallb loader_timer (timers b) = true ->
  loader_timer t = true /\ forallb loader_timer (timers b') = true.
Proof.
  unfold pop_timer. destruct (next_timer (timers b)) as [u|] eqn:E; [|discriminate].
  intros H Hall. injection H as <- <-. split.
  - apply next_timer_In in E. rewrite forallb_forall in Hall. auto.
  - simpl. apply loader_timers_rearm. exact Hall.
Qed.

Lemma loader_timers_script ok i b :
  forallb loader_timer (timers b) = true ->
  forallb loader_timer (timers (script_event ok i b)) = true.
Proof.
  intros H. unfold script_event.
  destruct (nth_error (scripts b) i) as [[u [[p pid]|]]|]; auto.
  destruct ok.
  - unfold script_onload, setInterval, setTimeout, add_timer. simpl.
    destruct p; simpl; rewrite <- app_assoc, forallb_app, H; reflexivity.
  - unfold script_onerror, reject. rewrite settle_timers. destruct p; exact H.
Qed.

Lemma loader_timers_advance dt b : timers (advance dt b) = timers b.
Proof. unfold advance. destruct (next_timer (timers b)); reflexivity. Qed.

Lemma loader_timers_provider_settle pid r b :
  timers (provider_settle pid r b) = timers b.
Proof.
  unfold provider_settle.
  destruct (nth_error (promises b) pid) as [[[] []]|]; try reflexivity.
  apply settle_timers.
Qed.

(** *** After the cleanup *)

Lemma verify_calls_app tr1 tr2 :
  verify_calls (tr1 ++ tr2) = verify_calls tr1 ++ verify_calls tr2.
Proof. unfold verify_calls. apply flat_map_app. Qed.

Lemma silent_refl w : silent w w.
Proof. split; reflexivity. Qed.

Lemma silent_trans w1 w2 w3 : silent w1 w2 -> silent w2 w3 -> silent w1 w3.
Proof. intros [A B] [C D]. split; congruence. Qed.

Lemma silent_console msg w : silent w (log (ConsoleError msg) w).
Proof.
  split; [|reflexivity]. simpl. rewrite verify_calls_app. simpl. apply app_nil_r.
Qed.

(** A continuation of [initCaptcha] that wakes up from [await load...()]
    after the cleanup of its effect does nothing, or logs the rejection. *)
Lemma resume_after_load_dead props g out w :
  effLive (comp w) = None ->
  task (resume props (KInitAfterLoad g) out w) = w
  \/ task (resume props (KInitAfterLoad g) out w)
     = log (ConsoleError "Captcha initialization failed:") w.
Proof.
  intros H. unfold resume, isMounted. rewrite H. simpl.
  destruct out; simpl; auto.
Qed.

Lemma drain_quiet props ws : forall w,
  effLive (comp w) = None ->
  forallb load_waiter ws = true ->
  forallb load_waiter (waiters (comp w)) = true ->
  let w' := drain_from props ws w in
  page w' = page w
  /\ mounted (comp w') = mounted (comp w)
  /\ effLive (comp w') = None
  /\ widgets (comp w') = widgets (comp w)
  /\ forallb load_waiter (waiters (comp w')) = true
  /\ silent w w'.
Proof.
  induction ws as [|[pid k] ws IH]; intros w He Hws Hw; cbv zeta.
  - simpl. repeat split; auto.
  - simpl in Hws. apply andb_prop in Hws as [Hk Hws].
    destruct k; try discriminate Hk.
    assert (Keep : let w1 := await pid (KInitAfterLoad g) w in
                   let w' := drain_from props ws w1 in
                   page w' = page w /\ mounted (comp w') = mounted (comp w)
                   /\ effLive (comp w') = None /\ widgets (comp w') = widgets (comp w)
                   /\ forallb load_waiter (waiters (comp w')) = true /\ silent w w').
    { cbv zeta.
      destruct (IH (await pid (KInitAfterLoad g) w)) as (A & B & C & D & E & F); auto.
      - simpl. rewrite forallb_app, Hw. reflexivity.
      - repeat split; auto; apply F. }
    assert (Run : forall out, let w1 := task (resume props (KInitAfterLoad g) out w) in
                   let w' := drain_from props ws w1 in
                   page w' = page w /\ mounted (comp w') = mounted (comp w)
                   /\ effLive (comp w') = None /\ widgets (comp w') = widgets (comp w)
                   /\ forallb load_waiter (waiters (comp w')) = true /\ silent w w').
    { intros out. cbv zeta.
      destruct (resume_after_load_dead props g out w He) as [-> | ->].
      - apply IH; auto.
      - destruct (IH (log (ConsoleError "Captcha initialization failed:") w))
          as (A & B & C & D & E & F); auto.
        repeat split; auto;
          apply (silent_trans _ _ _ (silent_console "Captcha initialization failed:" w) F). }
    cbn [drain_from]. destruct (promise_state pid (page w)) as [[| v | e]|].
    + apply Keep.
    + apply (Run (Fulfilled v)).
    + apply (Run (Rejected e)).
    + apply Keep.
Qed.

Lemma set_page_same w : set_page (page w) w = w.
Proof. destruct w; reflexivity. Qed.

Lemma flush_unmounted props w : mounted (comp w) = false -> flush props w = w.
Proof. intros H. unfold flush. rewrite H. reflexivity. Qed.

(** Once the instance is quiet, an event only moves the page. *)
Lemma handle_quiet props ev w :
  host_reset ev = false ->
  quiet w ->
  exists b, handle props ev w = set_page b w
            /\ forallb loader_timer (timers b) = true.
Proof.
  intros Hev (Hm & He & Hwd & Hws & Hts).
  destruct ev; try discriminate Hev; cbn [handle].
  - destruct (pop_timer (page w)) as [[t b]|] eqn:E.
    + destruct (loader_timers_pop _ _ _ E Hts) as [Ht Hb].
      exists (run_loader_action t b). split.
      * unfold loader_timer in Ht. destruct (act t); try discriminate; reflexivity.
      * apply loader_timers_action. exact Hb.
    + exists (page w). rewrite set_page_same. auto.
  - eexists. split; [reflexivity|]. rewrite loader_timers_advance. exact Hts.
  - eexists. split; [reflexivity|]. exact Hts.
  - eexists. split; [reflexivity|]. apply loader_timers_script. exact Hts.
  - eexists. split; [reflexivity|]. apply loader_timers_script. exact Hts.
  - eexists. split; [reflexivity|]. rewrite loader_timers_provider_settle. exact Hts.
  - rewrite Hwd. destruct wid; exists (page w); rewrite set_page_same; auto.
  - rewrite Hwd. destruct wid; exists (page w); rewrite set_page_same; auto.
  - rewrite Hwd. destruct wid; exists (page w); rewrite set_page_same; auto.
  - unfold unmount. rewrite Hm. exists (page w). rewrite set_page_same. auto.
Qed.

Lemma quiet_step props ev w :
  host_reset ev = false ->
  quiet w -> quiet (step props ev w) /\ silent w (step props ev w).
Proof.
  intros Hev Q. destruct (handle_quiet props ev w Hev Q) as (b & Hh & Hb).
  destruct Q as (Hm & He & Hwd & Hws & Hts).
  unfold step. rewrite Hh. unfold drain.
  change (waiters (comp (set_page b w))) with (waiters (comp w)).
  destruct (drain_quiet props (waiters (comp w))
              (upd_comp (set_waiters []) (set_page b w)) He Hws eq_refl)
    as (A & B & C & D & E & F).
  cbv zeta in *. simpl in A, B, D.
  rewrite flush_unmounted by congruence.
  split; [|exact F].
  unfold quiet. rewrite A, B, C, D, E. auto.
Qed.

Lemma quiet_run props evs : forall w,
  existsb host_reset evs = false ->
  quiet w -> quiet (run props evs w) /\ silent w (run props evs w).
Proof.
  induction evs as [|ev evs IH]; intros w Hevs Q.
  - split; [exact Q|apply silent_refl].
  - cbn [existsb] in Hevs. apply orb_false_iff in Hevs as [Hev Hevs].
    cbn [run fold_left]. destruct (quiet_step props ev w Hev Q) as [Q1 S1].
    destruct (IH _ Hevs Q1) as [Q2 S2]. split; [exact Q2|].
    exact (silent_trans _ _ _ S1 S2).
Qed.

Lemma silent_log o w :
  match o with OnVerify _ => False | _ => True end -> silent w (log o w).
Proof.
  intros H. split; [|reflexivity]. simpl. rewrite verify_calls_app.
  destruct o; try contradiction; apply app_nil_r.
Qed.

(** The cleanup of the effect: what it leaves and what it may call. *)
Lemma cleanup_frame props w :
  let w' := cleanup props w in
  mounted (comp w') = mounted (comp w)
  /\ effLive (comp w') = None
  /\ widgets (comp w') = widgets (comp w)
  /\ waiters (comp w') = waiters (comp w)
  /\ timers (page w')
     = match effLive (comp w) with
       | Some g => filter (fun t => negb (Nat.eqb (tid t) g)) (timers (page w))
       | None => timers (page w)
       end
  /\ silent w w'.
Proof.
  cbv zeta. unfold cleanup.
  destruct (effLive (comp w)) as [g|] eqn:He.
  2:{ rewrite He. repeat split; reflexivity. }
  destruct (provider props); cbn [set_page upd_comp set_comp page comp].
  - repeat split; reflexivity.
  - destruct (widgetIdRef (set_effLive None (comp w))) as [wid|];
      [|repeat split; reflexivity].
    cbn [window clearTimer set_timers].
    destruct (turnstile (window (page w))) eqn:Et; [|repeat split; reflexivity].
    unfold turnstile_call. cbn [set_page upd_comp set_comp page comp window clearTimer
                                set_timers]. rewrite Et.
    destruct (faulty (window (page w)));
      cbn -[verify_calls]; repeat split; unfold silent; cbn -[verify_calls];
      rewrite ?verify_calls_app; cbn; rewrite ?app_nil_r; auto.
Qed.

Lemma unmount_mid_init props w :
  mid_init w = true ->
  quiet (step props EvUnmount w) /\ silent w (step props EvUnmount w).
Proof.
  unfold mid_init. intros H.
  apply andb_prop in H as [H Hts]. apply andb_prop in H as [H Hws].
  apply andb_prop in H as [Hm Hwd].
  destruct (widgets (comp w)) eqn:Ewd; [clear Hwd|discriminate].
  destruct (cleanup_frame props w) as (A & B & C & D & E & F). cbv zeta in *.
  unfold step. cbn [handle]. unfold unmount. rewrite Hm. unfold drain.
  set (w1 := upd_comp (set_mounted false) (cleanup props w)).
  assert (Hw1 : waiters (comp w1) = waiters (comp w)) by exact D.
  assert (Ht1 : forallb loader_timer (timers (page w1)) = true).
  { change (timers (page w1)) with (timers (page (cleanup props w))). rewrite E.
    unfold live_init_timer in Hts.
    destruct (effLive (comp w)) as [g|].
    - clear - Hts. induction (timers (page w)) as [|t ts IH]; [reflexivity|].
      simpl in Hts. apply andb_prop in Hts as [Ht Hts]. simpl.
      destruct (Nat.eqb (tid t) g) eqn:Eg; simpl; [auto|].
      rewrite (IH Hts), andb_true_r.
      destruct (loader_timer t); [reflexivity|].
      destruct (act t); discriminate.
    - clear - Hts. induction (timers (page w)) as [|t ts IH]; [reflexivity|].
      simpl in Hts. apply andb_prop in Hts as [Ht Hts]. simpl.
      rewrite (IH Hts), andb_true_r.
      destruct (loader_timer t); [reflexivity|].
      destruct (act t); discriminate. }
  rewrite Hw1.
  destruct (drain_quiet props (waiters (comp w)) (upd_comp (set_waiters []) w1))
    as (A' & B' & C' & D' & E' & F'); auto.
  cbv zeta in *. simpl in A', B', D'.
  rewrite flush_unmounted by (rewrite B'; reflexivity).
  split.
  - unfold quiet. rewrite A', B', C', D', E', C, Ewd. auto.
  - apply (silent_trans _ _ _ F). exact F'.
Qed.

(** A fresh mount is in the middle of its initialization. *)
Lemma mount_mid_init b :
  forallb loader_timer (timers b) = true -> mid_init (mount b) = true.
Proof.
  intros H. unfold mid_init, mount, run_effect, setTimeout, add_timer. cbn.
  rewrite forallb_app. cbn. rewrite Nat.eqb_refl, andb_true_r.
  rewrite forallb_forall in *. intros t Ht. rewrite (H t Ht). reflexivity.
Qed.

(** States of a run that are in the middle of the initialization: right
    after the mount, while [initCaptcha] waits for the script element, and
    while the loader polls for the global. *)
Lemma mid_init_reached :
  mid_init (mount (fresh_page no_api)) = true
  /\ mid_init (awaiting_script (google_props "site" "login")) = true
  /\ mid_init (awaiting_script (turnstile_props "site" Checkbox)) = true
  /\ mid_init (run (turnstile_props "site" Checkbox) [EvScriptLoad 0; EvTimer; EvAdvance 40]
                 (awaiting_script (turnstile_props "site" Checkbox))) = true
  /\ mid_init (turnstile_rendered "site" Checkbox) = false.
Proof. vm_compute. repeat split; reflexivity. Qed.

(** The cleanup on a rendered Turnstile widget. *)
Lemma unmount_removes_widget props w g wid :
  provider props = CloudflareTurnstile ->
  mounted (comp w) = true ->
  effLive (comp w) = Some g ->
  widgetIdRef (comp w) = Some wid ->
  turnstile (window (page w)) = true ->
  faulty (window (page w)) = false ->
  let w' := handle props EvUnmount w in
  trace w' = trace w ++ [TurnstileRemove wid]
  /\ widgetIdRef (comp w') = None
  /\ mounted (comp w') = false
  /\ uncaught w' = uncaught w.
Proof.
  intros Hp Hm He Hw Ht Hf. cbv zeta. cbn [handle]. unfold unmount, cleanup.
  rewrite Hm, He, Hp. simpl. rewrite Hw, Ht. unfold turnstile_call. simpl.
  rewrite Ht, Hf. simpl. repeat split.
Qed.

(** The cleanup when [turnstile.remove] throws, or when the global has
    gone: the exception is caught and logged, the identifier stays. *)
Lemma unmount_keeps_widget_id props w g wid :
  provider props = CloudflareTurnstile ->
  mounted (comp w) = true ->
  effLive (comp w) = Some g ->
  widgetIdRef (comp w) = Some wid ->
  let w' := handle props EvUnmount w in
  (turnstile (window (page w)) = true -> faulty (window (page w)) = true ->
   trace w' = trace w ++ [TurnstileRemove wid;
                          ConsoleError "Failed to remove Turnstile widget:"]
   /\ widgetIdRef (comp w') = Some wid
   /\ uncaught w' = uncaught w)
  /\ (turnstile (window (page w)) = false ->
      trace w' = trace w /\ widgetIdRef (comp w') = Some wid).
Proof.
  intros Hp Hm He Hw. cbv zeta. cbn [handle]. unfold unmount, cleanup.
  rewrite Hm, He, Hp. simpl. rewrite Hw. split.
  - intros Ht Hf. rewrite Ht. unfold turnstile_call. simpl. rewrite Ht, Hf. simpl.
    rewrite <- app_assoc. repeat split. exact Hw.
  - intros Ht. rewrite Ht. simpl. split; [reflexivity|exact Hw].
Qed.

(** What does hold of an instance unmounted in the middle of its
    initialization with no [reset()] in flight, as long as the host does not
    call [reset()] on a handle it has kept: [onVerify] is never called
    again, no exception escapes, no widget exists and none is rendered
    later. *)
Lemma unmount_mid_init_run props w evs :
  mid_init w = true ->
  existsb host_reset evs = false ->
  let w' := run props (EvUnmount :: evs) w in
  verify_calls (trace w') = verify_calls (trace w)
  /\ uncaught w' = uncaught w
  /\ mounted (comp w') = false
  /\ widgets (comp w') = [].
Proof.
  intros H Hevs. cbv zeta.
  cbn [run fold_left]. destruct (unmount_mid_init props w H) as [Q1 S1].
  destruct (quiet_run props evs _ Hevs Q1) as [Q2 S2].
  destruct (silent_trans _ _ _ S1 S2) as [V U].
  destruct Q2 as (Hm & _ & Hwd & _). auto.
Qed.

(** *** What an unmounted instance can still do *)

Lemma same_core_refl w : same_core w w.
Proof. repeat split. Qed.

Lemma same_core_trans w1 w2 w3 : same_core w1 w2 -> same_core w2 w3 -> same_core w1 w3.
Proof. intros (A & B & C) (D & E & F). repeat split; congruence. Qed.

Lemma core_bind w r k :
  same_core w (world_of r) ->
  (forall w', same_core w w' -> same_core w' (world_of (k w'))) ->
  same_core w (world_of (r >>= k)).
Proof.
  intros Hr Hk. destruct r as [w'|e w']; simpl in *; [|exact Hr].
  eapply same_core_trans; eauto.
Qed.

Lemma core_try w r h :
  same_core w (world_of r) ->
  (forall e w', same_core w' (h e w')) ->
  same_core w (world_of (try_catch r h)).
Proof.
  intros Hr Hh. destruct r as [w'|e w']; simpl in *; [exact Hr|].
  eapply same_core_trans; eauto.
Qed.

Lemma core_task w r : same_core w (world_of r) -> same_core w (task r).
Proof. destruct r; simpl; auto. Qed.

Lemma core_log o w : same_core w (log o w).
Proof. repeat split. Qed.

Lemma core_console msg e w : same_core w (console_error msg e w).
Proof. repeat split. Qed.

Lemma core_set_page b w : same_core w (set_page b w).
Proof. repeat split. Qed.

Lemma core_sleep ms k w : same_core w (sleep ms k w).
Proof. repeat split. Qed.

Lemma core_await pid k w : same_core w (await pid k w).
Proof. repeat split. Qed.

Lemma core_setIsInitialized b w : same_core w (setIsInitialized b w).
Proof. unfold setIsInitialized. simpl. destruct (mounted (comp w)); repeat split. Qed.

Lemma core_onVerify props token w : same_core w (world_of (onVerify props token w)).
Proof. unfold onVerify. destruct (onVerifyOk props token); repeat split. Qed.

Lemma core_grecaptcha_execute key act k w :
  same_core w (world_of (grecaptcha_execute key act k w)).
Proof.
  unfold grecaptcha_execute.
  destruct (grecaptcha (window (page w))); try apply same_core_refl.
  destruct (faulty (window (page w))); repeat split.
Qed.

Lemma core_turnstile_call o w : same_core w (world_of (turnstile_call o w)).
Proof.
  unfold turnstile_call.
  destruct (turnstile (window (page w))); try apply same_core_refl.
  destruct (faulty (window (page w))); repeat split.
Qed.

Create HintDb core_frame.
#[local] Hint Resolve same_core_refl core_log core_console core_set_page core_sleep
  core_await core_setIsInitialized core_onVerify core_grecaptcha_execute
  core_turnstile_call core_task core_try core_bind : core_frame.

(** Without a mounted component there is no container, so nothing is
    rendered after the settle delay. *)
Lemma core_init_after_settle props g w :
  mounted (comp w) = false ->
  same_core w (world_of (init_after_settle props g w)).
Proof.
  intros Hm. unfold init_after_settle, widgetRef_current. rewrite Hm. simpl.
  destruct (provider props).
  - destruct (grecaptcha (window (page w))); simpl; auto with core_frame.
  - destruct (turnstile (window (page w))); simpl; auto with core_frame.
Qed.

Lemma resume_core props k out w :
  mounted (comp w) = false -> same_core w (task (resume props k out w)).
Proof.
  intros Hm. apply core_task. unfold resume, init_try, reset_cf_try, reset_google_try.
  destruct k; apply core_try; auto with core_frame.
  - destruct out; simpl; auto with core_frame;
      destruct (negb (isMounted g w)); simpl; auto with core_frame.
  - apply core_init_after_settle. exact Hm.
  - destruct out; simpl; auto with core_frame.
    destruct (isMounted g w); simpl; auto with core_frame.
    eapply same_core_trans; [apply core_setIsInitialized | apply core_onVerify].
  - destruct out; simpl; auto with core_frame.
    eapply same_core_trans; [apply core_setIsInitialized | apply core_onVerify].
Qed.

Lemma initCaptcha_core props g c w : same_core w (task (initCaptcha props g c w)).
Proof.
  apply core_task. unfold initCaptcha.
  destruct (skip props).
  - apply core_bind; auto with core_frame.
    intros w' _. apply core_setIsInitialized.
  - destruct c; auto with core_frame.
    unfold init_try. apply core_try; auto with core_frame.
    unfold loadGoogleScript, loadCloudflareScript.
    destruct (provider props).
    + destruct (loadScript GoogleV3 (siteKey props) (page w)); repeat split.
    + destruct (loadScript CloudflareTurnstile "" (page w)); repeat split.
Qed.

Lemma drain_core props ws : forall w,
  mounted (comp w) = false -> same_core w (drain_from props ws w).
Proof.
  induction ws as [|[pid k] ws IH]; intros w Hm; cbn [drain_from].
  - apply same_core_refl.
  - assert (Keep : same_core w (drain_from props ws (await pid k w))).
    { eapply same_core_trans; [apply core_await|]. apply IH. exact Hm. }
    assert (Run : forall out,
               same_core w (drain_from props ws (task (resume props k out w)))).
    { intros out. pose proof (resume_core props k out w Hm) as H.
      eapply same_core_trans; [exact H|]. apply IH.
      destruct H as (H & _). congruence. }
    destruct (promise_state pid (page w)) as [[| v | e]|]; auto.
Qed.

Lemma core_reset props w : same_core w (task (reset props w)).
Proof.
  apply core_task. unfold reset, reset_cf_try, reset_google_try.
  destruct (skip props); [apply same_core_refl|].
  destruct (provider props).
  - apply core_try; [|auto with core_frame].
    destruct (grecaptcha (window (page (setIsInitialized false w))));
      try apply core_setIsInitialized.
    eapply same_core_trans; [apply core_setIsInitialized|apply core_grecaptcha_execute].
  - destruct (widgetIdRef (comp (setIsInitialized false w)));
      [|apply core_setIsInitialized].
    destruct (turnstile (window (page (setIsInitialized false w))));
      [|apply core_setIsInitialized].
    apply core_try; [|auto with core_frame].
    eapply same_core_trans; [apply core_setIsInitialized|].
    apply core_bind; [apply core_turnstile_call|].
    intros w' _. destruct (mode props); simpl; auto with core_frame.
Qed.

(** After the unmount nothing mounts the instance again, no effect closure
    comes to life and no widget is rendered. *)
Lemma handle_core props ev w :
  mounted (comp w) = false -> same_core w (handle props ev w).
Proof.
  intros Hm. destruct ev; cbn [handle]; try apply core_set_page.
  - destruct (pop_timer (page w)) as [[t b]|]; [|apply same_core_refl].
    destruct (act t); try apply core_set_page.
    + eapply same_core_trans; [apply (core_set_page b)|]. apply initCaptcha_core.
    + eapply same_core_trans; [apply (core_set_page b)|]. apply resume_core. exact Hm.
  - destruct (nth_error (widgets (comp w)) wid) as [g|]; [|apply same_core_refl].
    apply core_task. unfold ts_callback.
    destruct (negb (isMounted g w)); simpl; auto with core_frame.
    eapply same_core_trans; [apply core_setIsInitialized | apply core_onVerify].
  - destruct (nth_error (widgets (comp w)) wid); [|apply same_core_refl].
    apply core_task. simpl. apply core_setIsInitialized.
  - destruct (nth_error (widgets (comp w)) wid); [|apply same_core_refl].
    apply core_task. simpl.
    eapply same_core_trans; [apply core_log | apply core_setIsInitialized].
  - apply core_reset.
  - unfold unmount. rewrite Hm. apply same_core_refl.
Qed.

Lemma step_core props ev w :
  mounted (comp w) = false -> same_core w (step props ev w).
Proof.
  intros Hm. unfold step.
  pose proof (handle_core props ev w Hm) as H1.
  assert (Hm1 : mounted (comp (handle props ev w)) = false)
    by (destruct H1 as (H & _); congruence).
  pose proof (drain_core props (waiters (comp (handle props ev w)))
                (upd_comp (set_waiters []) (handle props ev w)) Hm1) as H2.
  fold (drain props (handle props ev w)) in H2.
  assert (Hm2 : mounted (comp (drain props (handle props ev w))) = false)
    by (destruct H2 as (H & _); simpl in H; congruence).
  rewrite flush_unmounted by exact Hm2.
  eapply same_core_trans; [exact H1|].
  eapply same_core_trans; [|exact H2]. repeat split.
Qed.

Lemma run_core props evs : forall w,
  mounted (comp w) = false -> same_core w (run props evs w).
Proof.
  induction evs as [|ev evs IH]; intros w Hm; cbn [run fold_left].
  - apply same_core_refl.
  - pose proof (step_core props ev w Hm) as H.
    eapply same_core_trans; [exact H|]. apply IH.
    destruct H as (H & _). congruence.
Qed.

Lemma unmount_step_core props w :
  mounted (comp w) = true ->
  let w1 := step props EvUnmount w in
  mounted (comp w1) = false
  /\ effLive (comp w1) = None
  /\ widgets (comp w1) = widgets (comp w).
Proof.
  intros Hm. cbv zeta. unfold step. cbn [handle]. unfold unmount. rewrite Hm.
  destruct (cleanup_frame props w) as (_ & B & C & _). cbv zeta in *.
  set (w1 := upd_comp (set_mounted false) (cleanup props w)).
  assert (Hm1 : mounted (comp w1) = false) by reflexivity.
  pose proof (drain_core props (waiters (comp w1)) (upd_comp (set_waiters []) w1) Hm1)
    as (D & E & F).
  fold (drain props w1) in D, E, F. simpl in D, E, F.
  rewrite flush_unmounted by exact D.
  repeat split; congruence.
Qed.

(** *** A [reset()] in flight when the component unmounts *)

Lemma cleanup_promises props w : promises (page (cleanup props w)) = promises (page w).
Proof.
  unfold cleanup. destruct (effLive (comp w)); [|reflexivity].
  destruct (provider props); [reflexivity|].
  cbn [set_page upd_comp set_comp page comp].
  destruct (widgetIdRef (set_effLive None (comp w))); [|reflexivity].
  destruct (turnstile (window (clearTimer n (page w)))); [|reflexivity].
  unfold turnstile_call. cbn [set_page page].
  destruct (turnstile (window (clearTimer n (page w)))); [|reflexivity].
  destruct (faulty (window (clearTimer n (page w)))); reflexivity.
Qed.

Lemma nth_error_list_set_other {A : Type} (l : list A) : forall i j x,
  i <> j -> nth_error (list_set i x l) j = nth_error l j.
Proof.
  induction l as [|h t IH]; intros [|i] [|j] x H; simpl; try reflexivity.
  - contradiction.
  - apply IH. congruence.
Qed.

Lemma promise_state_settle_other pid out b lp :
  lp <> pid -> promise_state lp (settle pid out b) = promise_state lp b.
Proof.
  intros H. unfold promise_state, settle.
  destruct (nth_error (promises b) pid) as [[o [| |]]|]; try reflexivity.
  cbn [promises set_promises]. rewrite nth_error_list_set_other by congruence.
  reflexivity.
Qed.

(** C7 fails in the code.  An instance unmounted in the middle of its
    initialization, the script load still unresolved, with a [reset()] of
    the host in flight: when the provider answers after the unmount, the
    continuation of [reset()], which has no [isMounted] test, calls
    [setIsInitialized(true)] and hands the token to [onVerify], the load
    still being pending.  The unmount itself reports nothing. *)
Theorem unmount_mid_initialization_reset_in_flight props w g lp pid token :
  reset_in_flight w g lp pid ->
  let w1 := step props EvUnmount w in
  let w2 := step props (EvSettle pid (Some token)) w1 in
  mounted (comp w1) = false
  /\ promise_state lp (page w1) = Some Pending
  /\ verify_calls (trace w1) = verify_calls (trace w)
  /\ mounted (comp w2) = false
  /\ promise_state lp (page w2) = Some Pending
  /\ verify_calls (trace w2) = verify_calls (trace w) ++ [token]
  /\ exists rest, trace w2 = trace w1 ++ SetIsInitialized true :: OnVerify token :: rest.
Proof.
  intros (Hm & Hw & Hl & Hp). cbv zeta.
  assert (Hne : lp <> pid).
  { intros E. subst lp. rewrite Hl in Hp. discriminate Hp. }
  destruct (cleanup_frame props w) as (A & B & C & D & E & F). cbv zeta in *.
  pose proof (cleanup_promises props w) as P.
  set (c := cleanup props w) in *.
  assert (E1 : step props EvUnmount w
               = await pid KResetGotToken
                   (await lp (KInitAfterLoad g)
                      (upd_comp (set_waiters []) (upd_comp (set_mounted false) c)))).
  { unfold step. cbn [handle]. unfold unmount. rewrite Hm. unfold drain. fold c.
    change (waiters (comp (upd_comp (set_mounted false) c))) with (waiters (comp c)).
    rewrite D, Hw. cbn [drain_from]. unfold promise_state.
    change (promises (page (upd_comp (set_waiters []) (upd_comp (set_mounted false) c))))
      with (promises (page c)).
    rewrite P, Hl. cbn [option_map pstate pending_cell].
    change (promises (page (await lp (KInitAfterLoad g)
                              (upd_comp (set_waiters [])
                                 (upd_comp (set_mounted false) c)))))
      with (promises (page c)).
    rewrite P, Hp. cbn [option_map pstate].
    apply flush_unmounted. reflexivity. }
  rewrite E1. clear E1.
  set (w1 := await pid KResetGotToken
               (await lp (KInitAfterLoad g)
                  (upd_comp (set_waiters []) (upd_comp (set_mounted false) c)))).
  assert (V1 : verify_calls (trace w1) = verify_calls (trace w)) by apply F.
  assert (P1 : promises (page w1) = promises (page w)) by exact P.
  assert (L1 : promise_state lp (page w1) = Some Pending).
  { unfold promise_state. rewrite P1, Hl. reflexivity. }
  split; [reflexivity|]. split; [exact L1|]. split; [exact V1|].
  set (b2 := provider_settle pid (Some token) (page w1)).
  assert (B2 : b2 = settle pid (Fulfilled token) (page w1)).
  { unfold b2, provider_settle. rewrite P1, Hp. reflexivity. }
  assert (S : promise_state pid b2 = Some (Fulfilled token)).
  { rewrite B2. apply promise_state_settle. unfold promise_state.
    rewrite P1, Hp. reflexivity. }
  assert (L2 : promise_state lp b2 = Some Pending).
  { rewrite B2, promise_state_settle_other by exact Hne. exact L1. }
  set (x := await lp (KInitAfterLoad g) (upd_comp (set_waiters []) (set_page b2 w1))).
  assert (E2 : step props (EvSettle pid (Some token)) w1
               = task (resume props KResetGotToken (Fulfilled token) x)).
  { unfold step. cbn [handle]. fold b2. unfold drain.
    change (waiters (comp (set_page b2 w1)))
      with [(lp, KInitAfterLoad g); (pid, KResetGotToken)].
    cbn [drain_from].
    change (page (upd_comp (set_waiters []) (set_page b2 w1))) with b2.
    rewrite L2.
    change (page (await lp (KInitAfterLoad g)
                    (upd_comp (set_waiters []) (set_page b2 w1)))) with b2.
    rewrite S. fold x. apply flush_unmounted.
    pose proof (resume_core props KResetGotToken (Fulfilled token) x eq_refl) as (R & _).
    exact R. }
  rewrite E2. clear E2.
  assert (Hx : mounted (comp x) = false) by reflexivity.
  assert (Tx : trace x = trace w1) by reflexivity.
  assert (Px : page x = b2) by reflexivity.
  unfold resume, reset_google_try, onVerify, setIsInitialized.
  cbn [log comp upd_comp set_comp]. rewrite Hx.
  destruct (onVerifyOk props token); cbn [try_catch task escape console_error log
                                          comp page trace].
  - split; [exact Hx|]. split; [rewrite Px; exact L2|]. split.
    + rewrite Tx, !verify_calls_app, V1. cbn. rewrite app_nil_r. reflexivity.
    + exists []. rewrite Tx, <- app_assoc. reflexivity.
  - split; [exact Hx|]. split; [rewrite Px; exact L2|]. split.
    + rewrite Tx, !verify_calls_app, V1. cbn. rewrite !app_nil_r. reflexivity.
    + exists [ConsoleError "Failed to reset Google reCAPTCHA v3:"].
      rewrite Tx, <- !app_assoc. reflexivity.
Qed.

Lemma unmount_mid_initialization_reset_in_flight_witness :
  let props := google_props "site" "login" in
  let w := run props [EvWindow api_loaded; EvReset] (awaiting_script props) in
  reset_in_flight w 0 0 1
  /\ scripts (page w) = [{| src := script_src GoogleV3 "site"; handlers := Some (GoogleV3, 0%nat) |}]
  /\ trace w = [SetIsInitialized false; GrecaptchaExecute "site" "login"]
  /\ verify_calls
       (trace (run props [EvUnmount; EvSettle 1 (Some "late")] w)) = ["late"].
Proof.
  cbv zeta.
  set (props := google_props "site" "login").
  set (w := run props [EvWindow api_loaded; EvReset] (awaiting_script props)).
  assert (H : reset_in_flight w 0 0 1) by (vm_compute; repeat split; reflexivity).
  assert (T : trace w = [SetIsInitialized false; GrecaptchaExecute "site" "login"])
    by (vm_compute; reflexivity).
  split; [exact H|]. split; [vm_compute; reflexivity|]. split; [exact T|].
  destruct (unmount_mid_initialization_reset_in_flight props w 0 0 1 "late" H)
    as (_ & _ & _ & _ & _ & V & _).
  change (run props [EvUnmount; EvSettle 1 (Some "late")] w)
    with (step props (EvSettle 1 (Some "late")) (step props EvUnmount w)).
  rewrite V, T. reflexivity.
Defined.

(** A handle object kept by the host after the unmount: through the ref
    nothing can be called, but [reset()] on the kept object still calls
    [grecaptcha.execute], and the answer reaches [onVerify]. *)
Lemma reset_on_kept_handle_after_unmount key act token :
  let props := google_props key act in
  let w := step props EvUnmount (awaiting_script props) in
  let w' := run props [EvWindow api_loaded; EvReset; EvSettle 1 (Some token)] w in
  mounted (comp w) = false
  /\ call_handle props "reset" w = None
  /\ trace w = []
  /\ trace w' = [SetIsInitialized false; GrecaptchaExecute key act;
                 SetIsInitialized true; OnVerify token].
Proof. vm_compute. repeat split; reflexivity. Qed.

(** C10. After the unmount the success callback of a rendered widget
    returns at its [isMounted] test: the token is dropped and nothing at all
    happens.  The expired and error callbacks have no such test: whenever
    the provider invokes them after the unmount, [setIsInitialized(false)]
    is still called (after the [console.error] of the error callback).
    While the closure is live, the success callback does report its token. *)
Theorem callbacks_after_unmount props w evs wid g token :
  mounted (comp w) = true ->
  nth_error (widgets (comp w)) wid = Some g ->
  let w' := run props (EvUnmount :: evs) w in
  mounted (comp w') = false
  /\ handle props (EvTsSuccess wid token) w' = w'
  /\ trace (handle props (EvTsExpired wid) w') = trace w' ++ [SetIsInitialized false]
  /\ trace (handle props (EvTsError wid) w')
     = trace w' ++ [ConsoleError " Turnstile error:"; SetIsInitialized false]
  /\ (isMounted g w = true ->
      verify_calls (trace (handle props (EvTsSuccess wid token) w))
      = verify_calls (trace w) ++ [token]).
Proof.
  intros Hm Hw. cbv zeta. cbn [run fold_left].
  destruct (unmount_step_core props w Hm) as (A & B & C). cbv zeta in *.
  destruct (run_core props evs _ A) as (D & E & F).
  fold (run props evs (step props EvUnmount w)) in *.
  set (w' := run props evs (step props EvUnmount w)) in *.
  assert (Hm' : mounted (comp w') = false) by congruence.
  assert (He' : effLive (comp w') = None) by congruence.
  assert (Hw' : nth_error (widgets (comp w')) wid = Some g) by congruence.
  split; [exact Hm'|]. split; [|split; [|split]].
  - cbn [handle]. rewrite Hw'. unfold ts_callback, isMounted. rewrite He'. reflexivity.
  - cbn [handle]. rewrite Hw'. unfold ts_expired_callback, setIsInitialized.
    cbn [task log comp]. rewrite Hm'. reflexivity.
  - cbn [handle]. rewrite Hw'. unfold ts_error_callback, setIsInitialized.
    cbn [task log comp]. rewrite Hm'. cbn [trace log]. rewrite <- app_assoc. reflexivity.
  - intros Hg. cbn [handle]. rewrite Hw. unfold ts_callback. rewrite Hg. cbn [negb].
    unfold onVerify, setIsInitialized. cbn [log comp]. rewrite Hm.
    destruct (onVerifyOk props token); cbn; rewrite !verify_calls_app; cbn;
      rewrite app_nil_r; reflexivity.
Qed.

Lemma callbacks_after_unmount_witness :
  mounted (comp (turnstile_rendered "site" Checkbox)) = true
  /\ nth_error (widgets (comp (turnstile_rendered "site" Checkbox))) 0 = Some 0%nat
  /\ trace (handle (turnstile_props "site" Checkbox) (EvTsExpired 0)
              (run (turnstile_props "site" Checkbox) (EvUnmount :: [EvTimer])
                 (turnstile_rendered "site" Checkbox)))
     = trace (run (turnstile_props "site" Checkbox) (EvUnmount :: [EvTimer])
                (turnstile_rendered "site" Checkbox))
       ++ [SetIsInitialized false].
Proof.
  assert (M : mounted (comp (turnstile_rendered "site" Checkbox)) = true)
    by (vm_compute; reflexivity).
  assert (W : nth_error (widgets (comp (turnstile_rendered "site" Checkbox))) 0
              = Some 0%nat) by (vm_compute; reflexivity).
  split; [exact M|]. split; [exact W|].
  exact (proj1 (proj2 (proj2 (callbacks_after_unmount
                                (turnstile_props "site" Checkbox) _ [EvTimer] 0 0 "" M W)))).
Defined.

(** *** [reset()] on Cloudflare Turnstile *)

Lemma drain_no_waiters props w :
  waiters (comp w) = [] -> drain props w = upd_comp (set_waiters []) w.
Proof. intros H. unfold drain. rewrite H. reflexivity. Qed.

Lemma flush_changed props w :
  mounted (comp w) = true ->
  isInitialized (comp w) = negb (renderedInit (comp w)) ->
  flush props w
  = run_effect (cleanup props (upd_comp (set_renderedInit (isInitialized (comp w))) w)).
Proof.
  intros Hm Hi. unfold flush. rewrite Hm, Hi.
  destruct (renderedInit (comp w)); reflexivity.
Qed.

Lemma flush_unchanged props w :
  isInitialized (comp w) = renderedInit (comp w) -> flush props w = w.
Proof. intros Hi. unfold flush. rewrite Hi, eqb_reflx, andb_false_r. reflexivity. Qed.

Lemma cleanup_removes props w g wid :
  provider props = CloudflareTurnstile ->
  effLive (comp w) = Some g ->
  widgetIdRef (comp w) = Some wid ->
  turnstile (window (page w)) = true ->
  faulty (window (page w)) = false ->
  cleanup props w
  = upd_comp (set_widgetIdRef None)
      (log (TurnstileRemove wid)
         (set_page (clearTimer g (page w)) (upd_comp (set_effLive None) w))).
Proof.
  intros Hp He Hw Ht Hf. unfold cleanup. rewrite He, Hp.
  change (widgetIdRef (comp (set_page (clearTimer g (page (upd_comp (set_effLive None) w)))
                               (upd_comp (set_effLive None) w))))
    with (widgetIdRef (comp w)).
  change (window (page (set_page (clearTimer g (page (upd_comp (set_effLive None) w)))
                          (upd_comp (set_effLive None) w))))
    with (window (page w)).
  rewrite Hw, Ht. unfold turnstile_call.
  change (window (page (set_page (clearTimer g (page (upd_comp (set_effLive None) w)))
                          (upd_comp (set_effLive None) w))))
    with (window (page w)).
  rewrite Ht, Hf. reflexivity.
Qed.

Lemma cleanup_no_widget props w g :
  effLive (comp w) = Some g ->
  widgetIdRef (comp w) = None ->
  cleanup props w = set_page (clearTimer g (page w)) (upd_comp (set_effLive None) w).
Proof.
  intros He Hw. unfold cleanup. rewrite He.
  change (widgetIdRef (comp (set_page (clearTimer g (page (upd_comp (set_effLive None) w)))
                               (upd_comp (set_effLive None) w))))
    with (widgetIdRef (comp w)).
  rewrite Hw. destruct (provider props); reflexivity.
Qed.

Lemma ts_success_live props w wid g token :
  mounted (comp w) = true ->
  effLive (comp w) = Some g ->
  nth_error (widgets (comp w)) wid = Some g ->
  onVerifyOk props token = true ->
  handle props (EvTsSuccess wid token) w
  = log (OnVerify token)
      (upd_comp (set_isInitialized true) (log (SetIsInitialized true) w)).
Proof.
  intros Hm He Hn Hok. cbn [handle]. rewrite Hn.
  unfold ts_callback, isMounted. rewrite He, Nat.eqb_refl. cbn [negb].
  unfold onVerify. rewrite Hok. unfold setIsInitialized.
  change (mounted (comp (log (SetIsInitialized true) w))) with (mounted (comp w)).
  rewrite Hm. reflexivity.
Qed.

Lemma reset_no_widget props w :
  provider props = CloudflareTurnstile ->
  skip props = false ->
  mounted (comp w) = true ->
  widgetIdRef (comp w) = None ->
  handle props EvReset w
  = upd_comp (set_isInitialized false) (log (SetIsInitialized false) w).
Proof.
  intros Hp Hs Hm Hw. cbn [handle]. unfold reset. rewrite Hs, Hp.
  unfold setIsInitialized.
  change (mounted (comp (log (SetIsInitialized false) w))) with (mounted (comp w)).
  rewrite Hm.
  change (widgetIdRef (comp (upd_comp (set_isInitialized false)
                               (log (SetIsInitialized false) w))))
    with (widgetIdRef (comp w)).
  rewrite Hw. reflexivity.
Qed.

(** The whole turn of the success callback of a live widget. *)
Lemma ts_success_step props w wid g token :
  provider props = CloudflareTurnstile ->
  mounted (comp w) = true ->
  effLive (comp w) = Some g ->
  nth_error (widgets (comp w)) wid = Some g ->
  widgetIdRef (comp w) = Some wid ->
  renderedInit (comp w) = false ->
  waiters (comp w) = [] ->
  turnstile (window (page w)) = true ->
  faulty (window (page w)) = false ->
  onVerifyOk props token = true ->
  step props (EvTsSuccess wid token) w
  = run_effect
      (upd_comp (set_widgetIdRef None)
         (log (TurnstileRemove wid)
            (set_page (clearTimer g (page w))
               (upd_comp (set_effLive None)
                  (upd_comp (set_renderedInit true)
                     (upd_comp (set_waiters [])
                        (log (OnVerify token)
                           (upd_comp (set_isInitialized true)
                              (log (SetIsInitialized true) w))))))))).
Proof.
  intros Hp Hm He Hn Hw Hr Hwt Ht Hf Hok.
  unfold step. rewrite (ts_success_live props w wid g token Hm He Hn Hok).
  rewrite drain_no_waiters by exact Hwt.
  rewrite flush_changed; [|exact Hm|cbn; rewrite Hr; reflexivity].
  rewrite (cleanup_removes props _ g wid);
    [reflexivity|exact Hp|exact He|exact Hw|exact Ht|exact Hf].
Qed.

Lemma next_timer_head t rest :
  forallb (fun u => due t <=? due u) rest = true -> next_timer (t :: rest) = Some t.
Proof.
  intros H. cbn [next_timer]. destruct (next_timer rest) as [u|] eqn:E; [|reflexivity].
  apply next_timer_In in E. rewrite forallb_forall in H. specialize (H u E).
  apply Z.leb_le in H. destruct (due u <? due t) eqn:L; [|reflexivity].
  apply Z.ltb_lt in L. lia.
Qed.

(** A timer fires before the later ones, and before those of the same due
    time that were armed after it. *)
Lemma next_timer_first ts t rest :
  forallb (fun u => due t <? due u) ts = true ->
  forallb (fun u => due t <=? due u) rest = true ->
  next_timer (ts ++ t :: rest) = Some t.
Proof.
  intros Hts Hrest. induction ts as [|x ts IH]; [apply next_timer_head; exact Hrest|].
  cbn [forallb] in Hts. apply andb_prop in Hts as [Hx Hts].
  cbn [app next_timer]. rewrite (IH Hts), Hx. reflexivity.
Qed.

(** [reset()] itself, up to its [await]: the setter, then [turnstile.reset]
    on the stored identifier, then, in invisible mode, the 100 ms timer. *)
Lemma reset_turnstile_handle props w wid :
  provider props = CloudflareTurnstile ->
  skip props = false ->
  mounted (comp w) = true ->
  widgetIdRef (comp w) = Some wid ->
  turnstile (window (page w)) = true ->
  faulty (window (page w)) = false ->
  handle props EvReset w
  = match mode props with
    | Invisible =>
        sleep 100 KResetAutoExec
          (log (TurnstileReset wid)
             (upd_comp (set_isInitialized false) (log (SetIsInitialized false) w)))
    | Checkbox =>
        log (TurnstileReset wid)
          (upd_comp (set_isInitialized false) (log (SetIsInitialized false) w))
    end.
Proof.
  intros Hp Hs Hm Hw Ht Hf. cbn [handle].
  unfold reset, setIsInitialized. rewrite Hs, Hp. simpl. rewrite Hm. simpl.
  rewrite Hw, Ht. unfold reset_cf_try, turnstile_call. simpl. rewrite Ht, Hf.
  destruct (mode props); reflexivity.
Qed.

(** With [skip], [reset()] returns at once: no provider call, no
    [onVerify]. *)
Lemma reset_skip_returns props w : skip props = true -> handle props EvReset w = w.
Proof. intros Hs. cbn [handle]. unfold reset. rewrite Hs. reflexivity. Qed.

(** The timer of [reset()] fires: [turnstile.execute] is called on what
    [widgetIdRef] holds at that moment. *)
Lemma reset_timer_fires props x ts i d rest :
  timers (page x)
  = ts ++ {| tid := i; due := d; period := None; act := Resume KResetAutoExec |} :: rest ->
  forallb (fun u => d <? due u) ts = true ->
  forallb (fun u => d <=? due u) rest = true ->
  now (page x) <= d ->
  turnstile (window (page x)) = true ->
  faulty (window (page x)) = false ->
  waiters (comp x) = [] ->
  isInitialized (comp x) = renderedInit (comp x) ->
  let x' := step props EvTimer x in
  trace x' = trace x ++ [TurnstileExecute (widgetIdRef (comp x))]
  /\ now (page x') = d
  /\ uncaught x' = uncaught x.
Proof.
  intros T Hts Hrest Hnow Ht Hf Hwt Hi. cbv zeta.
  set (R := {| tid := i; due := d; period := None; act := Resume KResetAutoExec |}) in *.
  assert (Hpop : exists b, pop_timer (page x) = Some (R, b)
                           /\ window b = window (page x)
                           /\ now b = Z.max (now (page x)) d).
  { unfold pop_timer. rewrite T, (next_timer_first ts R rest Hts Hrest).
    eexists. split; [reflexivity|]. split; reflexivity. }
  destruct Hpop as (b & Hpop & Hbw & Hbn).
  assert (E : handle props EvTimer x
              = log (TurnstileExecute (widgetIdRef (comp x))) (set_page b x)).
  { cbn [handle]. rewrite Hpop. cbn [act R]. unfold resume, reset_cf_try, turnstile_call.
    change (window (page (set_page b x))) with (window b). rewrite Hbw, Ht, Hf.
    reflexivity. }
  unfold step. rewrite E. rewrite drain_no_waiters by exact Hwt.
  rewrite flush_unchanged by exact Hi.
  split; [reflexivity|]. split; [|reflexivity].
  change (now b = d). rewrite Hbn. lia.
Qed.

(** What does hold: when no render is pending and nothing happens during
    the wait, the identifier passed to [turnstile.execute] is the one that
    was reset. *)
Lemma reset_turnstile_undisturbed props w wid :
  provider props = CloudflareTurnstile ->
  mode props = Invisible ->
  skip props = false ->
  mounted (comp w) = true ->
  widgetIdRef (comp w) = Some wid ->
  waiters (comp w) = [] ->
  isInitialized (comp w) = false ->
  renderedInit (comp w) = false ->
  turnstile (window (page w)) = true ->
  faulty (window (page w)) = false ->
  forallb (fun t => now (page w) + 100 <? due t) (timers (page w)) = true ->
  let w1 := step props EvReset w in
  let w2 := step props EvTimer w1 in
  trace w1 = trace w ++ [SetIsInitialized false; TurnstileReset wid]
  /\ now (page w2) = now (page w) + 100
  /\ trace w2 = trace w1 ++ [TurnstileExecute (Some wid)].
Proof.
  intros Hp Hmd Hs Hm Hw Hwt Hi Hr Ht Hf Hts. cbv zeta.
  assert (E1 : step props EvReset w
               = upd_comp (set_waiters [])
                   (sleep 100 KResetAutoExec
                      (log (TurnstileReset wid)
                         (upd_comp (set_isInitialized false)
                            (log (SetIsInitialized false) w))))).
  { unfold step. rewrite (reset_turnstile_handle props w wid Hp Hs Hm Hw Ht Hf), Hmd.
    rewrite drain_no_waiters by exact Hwt.
    apply flush_unchanged. cbn. rewrite Hr. reflexivity. }
  rewrite E1. clear E1. set (w1 := upd_comp _ _).
  assert (X1 : trace w1 = (trace w ++ [SetIsInitialized false]) ++ [TurnstileReset wid])
    by reflexivity.
  assert (T1 : timers (page w1)
               = timers (page w)
                 ++ {| tid := next_tid (page w); due := now (page w) + 100;
                       period := None; act := Resume KResetAutoExec |} :: [])
    by reflexivity.
  destruct (reset_timer_fires props w1 _ _ _ _ T1 Hts eq_refl) as (A & B & _);
    try assumption; try reflexivity.
  { change (now (page w) <= now (page w) + 100). lia. }
  { cbn. rewrite Hr. reflexivity. }
  split; [rewrite X1, <- app_assoc; reflexivity|].
  split; [exact B|]. rewrite A. change (widgetIdRef (comp w1)) with (widgetIdRef (comp w)).
  rewrite Hw. reflexivity.
Qed.

(** A pending re-render at the time of the call: [reset()] clears
    [isInitialized], the effect is cleaned up and removes the widget, and
    the timer of [reset()] then finds no identifier. *)
Lemma reset_turnstile_after_verified props w wid g :
  provider props = CloudflareTurnstile ->
  mode props = Invisible ->
  skip props = false ->
  mounted (comp w) = true ->
  effLive (comp w) = Some g ->
  (g < next_tid (page w))%nat ->
  widgetIdRef (comp w) = Some wid ->
  waiters (comp w) = [] ->
  turnstile (window (page w)) = true ->
  faulty (window (page w)) = false ->
  forallb (fun t => now (page w) + 100 <? due t) (timers (page w)) = true ->
  isInitialized (comp w) = true ->
  renderedInit (comp w) = true ->
  let w1 := step props EvReset w in
  let w2 := step props EvTimer w1 in
  trace w1 = trace w ++ [SetIsInitialized false; TurnstileReset wid; TurnstileRemove wid]
  /\ widgetIdRef (comp w1) = None
  /\ now (page w2) = now (page w) + 100
  /\ trace w2 = trace w1 ++ [TurnstileExecute None].
Proof.
  intros Hp Hmd Hs Hm He Hg Hw Hwt Ht Hf Hts Hi Hr. cbv zeta.
  assert (E1 : step props EvReset w
               = run_effect
                   (upd_comp (set_widgetIdRef None)
                      (log (TurnstileRemove wid)
                         (set_page
                            (clearTimer g
                               (page (sleep 100 KResetAutoExec
                                        (log (TurnstileReset wid)
                                           (upd_comp (set_isInitialized false)
                                              (log (SetIsInitialized false) w))))))
                            (upd_comp (set_effLive None)
                               (upd_comp (set_renderedInit false)
                                  (upd_comp (set_waiters [])
                                     (sleep 100 KResetAutoExec
                                        (log (TurnstileReset wid)
                                           (upd_comp (set_isInitialized false)
                                              (log (SetIsInitialized false) w))))))))))).
  { unfold step. rewrite (reset_turnstile_handle props w wid Hp Hs Hm Hw Ht Hf), Hmd.
    rewrite drain_no_waiters by exact Hwt.
    rewrite flush_changed; [|exact Hm|cbn; rewrite Hr; reflexivity].
    rewrite (cleanup_removes props _ g wid);
      [reflexivity|exact Hp|exact He|exact Hw|exact Ht|exact Hf]. }
  rewrite E1. clear E1. set (w1 := run_effect _).
  assert (X1 : trace w1
               = ((trace w ++ [SetIsInitialized false]) ++ [TurnstileReset wid])
                 ++ [TurnstileRemove wid]) by reflexivity.
  assert (W1 : widgetIdRef (comp w1) = None) by reflexivity.
  assert (Hne : Nat.eqb (next_tid (page w)) g = false) by (apply Nat.eqb_neq; lia).
  assert (T1 : timers (page w1)
               = filter (fun t => negb (Nat.eqb (tid t) g)) (timers (page w))
                 ++ {| tid := next_tid (page w); due := now (page w) + 100;
                       period := None; act := Resume KResetAutoExec |}
                    :: [ {| tid := S (next_tid (page w)); due := now (page w) + 100;
                            period := None; act := InitCaptcha false |} ]).
  { change (timers (page w1))
      with (filter (fun t => negb (Nat.eqb (tid t) g))
              (timers (page w)
               ++ [ {| tid := next_tid (page w); due := now (page w) + 100;
                       period := None; act := Resume KResetAutoExec |} ])
            ++ [ {| tid := S (next_tid (page w)); due := now (page w) + 100;
                    period := None; act := InitCaptcha false |} ]).
    rewrite filter_app. cbn [filter tid]. rewrite Hne. cbn [negb].
    rewrite <- app_assoc. reflexivity. }
  destruct (reset_timer_fires props w1 _ _ _ _ T1) as (A & B & _);
    try assumption; try reflexivity.
  { apply forallb_filter. exact Hts. }
  { cbn [forallb due]. rewrite Z.leb_refl. reflexivity. }
  { change (now (page w) <= now (page w) + 100). lia. }
  split; [rewrite X1, <- !app_assoc; reflexivity|].
  split; [exact W1|]. split; [exact B|]. rewrite A, W1. reflexivity.
Qed.

(** A token delivered during the wait: the success callback sets
    [isInitialized], the effect is cleaned up and removes the widget, and
    the timer of [reset()] then finds no identifier. *)
Lemma reset_turnstile_token_during_wait props w wid g token :
  provider props = CloudflareTurnstile ->
  mode props = Invisible ->
  skip props = false ->
  mounted (comp w) = true ->
  effLive (comp w) = Some g ->
  (g < next_tid (page w))%nat ->
  widgetIdRef (comp w) = Some wid ->
  waiters (comp w) = [] ->
  turnstile (window (page w)) = true ->
  faulty (window (page w)) = false ->
  forallb (fun t => now (page w) + 100 <? due t) (timers (page w)) = true ->
  isInitialized (comp w) = false ->
  renderedInit (comp w) = false ->
  nth_error (widgets (comp w)) wid = Some g ->
  onVerifyOk props token = true ->
  let w1 := step props EvReset w in
  let w2 := step props (EvTsSuccess wid token) w1 in
  let w3 := step props EvTimer w2 in
  trace w1 = trace w ++ [SetIsInitialized false; TurnstileReset wid]
  /\ trace w2 = trace w1 ++ [SetIsInitialized true; OnVerify token; TurnstileRemove wid]
  /\ widgetIdRef (comp w2) = None
  /\ now (page w3) = now (page w) + 100
  /\ trace w3 = trace w2 ++ [TurnstileExecute None].
Proof.
  intros Hp Hmd Hs Hm He Hg Hw Hwt Ht Hf Hts Hi Hr Hn Hok. cbv zeta.
  assert (E1 : step props EvReset w
               = upd_comp (set_waiters [])
                   (sleep 100 KResetAutoExec
                      (log (TurnstileReset wid)
                         (upd_comp (set_isInitialized false)
                            (log (SetIsInitialized false) w))))).
  { unfold step. rewrite (reset_turnstile_handle props w wid Hp Hs Hm Hw Ht Hf), Hmd.
    rewrite drain_no_waiters by exact Hwt.
    apply flush_unchanged. cbn. rewrite Hr. reflexivity. }
  rewrite E1. clear E1. set (w1 := upd_comp _ _).
  assert (X1 : trace w1 = (trace w ++ [SetIsInitialized false]) ++ [TurnstileReset wid])
    by reflexivity.
  rewrite (ts_success_step props w1 wid g token);
    try assumption; try reflexivity.
  set (w2 := run_effect _).
  assert (X2 : trace w2
               = ((trace w1 ++ [SetIsInitialized true]) ++ [OnVerify token])
                 ++ [TurnstileRemove wid]) by reflexivity.
  assert (W2 : widgetIdRef (comp w2) = None) by reflexivity.
  assert (Hne : Nat.eqb (next_tid (page w)) g = false) by (apply Nat.eqb_neq; lia).
  assert (T2 : timers (page w2)
               = filter (fun t => negb (Nat.eqb (tid t) g)) (timers (page w))
                 ++ {| tid := next_tid (page w); due := now (page w) + 100;
                       period := None; act := Resume KResetAutoExec |}
                    :: [ {| tid := S (next_tid (page w)); due := now (page w) + 100;
                            period := None; act := InitCaptcha true |} ]).
  { change (timers (page w2))
      with (filter (fun t => negb (Nat.eqb (tid t) g))
              (timers (page w)
               ++ [ {| tid := next_tid (page w); due := now (page w) + 100;
                       period := None; act := Resume KResetAutoExec |} ])
            ++ [ {| tid := S (next_tid (page w)); due := now (page w) + 100;
                    period := None; act := InitCaptcha true |} ]).
    rewrite filter_app. cbn [filter tid]. rewrite Hne. cbn [negb].
    rewrite <- app_assoc. reflexivity. }
  destruct (reset_timer_fires props w2 _ _ _ _ T2) as (A & B & _);
    try assumption; try reflexivity.
  { apply forallb_filter. exact Hts. }
  { cbn [forallb due]. rewrite Z.leb_refl. reflexivity. }
  { change (now (page w) <= now (page w) + 100). lia. }
  split; [rewrite X1, <- app_assoc; reflexivity|].
  split; [rewrite X2, <- !app_assoc; reflexivity|].
  split; [exact W2|]. split; [exact B|]. rewrite A, W2. reflexivity.
Qed.

(** C6 fails in the code.  On a mounted invisible Turnstile instance
    holding a widget identifier, with the API present and answering,
    [reset()] does call [turnstile.reset] on that identifier; the identifier
    passed to [turnstile.execute] 100 ms later is read from [widgetIdRef]
    again, and a cleanup of the effect during the wait has removed the
    widget and cleared it.  That cleanup is caused by [reset()] itself when
    [isInitialized] was set (no event is needed in between), and by the
    success callback when a token arrives during the wait: in both runs
    [turnstile.execute] is called with no identifier, on a widget that has
    been removed. *)
Theorem reset_turnstile_executes_cleared_id props w wid g :
  provider props = CloudflareTurnstile ->
  mode props = Invisible ->
  skip props = false ->
  mounted (comp w) = true ->
  effLive (comp w) = Some g ->
  (g < next_tid (page w))%nat ->
  widgetIdRef (comp w) = Some wid ->
  waiters (comp w) = [] ->
  turnstile (window (page w)) = true ->
  faulty (window (page w)) = false ->
  forallb (fun t => now (page w) + 100 <? due t) (timers (page w)) = true ->
  (isInitialized (comp w) = true ->
   renderedInit (comp w) = true ->
   let w1 := step props EvReset w in
   let w2 := step props EvTimer w1 in
   trace w1 = trace w ++ [SetIsInitialized false; TurnstileReset wid; TurnstileRemove wid]
   /\ widgetIdRef (comp w1) = None
   /\ now (page w2) = now (page w) + 100
   /\ trace w2 = trace w1 ++ [TurnstileExecute None])
  /\ (forall token,
        isInitialized (comp w) = false ->
        renderedInit (comp w) = false ->
        nth_error (widgets (comp w)) wid = Some g ->
        onVerifyOk props token = true ->
        let w1 := step props EvReset w in
        let w2 := step props (EvTsSuccess wid token) w1 in
        let w3 := step props EvTimer w2 in
        trace w1 = trace w ++ [SetIsInitialized false; TurnstileReset wid]
        /\ trace w2
           = trace w1 ++ [SetIsInitialized true; OnVerify token; TurnstileRemove wid]
        /\ widgetIdRef (comp w2) = None
        /\ now (page w3) = now (page w) + 100
        /\ trace w3 = trace w2 ++ [TurnstileExecute None]).
Proof.
  intros Hp Hmd Hs Hm He Hg Hw Hwt Ht Hf Hts. split.
  - intros Hi Hr. apply (reset_turnstile_after_verified props w wid g); assumption.
  - intros token Hi Hr Hn Hok.
    apply (reset_turnstile_token_during_wait props w wid g token); assumption.
Qed.

Lemma reset_turnstile_executes_cleared_id_witness :
  let props := turnstile_props "site" Invisible in
  let w := turnstile_rendered "site" Invisible in
  let v := run props [EvWindow api_faulty; EvTsSuccess 0 "t0"; EvWindow api_loaded; EvTimer]
             w in
  (widgetIdRef (comp w) = Some 0%nat /\ isInitialized (comp w) = false
   /\ since w (run props [EvReset; EvTsSuccess 0 "token"; EvTimer] w)
      = [SetIsInitialized false; TurnstileReset 0;
         SetIsInitialized true; OnVerify "token"; TurnstileRemove 0;
         TurnstileExecute None])
  /\ (widgetIdRef (comp v) = Some 0%nat /\ isInitialized (comp v) = true
      /\ since v (run props [EvReset; EvTimer] v)
         = [SetIsInitialized false; TurnstileReset 0; TurnstileRemove 0;
            TurnstileExecute None]).
Proof.
  cbv zeta.
  set (props := turnstile_props "site" Invisible).
  set (w := turnstile_rendered "site" Invisible).
  set (v := run props [EvWindow api_faulty; EvTsSuccess 0 "t0"; EvWindow api_loaded; EvTimer]
              w).
  split.
  - assert (Hm : mounted (comp w) = true) by (vm_compute; reflexivity).
    assert (He : effLive (comp w) = Some 0%nat) by (vm_compute; reflexivity).
    assert (Hg : (0 < next_tid (page w))%nat) by (vm_compute; lia).
    assert (Hw : widgetIdRef (comp w) = Some 0%nat) by (vm_compute; reflexivity).
    assert (Hwt : waiters (comp w) = []) by (vm_compute; reflexivity).
    assert (Ht : turnstile (window (page w)) = true) by (vm_compute; reflexivity).
    assert (Hf : faulty (window (page w)) = false) by (vm_compute; reflexivity).
    assert (Hts : forallb (fun t => now (page w) + 100 <? due t) (timers (page w)) = true)
      by (vm_compute; reflexivity).
    assert (Hi : isInitialized (comp w) = false) by (vm_compute; reflexivity).
    assert (Hr : renderedInit (comp w) = false) by (vm_compute; reflexivity).
    assert (Hn : nth_error (widgets (comp w)) 0 = Some 0%nat) by (vm_compute; reflexivity).
    split; [exact Hw|]. split; [exact Hi|].
    destruct (reset_turnstile_executes_cleared_id props w 0 0
                eq_refl eq_refl eq_refl Hm He Hg Hw Hwt Ht Hf Hts) as (_ & B).
    destruct (B "token" Hi Hr Hn eq_refl) as (T1 & T2 & _ & _ & T3).
    change (run props [EvReset; EvTsSuccess 0 "token"; EvTimer] w)
      with (step props EvTimer (step props (EvTsSuccess 0 "token") (step props EvReset w))).
    unfold since. rewrite T3, T2, T1, <- !app_assoc, skipn_app, skipn_all, Nat.sub_diag.
    reflexivity.
  - assert (Hm : mounted (comp v) = true) by (vm_compute; reflexivity).
    assert (He : effLive (comp v) = Some 5%nat) by (vm_compute; reflexivity).
    assert (Hg : (5 < next_tid (page v))%nat) by (vm_compute; lia).
    assert (Hw : widgetIdRef (comp v) = Some 0%nat) by (vm_compute; reflexivity).
    assert (Hwt : waiters (comp v) = []) by (vm_compute; reflexivity).
    assert (Ht : turnstile (window (page v)) = true) by (vm_compute; reflexivity).
    assert (Hf : faulty (window (page v)) = false) by (vm_compute; reflexivity).
    assert (Hts : forallb (fun t => now (page v) + 100 <? due t) (timers (page v)) = true)
      by (vm_compute; reflexivity).
    assert (Hi : isInitialized (comp v) = true) by (vm_compute; reflexivity).
    assert (Hr : renderedInit (comp v) = true) by (vm_compute; reflexivity).
    split; [exact Hw|]. split; [exact Hi|].
    destruct (reset_turnstile_executes_cleared_id props v 0 5
                eq_refl eq_refl eq_refl Hm He Hg Hw Hwt Ht Hf Hts) as (A & _).
    destruct (A Hi Hr) as (T1 & _ & _ & T2).
    change (run props [EvReset; EvTimer] v)
      with (step props EvTimer (step props EvReset v)).
    unfold since. rewrite T2, T1, <- !app_assoc, skipn_app, skipn_all, Nat.sub_diag.
    reflexivity.
Defined.

(** * Further properties of the loaders *)

(** The selector of each loader matches the URL the loader itself inserts,
    whatever the site key. *)
Lemma selector_matches_own_script p key :
  contains (selector_needle p) (script_src p key) = true.
Proof. destruct p; reflexivity. Qed.

(** *** After a successful load *)

Lemma settle_settled pid out b : all_settled b = true -> settle pid out b = b.
Proof.
  unfold all_settled, settle. intros H.
  destruct (nth_error (promises b) pid) as [[o st]|] eqn:E; [|reflexivity].
  apply nth_error_In in E. rewrite forallb_forall in H. specialize (H _ E).
  simpl in H. destruct st; [discriminate|reflexivity|reflexivity].
Qed.

Lemma loaded_page_parts p b :
  loaded_page p b = true ->
  scriptLoaded (vars p b) = true /\ api_truthy p (window b) = true
  /\ all_settled b = true /\ all_fired b = true
  /\ forallb loader_timer (timers b) = true.
Proof.
  unfold loaded_page. intros H.
  apply andb_prop in H as [H H5]. apply andb_prop in H as [H H4].
  apply andb_prop in H as [H H3]. apply andb_prop in H as [H1 H2]. auto.
Qed.

Lemma loaded_page_intro p b :
  scriptLoaded (vars p b) = true -> api_truthy p (window b) = true ->
  all_settled b = true -> all_fired b = true ->
  forallb loader_timer (timers b) = true -> loaded_page p b = true.
Proof. unfold loaded_page. intros -> -> -> -> ->. reflexivity. Qed.

(** On a loaded page a loader timer that fires leaves everything but the
    clock and the timer queue. *)
Lemma loaded_timer_action t b :
  all_settled b = true ->
  let b' := run_loader_action t b in
  promises b' = promises b /\ scripts b' = scripts b /\ window b' = window b
  /\ gvars b' = gvars b /\ cvars b' = cvars b.
Proof.
  intros H. cbv zeta.
  unfold run_loader_action, checkReady_tick, loadTimeout_fire, resolve, reject.
  destruct (act t); auto.
  - destruct (api_ready p (window b)); auto.
    rewrite settle_settled by exact H. auto.
  - destruct (api_truthy p (window (clearTimer cid b)));
      rewrite settle_settled by exact H; auto.
Qed.

Lemma script_event_fired ok i b : all_fired b = true -> script_event ok i b = b.
Proof.
  unfold all_fired, script_event. intros H.
  destruct (nth_error (scripts b) i) as [[u h]|] eqn:E; [|reflexivity].
  apply nth_error_In in E. rewrite forallb_forall in H. specialize (H _ E).
  simpl in H. destruct h as [[q pid]|]; [discriminate|reflexivity].
Qed.

Lemma loaded_step p ev s :
  loaded_page p (lpage s) = true ->
  after_load_event p ev = true ->
  let s' := lstep ev s in
  loaded_page p (lpage s') = true
  /\ scripts (lpage s') = scripts (lpage s)
  /\ promises (lpage s')
     = promises (lpage s)
       ++ match ev with LLoad _ _ => [fulfilled_cell] | _ => [] end
  /\ returned s'
     = returned s
       ++ match ev with LLoad _ _ => [List.length (promises (lpage s))] | _ => [] end.
Proof.
  intros H Hev. destruct (loaded_page_parts _ _ H) as (H1 & H2 & H3 & H4 & H5).
  destruct s as [b r]. cbn [lpage returned] in *. cbv zeta.
  destruct ev; cbn [lstep lpage returned]; rewrite ?app_nil_r.
  - (* a call *)
    simpl in Hev. assert (p0 = p) by (destruct p, p0; auto; discriminate). subst p0.
    unfold loadScript. rewrite H1, H2. cbn [andb promise_resolved new_promise lpage returned].
    repeat split; auto.
    apply loaded_page_intro; try (destruct p; assumption).
    unfold all_settled in *. cbn. rewrite forallb_app, H3. reflexivity.
  - rewrite script_event_fired by exact H4. auto.
  - rewrite script_event_fired by exact H4. auto.
  - destruct (pop_timer b) as [[t b1]|] eqn:E; cbn [lpage returned]; rewrite ?app_nil_r; auto.
    destruct (loader_timers_pop _ _ _ E H5) as [_ Hb1].
    assert (F : promises b1 = promises b /\ scripts b1 = scripts b
                /\ window b1 = window b /\ gvars b1 = gvars b /\ cvars b1 = cvars b).
    { unfold pop_timer in E. destruct (next_timer (timers b)); [|discriminate].
      injection E as <- <-. repeat split. }
    destruct F as (F1 & F2 & F3 & F4 & F5).
    assert (S1 : all_settled b1 = true) by (unfold all_settled; rewrite F1; exact H3).
    destruct (loaded_timer_action t b1 S1) as (G1 & G2 & G3 & G4 & G5). cbv zeta in *.
    repeat split; try congruence.
    apply loaded_page_intro.
    + destruct p; simpl in *; congruence.
    + rewrite G3, F3. exact H2.
    + unfold all_settled. rewrite G1, F1. exact H3.
    + unfold all_fired. rewrite G2, F2. exact H4.
    + apply loader_timers_action. exact Hb1.
  - assert (Hn : exists tm, advance dt b = set_now tm b).
    { unfold advance. destruct (next_timer (timers b)); eauto. }
    destruct Hn as [tm ->]. repeat split; auto.
    all: apply loaded_page_intro; try (destruct p; assumption); assumption.
  - simpl in Hev. repeat split; auto.
    all: apply loaded_page_intro; try (destruct p; assumption); assumption.
Qed.

(** X1. Once a loader has finished (loaded flag set, global present,
    nothing pending), every later call, with whatever site key, is answered
    with a fresh promise that is already fulfilled; no script element is
    ever added, also when the left-over 10 s timer fires or the other
    globals change. *)
Theorem load_after_success p evs : forall s,
  loaded_page p (lpage s) = true ->
  forallb (after_load_event p) evs = true ->
  let s' := lrun evs s in
  scripts (lpage s') = scripts (lpage s)
  /\ promises (lpage s') = promises (lpage s) ++ repeat fulfilled_cell (loads_of p evs)
  /\ returned s'
     = returned s ++ seq (List.length (promises (lpage s))) (loads_of p evs)
  /\ loaded_page p (lpage s') = true.
Proof.
  induction evs as [|ev evs IH]; intros s H Hall; cbv zeta.
  - unfold loads_of. simpl. rewrite !app_nil_r. auto.
  - simpl in Hall. apply andb_prop in Hall as [Hev Hall].
    destruct (loaded_step p ev s H Hev) as (A & B & C & D). cbv zeta in *.
    destruct (IH (lstep ev s) A Hall) as (A' & B' & C' & D'). cbv zeta in *.
    unfold lrun in *. cbn [fold_left].
    rewrite A', B', C', B, C, D. unfold loads_of.
    destruct ev; cbn [filter]; simpl in Hev; rewrite ?Hev; cbn [List.length repeat seq];
      rewrite ?app_nil_r; repeat split; auto.
    + rewrite <- app_assoc. reflexivity.
    + rewrite <- app_assoc, length_app. cbn [List.length app].
      rewrite Nat.add_1_r. reflexivity.
Qed.

Lemma load_after_success_witness :
  let s := lrun [LWindow api_loaded; LTimer] (after_onload GoogleV3 "site" no_api) in
  let evs := [LLoad GoogleV3 "other"; LTimer; LLoad GoogleV3 "site"] in
  loaded_page GoogleV3 (lpage s) = true
  /\ forallb (after_load_event GoogleV3) evs = true
  /\ map src (scripts (lpage (lrun evs s)))
     = ["https://www.google.com/recaptcha/api.js?render=site"]
  /\ returned (lrun evs s) = [0%nat; 1%nat; 2%nat].
Proof.
  cbv zeta.
  assert (H1 : loaded_page GoogleV3
                 (lpage (lrun [LWindow api_loaded; LTimer]
                           (after_onload GoogleV3 "site" no_api))) = true)
    by (vm_compute; reflexivity).
  assert (H2 : forallb (after_load_event GoogleV3)
                 [LLoad GoogleV3 "other"; LTimer; LLoad GoogleV3 "site"] = true)
    by reflexivity.
  split; [exact H1|]. split; [exact H2|].
  destruct (load_after_success GoogleV3 _ _ H1 H2) as (A & _ & C & _).
  rewrite A, C. vm_compute. split; reflexivity.
Defined.

(** *** A fetch failure and the retry *)

Lemma lrun_cons ev evs s : lrun (ev :: evs) s = lrun evs (lstep ev s).
Proof. reflexivity. Qed.

Lemma loading_run p key evs : forall w t r,
  api_truthy p w = false ->
  forallb (loading_event p) evs = true ->
  exists w' t',
    api_truthy p w' = false
    /\ lrun evs {| lpage := loading_page p key w t; returned := r |}
       = {| lpage := loading_page p key w' t';
            returned := r ++ repeat 0%nat (loads_of p evs) |}.
Proof.
  induction evs as [|ev evs IH]; intros w t r Hw Hall.
  - exists w, t. split; [exact Hw|]. unfold loads_of. simpl. rewrite app_nil_r. reflexivity.
  - simpl in Hall. apply andb_prop in Hall as [Hev Hall].
    rewrite lrun_cons.
    destruct ev; simpl in Hev; try discriminate.
    + assert (p0 = p) by (destruct p, p0; auto; discriminate). subst p0.
      assert (E : lstep (LLoad p siteKey0) {| lpage := loading_page p key w t; returned := r |}
                  = {| lpage := loading_page p key w t; returned := r ++ [0%nat] |}).
      { unfold lstep. cbn [lpage returned].
        rewrite (load_while_loading p siteKey0 _ 0%nat); destruct p; reflexivity. }
      rewrite E. destruct (IH w t (r ++ [0%nat]) Hw Hall) as (w' & t' & Hw' & ->).
      exists w', t'. split; [exact Hw'|]. unfold loads_of. cbn [filter].
      rewrite Hev. cbn [List.length repeat]. rewrite <- app_assoc. reflexivity.
    + assert (E : lstep (LAdvance dt) {| lpage := loading_page p key w t; returned := r |}
                  = {| lpage := loading_page p key w (t + Z.max 0 dt); returned := r |})
        by (destruct p; reflexivity).
      rewrite E. apply IH; assumption.
    + assert (E : lstep (LWindow w0) {| lpage := loading_page p key w t; returned := r |}
                  = {| lpage := loading_page p key w0 t; returned := r |})
        by (destruct p; reflexivity).
      rewrite E. apply IH; [|assumption]. apply negb_true_iff. exact Hev.
Qed.

Lemma first_load_page p key w :
  api_ready p w = false ->
  lstep (LLoad p key) (lfresh w) = {| lpage := loading_page p key w 0; returned := [0%nat] |}.
Proof.
  destruct w as [g ts f]. intros H. destruct p, g, ts; try discriminate H; reflexivity.
Qed.

(** X2. A script element that fails to load: every caller that shared the
    load gets the fetch-failure rejection, no poll is started, and the loader
    forgets the promise and the loading flag.  The failed element stays in
    the document; the global still being absent, the next call starts over
    with a new pending promise and a second script element, carrying the
    site key of that call. *)
Theorem fetch_failure_then_retry p key key' w evs :
  api_truthy p w = false ->
  forallb (loading_event p) evs = true ->
  let s1 := lrun evs (lstep (LLoad p key) (lfresh w)) in
  let s2 := lstep (LScriptError 0) s1 in
  let s3 := lstep (LLoad p key') s2 in
  returned s2 = repeat 0%nat (S (loads_of p evs))
  /\ promise_state 0 (lpage s2) = Some (Rejected (fetch_error p))
  /\ vars p (lpage s2) = loaderInit
  /\ timers (lpage s2) = []
  /\ returned s3 = returned s2 ++ [1%nat]
  /\ promise_state 0 (lpage s3) = Some (Rejected (fetch_error p))
  /\ promise_state 1 (lpage s3) = Some Pending
  /\ scripts (lpage s3)
     = [ {| src := script_src p key; handlers := None |};
         {| src := script_src p key'; handlers := Some (p, 1%nat) |} ].
Proof.
  intros Hw Hall. cbv zeta.
  rewrite (first_load_page p key w (api_absent_not_ready _ _ Hw)).
  destruct (loading_run p key evs w 0 [0%nat] Hw Hall) as (w' & t' & Hw' & ->).
  destruct w' as [g ts f].
  destruct p, g, ts; try discriminate Hw'; repeat split.
Qed.

Lemma fetch_failure_then_retry_witness :
  let evs := [LLoad GoogleV3 "k2"; LAdvance 30; LLoad GoogleV3 "k1"] in
  api_truthy GoogleV3 no_api = false
  /\ forallb (loading_event GoogleV3) evs = true
  /\ map src (scripts (lpage (lstep (LLoad GoogleV3 "k3")
                                (lstep (LScriptError 0)
                                   (lrun evs (lstep (LLoad GoogleV3 "k1") (lfresh no_api)))))))
     = [ "https://www.google.com/recaptcha/api.js?render=k1";
         "https://www.google.com/recaptcha/api.js?render=k3" ].
Proof.
  cbv zeta.
  assert (H1 : api_truthy GoogleV3 no_api = false) by reflexivity.
  assert (H2 : forallb (loading_event GoogleV3)
                 [LLoad GoogleV3 "k2"; LAdvance 30; LLoad GoogleV3 "k1"] = true)
    by reflexivity.
  split; [exact H1|]. split; [exact H2|].
  destruct (fetch_failure_then_retry GoogleV3 "k1" "k3" no_api _ H1 H2)
    as (_ & _ & _ & _ & _ & _ & _ & H).
  rewrite H. reflexivity.
Defined.

(** *** The poll finds the global *)

Lemma poll_tick_ready p key w n t r :
  api_ready p w = true -> (n < 100)%nat ->
  lstep LTimer {| lpage := poll_page p key w n t; returned := r |}
  = {| lpage := resolved_page p key w (Z.max t (100 * (Z.of_nat n + 1))); returned := r |}.
Proof.
  intros Hw Hn.
  assert (E : (10000 <? 100 * (Z.of_nat n + 1)) = false) by (apply Z.ltb_ge; lia).
  destruct p; unfold lstep, pop_timer, poll_page, poll_timers;
    cbn [lpage returned set_vars timers next_timer due]; rewrite E;
    cbn [rearm period tid act run_loader_action map Nat.eqb due set_timers set_now
         now window timers next_tid promises scripts gvars cvars];
    unfold checkReady_tick, set_now, set_timers;
    cbn [now window timers next_tid promises scripts gvars cvars];
    rewrite Hw; reflexivity.
Qed.

Lemma resolved_timeout p key w w2 t r :
  t <= 10000 ->
  lrun [LWindow w2; LTimer] {| lpage := resolved_page p key w t; returned := r |}
  = {| lpage := timed_out_page p key w2 10000 (Fulfilled ""); returned := r |}.
Proof.
  intros Ht. assert (M : Z.max t 10000 = 10000) by lia.
  destruct w2 as [g ts f].
  destruct p, g, ts; unfold lrun; cbn [fold_left]; unfold lstep, pop_timer, resolved_page;
    cbn [lpage returned set_vars set_window timers next_timer now due rearm period filter
         tid negb Nat.eqb set_timers set_now];
    rewrite M; reflexivity.
Qed.

(** X3. While the script has loaded and the global is still absent, the
    first poll after the global becomes usable fulfils the promise, within
    the 10 s bound, and clears the interval.  The 10 s timer is not cleared:
    it fires later, at clock 10000, and leaves the promise fulfilled,
    whatever has become of the global by then. *)
Theorem poll_resolves_and_stays p key w w1 w2 evs :
  api_truthy p w = false ->
  forallb (waiting_event (api_absent p)) evs = true ->
  (firings evs < 100)%nat ->
  api_ready p w1 = true ->
  let s0 := lrun evs (after_onload p key w) in
  let s1 := lrun [LWindow w1; LTimer] s0 in
  let s2 := lrun [LWindow w2; LTimer] s1 in
  promise_state 0 (lpage s0) = Some Pending
  /\ promise_state 0 (lpage s1) = Some (Fulfilled "")
  /\ now (lpage s1) <= 10000
  /\ map act (timers (lpage s1)) = [LoadTimeout p 0 0]
  /\ promise_state 0 (lpage s2) = Some (Fulfilled "")
  /\ now (lpage s2) = 10000
  /\ timers (lpage s2) = [].
Proof.
  intros Ha Hall Hn Hw1. cbv zeta.
  assert (Hw : api_absent p w = true) by (unfold api_absent; rewrite Ha; reflexivity).
  pose proof (poll_run p key (api_absent p) false evs 0 _ (absent_env p) Hall
                (poll_establish p key _ false w Hw (api_absent_not_ready _ _ Ha))) as Hinv.
  simpl Nat.add in Hinv.
  destruct Hinv as [Hr (w' & t & Hw' & [(Hm & Ht & Hp) | (Hm & _)])]; [|lia].
  destruct (lrun evs (after_onload p key w)) as [b r]. simpl in Hr, Hp. subst b r.
  assert (E1 : lrun [LWindow w1; LTimer]
                 {| lpage := poll_page p key w' (firings evs) t; returned := [0%nat] |}
               = {| lpage := resolved_page p key w1
                               (Z.max t (100 * (Z.of_nat (firings evs) + 1)));
                    returned := [0%nat] |}).
  { rewrite lrun_cons.
    replace (lstep (LWindow w1) {| lpage := poll_page p key w' (firings evs) t;
                                   returned := [0%nat] |})
      with {| lpage := poll_page p key w1 (firings evs) t; returned := [0%nat] |}
      by (destruct p; reflexivity).
    rewrite lrun_cons. rewrite poll_tick_ready by assumption. reflexivity. }
  rewrite E1. rewrite resolved_timeout by lia.
  repeat split; try (destruct p; reflexivity).
  destruct p; unfold resolved_page; cbn [now set_vars lpage]; lia.
Qed.

Lemma poll_resolves_and_stays_witness :
  api_truthy CloudflareTurnstile no_api = false
  /\ forallb (waiting_event (api_absent CloudflareTurnstile)) [LTimer; LAdvance 20; LTimer] = true
  /\ (firings [LTimer; LAdvance 20; LTimer] < 100)%nat
  /\ api_ready CloudflareTurnstile api_loaded = true
  /\ promise_state 0
       (lpage (lrun [LWindow no_api; LTimer]
                 (lrun [LWindow api_loaded; LTimer]
                    (lrun [LTimer; LAdvance 20; LTimer]
                       (after_onload CloudflareTurnstile "" no_api)))))
     = Some (Fulfilled "").
Proof.
  assert (H1 : api_truthy CloudflareTurnstile no_api = false) by reflexivity.
  assert (H2 : forallb (waiting_event (api_absent CloudflareTurnstile))
                 [LTimer; LAdvance 20; LTimer] = true) by reflexivity.
  assert (H3 : (firings [LTimer; LAdvance 20; LTimer] < 100)%nat) by (vm_compute; lia).
  assert (H4 : api_ready CloudflareTurnstile api_loaded = true) by reflexivity.
  split; [exact H1|]. split; [exact H2|]. split; [exact H3|]. split; [exact H4|].
  exact (proj1 (proj2 (proj2 (proj2 (proj2
           (poll_resolves_and_stays CloudflareTurnstile "" no_api api_loaded no_api _
              H1 H2 H3 H4)))))).
Defined.

(** *** A script element that is already in the document *)

Lemma own_script_found p key s ss :
  In s ss -> src s = script_src p key -> querySelector p ss = true.
Proof.
  intros Hin Hsrc. unfold querySelector. apply existsb_exists.
  exists s. split; [exact Hin|]. rewrite Hsrc. apply selector_matches_own_script.
Qed.

(** X4. A loader that is not in its loading state (fresh, reset, or after a
    fetch failure) and finds in the document a script element it inserted
    earlier, for whatever site key: when the global is present it inserts
    nothing, answers with a fulfilled promise and sets its loaded flag; when
    the global is not usable it appends one more script element, a duplicate
    of the one that is there, and answers with a pending promise. *)
Theorem existing_script_policy p key key' b s :
  In s (scripts b) ->
  src s = script_src p key' ->
  scriptLoading (vars p b) = false ->
  (api_truthy p (window b) = true ->
     let '(pid, b') := loadScript p key b in
     pid = List.length (promises b)
     /\ promise_state pid b' = Some (Fulfilled "")
     /\ scripts b' = scripts b
     /\ scriptLoaded (vars p b') = true)
  /\ (api_ready p (window b) = false -> api_truthy p (window b) = false ->
      let '(pid, b') := loadScript p key b in
      pid = List.length (promises b)
      /\ promise_state pid b' = Some Pending
      /\ scripts b' = scripts b ++ [{| src := script_src p key; handlers := Some (p, pid) |}]
      /\ scriptLoading (vars p b') = true).
Proof.
  intros Hin Hsrc Hl.
  pose proof (own_script_found p key' s (scripts b) Hin Hsrc) as Hq.
  assert (Hnth : forall (c : PCell),
             option_map pstate (nth_error (promises b ++ [c]) (List.length (promises b)))
             = Some (pstate c)).
  { intros c. rewrite nth_error_app2 by lia. rewrite Nat.sub_diag. reflexivity. }
  split.
  - intros Ht. unfold loadScript. rewrite Ht, Hl, Hq.
    destruct (scriptLoaded (vars p b)) eqn:E; cbn [andb promise_resolved new_promise].
    + repeat split; auto. unfold promise_state. cbn [promises set_promises]. apply Hnth.
    + repeat split; auto.
      * unfold promise_state. destruct p; cbn [promises set_promises set_vars]; apply Hnth.
      * destruct p; reflexivity.
      * destruct p; reflexivity.
  - intros Hr Ht. unfold loadScript. rewrite Ht, Hl, Hq, Hr, !andb_false_r.
    cbn [new_promise]. repeat split; auto.
    + unfold promise_state. destruct p; cbn [promises set_promises set_vars appendChild
                                             set_scripts]; apply Hnth.
    + destruct p; reflexivity.
    + destruct p; reflexivity.
Qed.

Lemma existing_script_policy_witness :
  let b := resetCloudflareScript
             (lpage (lrun [LWindow api_loaded] (after_onload CloudflareTurnstile "" no_api))) in
  let s := {| src := script_src CloudflareTurnstile ""; handlers := None |} in
  In s (scripts b)
  /\ src s = script_src CloudflareTurnstile ""
  /\ scriptLoading (vars CloudflareTurnstile b) = false
  /\ api_truthy CloudflareTurnstile (window b) = true
  /\ scripts (snd (loadCloudflareScript b)) = scripts b.
Proof.
  cbv zeta.
  set (b := resetCloudflareScript
              (lpage (lrun [LWindow api_loaded]
                        (after_onload CloudflareTurnstile "" no_api)))).
  assert (H1 : In {| src := script_src CloudflareTurnstile ""; handlers := None |}
                 (scripts b)) by (left; reflexivity).
  assert (H3 : scriptLoading (vars CloudflareTurnstile b) = false) by reflexivity.
  assert (H4 : api_truthy CloudflareTurnstile (window b) = true) by reflexivity.
  split; [exact H1|]. split; [reflexivity|]. split; [exact H3|]. split; [exact H4|].
  pose proof (proj1 (existing_script_policy CloudflareTurnstile "" "" b _ H1 eq_refl H3) H4)
    as H.
  unfold loadCloudflareScript.
  destruct (loadScript CloudflareTurnstile "" b) as [pid b'].
  destruct H as (_ & _ & H & _). exact H.
Defined.

(** *** Resetting a loader in mid-flight *)

Lemma reset_poll_tick_ready p key w n t r :
  api_ready p w = true -> (n < 100)%nat ->
  lstep LTimer {| lpage := resetScript p (poll_page p key w n t); returned := r |}
  = {| lpage := resetScript p (resolved_page p key w (Z.max t (100 * (Z.of_nat n + 1))));
       returned := r |}.
Proof.
  intros Hw Hn.
  assert (E : (10000 <? 100 * (Z.of_nat n + 1)) = false) by (apply Z.ltb_ge; lia).
  destruct p; unfold lstep, pop_timer, resetScript, poll_page, poll_timers;
    cbn [lpage returned set_vars timers next_timer due]; rewrite E;
    cbn [rearm period tid act run_loader_action map Nat.eqb due set_timers set_now
         now window timers next_tid promises scripts gvars cvars];
    unfold checkReady_tick, set_now, set_timers;
    cbn [now window timers next_tid promises scripts gvars cvars];
    rewrite Hw; reflexivity.
Qed.

(** X5. [resetGoogleScript()] / [resetCloudflareScript()] during the poll
    only clear the three module variables.  The operation in flight is not
    cancelled: the next poll that finds the global usable fulfils the
    discarded promise for the callers that hold it, and leaves the cleared
    variables alone.  A call after that finds the script element and the
    global, inserts nothing and sets the loaded flag again. *)
Theorem reset_does_not_cancel p key key' w w1 evs :
  api_truthy p w = false ->
  forallb (waiting_event (api_absent p)) evs = true ->
  (firings evs < 100)%nat ->
  api_ready p w1 = true ->
  let s0 := lrun evs (after_onload p key w) in
  let s1 := {| lpage := resetScript p (lpage s0); returned := returned s0 |} in
  let s2 := lrun [LWindow w1; LTimer] s1 in
  let s3 := lstep (LLoad p key') s2 in
  vars p (lpage s1) = loaderInit
  /\ promise_state 0 (lpage s1) = Some Pending
  /\ promise_state 0 (lpage s2) = Some (Fulfilled "")
  /\ vars p (lpage s2) = loaderInit
  /\ returned s3 = [0%nat; 1%nat]
  /\ promise_state 1 (lpage s3) = Some (Fulfilled "")
  /\ scripts (lpage s3) = scripts (lpage s0)
  /\ vars p (lpage s3)
     = {| scriptLoaded := true; scriptLoading := false; loadPromise := None |}.
Proof.
  intros Ha Hall Hn Hw1. cbv zeta.
  assert (Hw : api_absent p w = true) by (unfold api_absent; rewrite Ha; reflexivity).
  pose proof (poll_run p key (api_absent p) false evs 0 _ (absent_env p) Hall
                (poll_establish p key _ false w Hw (api_absent_not_ready _ _ Ha))) as Hinv.
  simpl Nat.add in Hinv.
  destruct Hinv as [Hr (w' & t & Hw' & [(Hm & Ht & Hp) | (Hm & _)])]; [|lia].
  destruct (lrun evs (after_onload p key w)) as [b r]. simpl in Hr, Hp. subst b r.
  cbn [lpage returned].
  assert (E1 : lrun [LWindow w1; LTimer]
                 {| lpage := resetScript p (poll_page p key w' (firings evs) t);
                    returned := [0%nat] |}
               = {| lpage := resetScript p
                               (resolved_page p key w1
                                  (Z.max t (100 * (Z.of_nat (firings evs) + 1))));
                    returned := [0%nat] |}).
  { rewrite lrun_cons.
    replace (lstep (LWindow w1)
               {| lpage := resetScript p (poll_page p key w' (firings evs) t);
                  returned := [0%nat] |})
      with {| lpage := resetScript p (poll_page p key w1 (firings evs) t);
              returned := [0%nat] |}
      by (destruct p; reflexivity).
    rewrite lrun_cons. rewrite reset_poll_tick_ready by assumption. reflexivity. }
  rewrite E1. destruct w1 as [g ts f].
  destruct p, g, ts; try discriminate Hw1; repeat split.
Qed.

Lemma reset_does_not_cancel_witness :
  api_truthy GoogleV3 no_api = false
  /\ forallb (waiting_event (api_absent GoogleV3)) [LTimer; LTimer] = true
  /\ (firings [LTimer; LTimer] < 100)%nat
  /\ api_ready GoogleV3 api_loaded = true
  /\ promise_state 0
       (lpage (lrun [LWindow api_loaded; LTimer]
                 {| lpage := resetGoogleScript
                               (lpage (lrun [LTimer; LTimer]
                                         (after_onload GoogleV3 "site" no_api)));
                    returned := [0%nat] |}))
     = Some (Fulfilled "").
Proof.
  assert (H1 : api_truthy GoogleV3 no_api = false) by reflexivity.
  assert (H2 : forallb (waiting_event (api_absent GoogleV3)) [LTimer; LTimer] = true)
    by reflexivity.
  assert (H3 : (firings [LTimer; LTimer] < 100)%nat) by (vm_compute; lia).
  assert (H4 : api_ready GoogleV3 api_loaded = true) by reflexivity.
  split; [exact H1|]. split; [exact H2|]. split; [exact H3|]. split; [exact H4|].
  exact (proj1 (proj2 (proj2
           (reset_does_not_cancel GoogleV3 "site" "site" no_api api_loaded _ H1 H2 H3 H4)))).
Defined.

(** * Further properties of the component *)

(** *** Where an exception can go *)

Lemma unc_bind w r k :
  uncaught (world_of r) = uncaught w ->
  (forall w', uncaught (world_of (k w')) = uncaught w') ->
  uncaught (world_of (r >>= k)) = uncaught w.
Proof.
  intros Hr Hk. destruct r as [w'|e w']; simpl in *; [|exact Hr].
  rewrite Hk. exact Hr.
Qed.

Lemma unc_try w r h :
  uncaught (world_of r) = uncaught w ->
  (forall e w', uncaught (h e w') = uncaught w') ->
  uncaught (task (try_catch r h)) = uncaught w.
Proof.
  intros Hr Hh. destruct r as [w'|e w']; simpl in *; [exact Hr|].
  rewrite Hh. exact Hr.
Qed.

Lemma unc_try_inner w r h :
  uncaught (world_of r) = uncaught w ->
  (forall e w', uncaught (h e w') = uncaught w') ->
  uncaught (world_of (try_catch r h)) = uncaught w.
Proof.
  intros Hr Hh. destruct r as [w'|e w']; simpl in *; [exact Hr|].
  rewrite Hh. exact Hr.
Qed.

Lemma unc_console msg e w : uncaught (console_error msg e w) = uncaught w.
Proof. reflexivity. Qed.

Lemma unc_setIsInitialized b w : uncaught (setIsInitialized b w) = uncaught w.
Proof. unfold setIsInitialized. simpl. destruct (mounted (comp w)); reflexivity. Qed.

Lemma unc_onVerify props token w :
  uncaught (world_of (onVerify props token w)) = uncaught w.
Proof. unfold onVerify. destruct (onVerifyOk props token); reflexivity. Qed.

Lemma unc_grecaptcha_execute key act k w :
  uncaught (world_of (grecaptcha_execute key act k w)) = uncaught w.
Proof.
  unfold grecaptcha_execute.
  destruct (grecaptcha (window (page w))); try reflexivity.
  destruct (faulty (window (page w))); reflexivity.
Qed.

Lemma unc_turnstile_call o w : uncaught (world_of (turnstile_call o w)) = uncaught w.
Proof.
  unfold turnstile_call.
  destruct (turnstile (window (page w))); try reflexivity.
  destruct (faulty (window (page w))); reflexivity.
Qed.

Lemma unc_init_after_settle props g w :
  uncaught (world_of (init_after_settle props g w)) = uncaught w.
Proof.
  unfold init_after_settle.
  destruct (provider props).
  - destruct (grecaptcha (window (page w))); try reflexivity.
    apply unc_grecaptcha_execute.
  - destruct (negb (turnstile (window (page w)))); [reflexivity|].
    destruct (widgetRef_current props w); [|reflexivity].
    destruct (widgetIdRef (comp w)); [reflexivity|].
    apply unc_bind.
    + unfold turnstile_render. apply unc_bind; [apply unc_turnstile_call|reflexivity].
    + intros w'. destruct (mode props); reflexivity.
Qed.

(** A continuation never lets an exception out: every [await] of the
    component sits inside a [try]. *)
Lemma unc_resume props k out w :
  uncaught (task (resume props k out w)) = uncaught w.
Proof.
  unfold resume, init_try, reset_cf_try, reset_google_try.
  destruct k; apply unc_try; try (intros; apply unc_console).
  - destruct out; try reflexivity; destruct (negb (isMounted g w)); reflexivity.
  - apply unc_init_after_settle.
  - destruct out; try reflexivity. destruct (isMounted g w); [|reflexivity].
    rewrite unc_onVerify. apply unc_setIsInitialized.
  - apply unc_try_inner; [apply unc_turnstile_call|intros; apply unc_console].
  - apply unc_turnstile_call.
  - destruct out; try reflexivity.
    rewrite unc_onVerify. apply unc_setIsInitialized.
Qed.

Lemma unc_reset props w : uncaught (task (reset props w)) = uncaught w.
Proof.
  unfold reset, reset_cf_try, reset_google_try.
  destruct (skip props); [reflexivity|].
  destruct (provider props).
  - apply unc_try; [|intros; apply unc_console].
    destruct (grecaptcha (window (page (setIsInitialized false w)))); try apply unc_setIsInitialized.
    rewrite unc_grecaptcha_execute. apply unc_setIsInitialized.
  - destruct (widgetIdRef (comp (setIsInitialized false w))); [|apply unc_setIsInitialized].
    destruct (turnstile (window (page (setIsInitialized false w))));
      [|apply unc_setIsInitialized].
    apply unc_try; [|intros; apply unc_console].
    rewrite <- (unc_setIsInitialized false w). apply unc_bind.
    + apply unc_turnstile_call.
    + intros w'. destruct (mode props); reflexivity.
Qed.

Lemma unc_cleanup props w : uncaught (cleanup props w) = uncaught w.
Proof. destruct (cleanup_frame props w) as (_ & _ & _ & _ & _ & _ & H). exact H. Qed.

Lemma unc_flush props w : uncaught (flush props w) = uncaught w.
Proof.
  unfold flush.
  destruct (mounted (comp w) && negb (Bool.eqb (isInitialized (comp w)) (renderedInit (comp w))));
    [|reflexivity].
  unfold run_effect. cbn. rewrite unc_cleanup. reflexivity.
Qed.

Lemma unc_drain_from props ws : forall w, uncaught (drain_from props ws w) = uncaught w.
Proof.
  induction ws as [|[pid k] ws IH]; intros w; cbn [drain_from]; [reflexivity|].
  destruct (promise_state pid (page w)) as [[| v | e]|]; rewrite IH;
    try reflexivity; apply unc_resume.
Qed.

(** The two places where [onVerify] is called outside a [try]: the skip
    branch of [initCaptcha] and the success callback of Turnstile. *)
Lemma unc_initCaptcha props g c w :
  (forall token, onVerifyOk props token = true) ->
  uncaught (task (initCaptcha props g c w)) = uncaught w.
Proof.
  intros Hok. unfold initCaptcha.
  destruct (skip props).
  - unfold onVerify. rewrite Hok. simpl. rewrite unc_setIsInitialized. reflexivity.
  - destruct c; [reflexivity|]. unfold init_try.
    apply unc_try; [|intros; apply unc_console].
    unfold loadGoogleScript, loadCloudflareScript.
    destruct (provider props).
    + destruct (loadScript GoogleV3 (siteKey props) (page w)); reflexivity.
    + destruct (loadScript CloudflareTurnstile "" (page w)); reflexivity.
Qed.

Lemma unc_handle props ev w :
  (forall token, onVerifyOk props token = true) ->
  uncaught (handle props ev w) = uncaught w.
Proof.
  intros Hok. destruct ev; cbn [handle]; try reflexivity.
  - destruct (pop_timer (page w)) as [[t b]|]; [|reflexivity].
    destruct (act t); try reflexivity.
    + rewrite unc_initCaptcha by exact Hok. reflexivity.
    + rewrite unc_resume. reflexivity.
  - destruct (nth_error (widgets (comp w)) wid) as [g|]; [|reflexivity].
    unfold ts_callback. destruct (negb (isMounted g w)); [reflexivity|].
    unfold onVerify. rewrite Hok. simpl. apply unc_setIsInitialized.
  - destruct (nth_error (widgets (comp w)) wid); [|reflexivity].
    simpl. apply unc_setIsInitialized.
  - destruct (nth_error (widgets (comp w)) wid); [|reflexivity].
    simpl. rewrite unc_setIsInitialized. reflexivity.
  - apply unc_reset.
  - unfold unmount. destruct (mounted (comp w)); [|reflexivity].
    simpl. apply unc_cleanup.
Qed.

(** X6. With a host callback that returns normally, no exception ever
    leaves the component, from any state and over any sequence of events:
    provider calls that throw, a global that disappears between the test and
    the call, rejected loads and rejected [execute] promises all end in a
    [catch].  Without that assumption the continuations, [reset()] and the
    cleanup still let nothing out: the only unguarded calls of [onVerify] are
    the skip branch of [initCaptcha] and Turnstile's success callback. *)
Theorem no_exception_escapes props :
  ((forall token, onVerifyOk props token = true) ->
   forall evs w, uncaught (run props evs w) = uncaught w)
  /\ (forall k out w, uncaught (task (resume props k out w)) = uncaught w)
  /\ (forall w, uncaught (task (reset props w)) = uncaught w)
  /\ (forall w, uncaught (cleanup props w) = uncaught w).
Proof.
  split; [|split; [|split]].
  - intros Hok evs. induction evs as [|ev evs IH]; intros w; [reflexivity|].
    cbn [run fold_left]. fold (run props evs (step props ev w)). rewrite IH.
    unfold step, drain. rewrite unc_flush, unc_drain_from. cbn.
    apply unc_handle. exact Hok.
  - apply unc_resume.
  - apply unc_reset.
  - apply unc_cleanup.
Qed.

Lemma no_exception_escapes_witness :
  let props := turnstile_props "site" Invisible in
  let evs := [EvTimer; EvWindow api_faulty; EvScriptLoad 0; EvTimer; EvTimer] in
  (forall token, onVerifyOk props token = true)
  /\ uncaught (run props evs (mount (fresh_page no_api))) = []
  /\ trace (run props evs (mount (fresh_page no_api)))
     = [TurnstileRender "site" Light Invisible;
        ConsoleError "Captcha initialization failed:"].
Proof.
  cbv zeta.
  assert (Hok : forall token, onVerifyOk (turnstile_props "site" Invisible) token = true)
    by reflexivity.
  split; [exact Hok|]. split.
  - rewrite (proj1 (no_exception_escapes (turnstile_props "site" Invisible)) Hok).
    reflexivity.
  - vm_compute. reflexivity.
Defined.

(** *** Where a Turnstile token comes from *)

Lemma subseq_refl {A : Type} (l : list A) : subseq l l.
Proof. induction l; [apply subseq_nil|apply subseq_take; assumption]. Qed.

Lemma subseq_nil_l {A : Type} (l : list A) : subseq [] l.
Proof. induction l; [apply subseq_nil|apply subseq_skip; assumption]. Qed.

Lemma subseq_app {A : Type} (l1 m1 l2 m2 : list A) :
  subseq l1 m1 -> subseq l2 m2 -> subseq (l1 ++ l2) (m1 ++ m2).
Proof.
  induction 1; intros H2; simpl; auto.
  - apply subseq_skip. auto.
  - apply subseq_take. auto.
Qed.

Lemma tame_refl w : tame w w.
Proof. split; auto. Qed.

Lemma tame_trans w1 w2 w3 : tame w1 w2 -> tame w2 w3 -> tame w1 w3.
Proof. intros [A B] [C D]. split; [congruence|auto]. Qed.

Lemma tame_log o w :
  match o with OnVerify _ => False | _ => True end -> tame w (log o w).
Proof. intros H. split; [apply (silent_log o w H)|auto]. Qed.

Lemma tame_console msg e w : tame w (console_error msg e w).
Proof. apply tame_log. exact I. Qed.

Lemma tame_await pid k w : token_kont k = false -> tame w (await pid k w).
Proof.
  intros Hk. split; [reflexivity|]. unfold no_token_pending. cbn.
  intros H. apply andb_prop in H as [H1 H2].
  rewrite forallb_app, H1, H2. cbn. rewrite Hk. reflexivity.
Qed.

Lemma tame_sleep ms k w : token_kont k = false -> tame w (sleep ms k w).
Proof.
  intros Hk. split; [reflexivity|]. unfold no_token_pending. cbn.
  intros H. apply andb_prop in H as [H1 H2].
  rewrite forallb_app, H1, H2. unfold timer_ok. cbn. rewrite Hk. reflexivity.
Qed.

Lemma tame_setIsInitialized b w : tame w (setIsInitialized b w).
Proof.
  unfold setIsInitialized. cbn [log comp].
  destruct (mounted (comp w)).
  - apply (tame_trans _ (log (SetIsInitialized b) w)); [apply tame_log; exact I|].
    split; auto.
  - apply tame_log. exact I.
Qed.

Lemma tame_set_page b w :
  (forallb timer_ok (timers (page w)) = true -> forallb timer_ok (timers b) = true) ->
  tame w (set_page b w).
Proof.
  intros H. split; [reflexivity|]. unfold no_token_pending. cbn.
  intros H'. apply andb_prop in H' as [H1 H2]. rewrite H1, (H H2). reflexivity.
Qed.

Lemma tame_bind w r k :
  tame w (world_of r) ->
  (forall w', tame w' (world_of (k w'))) ->
  tame w (world_of (r >>= k)).
Proof.
  intros Hr Hk. destruct r as [w'|e w']; simpl in *; [|exact Hr].
  eapply tame_trans; eauto.
Qed.

Lemma tame_try w r h :
  tame w (world_of r) ->
  (forall e w', tame w' (h e w')) ->
  tame w (task (try_catch r h)).
Proof.
  intros Hr Hh. destruct r as [w'|e w']; simpl in *; [exact Hr|].
  eapply tame_trans; eauto.
Qed.

Lemma tame_try_inner w r h :
  tame w (world_of r) ->
  (forall e w', tame w' (h e w')) ->
  tame w (world_of (try_catch r h)).
Proof.
  intros Hr Hh. destruct r as [w'|e w']; simpl in *; [exact Hr|].
  eapply tame_trans; eauto.
Qed.

Lemma tame_turnstile_call o w :
  match o with OnVerify _ => False | _ => True end ->
  tame w (world_of (turnstile_call o w)).
Proof.
  intros Ho. unfold turnstile_call.
  destruct (turnstile (window (page w))); [|apply tame_refl].
  destruct (faulty (window (page w))); apply tame_log; exact Ho.
Qed.

Lemma loadScript_timers p key b : timers (snd (loadScript p key b)) = timers b.
Proof.
  unfold loadScript.
  destruct (scriptLoaded (vars p b) && api_truthy p (window b)); [reflexivity|].
  destruct (scriptLoading (vars p b)), (loadPromise (vars p b));
    try reflexivity;
    destruct (querySelector p (scripts b) && api_truthy p (window b));
    try (destruct p; reflexivity);
    destruct (api_ready p (window b)); destruct p; reflexivity.
Qed.

Lemma timer_ok_rearm t ts :
  forallb timer_ok ts = true -> forallb timer_ok (rearm t ts) = true.
Proof.
  unfold rearm. destruct (period t).
  - induction ts as [|u ts IH]; simpl; auto.
    intros H. apply andb_prop in H as [Hu Hts]. rewrite (IH Hts), andb_true_r.
    destruct (Nat.eqb (tid u) (tid t)); auto.
  - apply forallb_filter.
Qed.

Lemma timer_ok_pop b t b' :
  pop_timer b = Some (t, b') ->
  forallb timer_ok (timers b) = true ->
  timer_ok t = true /\ forallb timer_ok (timers b') = true.
Proof.
  unfold pop_timer. destruct (next_timer (timers b)) as [u|] eqn:E; [|discriminate].
  intros H Hall. injection H as <- <-. split.
  - apply next_timer_In in E. rewrite forallb_forall in Hall. auto.
  - simpl. apply timer_ok_rearm. exact Hall.
Qed.

Lemma timer_ok_action t b :
  forallb timer_ok (timers b) = true ->
  forallb timer_ok (timers (run_loader_action t b)) = true.
Proof.
  intros H. unfold run_loader_action, checkReady_tick, loadTimeout_fire, resolve, reject.
  destruct (act t); auto.
  - destruct (api_ready p (window b)); auto.
    rewrite settle_timers. apply forallb_filter. exact H.
  - destruct (api_truthy p (window (clearTimer cid b)));
      rewrite settle_timers; apply forallb_filter; exact H.
Qed.

Lemma timer_ok_script ok i b :
  forallb timer_ok (timers b) = true ->
  forallb timer_ok (timers (script_event ok i b)) = true.
Proof.
  intros H. unfold script_event.
  destruct (nth_error (scripts b) i) as [[u [[p pid]|]]|]; auto.
  destruct ok.
  - unfold script_onload, setInterval, setTimeout, add_timer. simpl.
    destruct p; simpl; rewrite <- app_assoc, forallb_app, H; reflexivity.
  - unfold script_onerror, reject. rewrite settle_timers. destruct p; exact H.
Qed.

Lemma tame_upd_comp f w :
  (forall c, waiters (f c) = waiters c) -> tame w (upd_comp f w).
Proof.
  intros H. split; [reflexivity|]. unfold no_token_pending. cbn. rewrite H. auto.
Qed.

Lemma tame_turnstile_render props g w : tame w (world_of (turnstile_render props g w)).
Proof.
  unfold turnstile_render. apply tame_bind.
  - apply tame_turnstile_call. exact I.
  - intros w'. cbn [world_of]. apply tame_upd_comp. reflexivity.
Qed.

Lemma tame_init_after_settle props g w :
  provider props = CloudflareTurnstile ->
  tame w (world_of (init_after_settle props g w)).
Proof.
  intros Hp. unfold init_after_settle. rewrite Hp.
  destruct (negb (turnstile (window (page w)))); [apply tame_log; exact I|].
  destruct (widgetRef_current props w); [|apply tame_refl].
  destruct (widgetIdRef (comp w)); [apply tame_refl|].
  apply tame_bind; [apply tame_turnstile_render|].
  intros w'. destruct (mode props); cbn [world_of];
    [apply tame_sleep; reflexivity|apply tame_refl].
Qed.

Lemma tame_resume props k out w :
  provider props = CloudflareTurnstile ->
  token_kont k = false ->
  tame w (task (resume props k out w)).
Proof.
  intros Hp Hk. unfold resume, init_try, reset_cf_try.
  destruct k; try discriminate Hk; apply tame_try; try (intros; apply tame_console).
  - destruct out; try apply tame_refl;
      destruct (negb (isMounted g w)); try apply tame_refl;
      apply tame_sleep; reflexivity.
  - apply tame_init_after_settle. exact Hp.
  - apply tame_try_inner; [apply tame_turnstile_call; exact I|intros; apply tame_console].
  - apply tame_turnstile_call. exact I.
Qed.

Lemma tame_initCaptcha props g c w :
  provider props = CloudflareTurnstile ->
  skip props = false ->
  tame w (task (initCaptcha props g c w)).
Proof.
  intros Hp Hs. unfold initCaptcha, init_try. rewrite Hs, Hp.
  destruct c; [apply tame_refl|].
  apply tame_try; [|intros; apply tame_console].
  unfold loadCloudflareScript.
  pose proof (loadScript_timers CloudflareTurnstile "" (page w)) as Ht.
  destruct (loadScript CloudflareTurnstile "" (page w)) as [pid b]. cbn [snd] in Ht.
  cbn [world_of]. apply (tame_trans _ (set_page b w)).
  - apply tame_set_page. rewrite Ht. auto.
  - apply tame_await. reflexivity.
Qed.

Lemma tame_reset props w :
  provider props = CloudflareTurnstile -> tame w (task (reset props w)).
Proof.
  intros Hp. unfold reset, reset_cf_try. rewrite Hp.
  destruct (skip props); [apply tame_refl|].
  apply (tame_trans _ (setIsInitialized false w)); [apply tame_setIsInitialized|].
  destruct (widgetIdRef (comp (setIsInitialized false w))); [|apply tame_refl].
  destruct (turnstile (window (page (setIsInitialized false w)))); [|apply tame_refl].
  apply tame_try; [|intros; apply tame_console].
  apply tame_bind; [apply tame_turnstile_call; exact I|].
  intros w'. destruct (mode props); cbn [world_of];
    [apply tame_sleep; reflexivity|apply tame_refl].
Qed.

Lemma tame_cleanup props w : tame w (cleanup props w).
Proof.
  unfold cleanup. destruct (effLive (comp w)) as [g|]; [|apply tame_refl].
  set (w2 := set_page (clearTimer g (page (upd_comp (set_effLive None) w)))
               (upd_comp (set_effLive None) w)).
  assert (T2 : tame w w2).
  { apply (tame_trans _ (upd_comp (set_effLive None) w)).
    - apply tame_upd_comp. reflexivity.
    - apply tame_set_page. apply forallb_filter. }
  destruct (provider props); [exact T2|].
  destruct (widgetIdRef (comp w2)); [|exact T2].
  destruct (turnstile (window (page w2))); [|exact T2].
  apply (tame_trans _ w2 _ T2). apply tame_try; [|intros; apply tame_console].
  apply tame_bind; [apply tame_turnstile_call; exact I|].
  intros w'. cbn [world_of]. apply tame_upd_comp. reflexivity.
Qed.

Lemma tame_run_effect w : tame w (run_effect w).
Proof.
  split; [reflexivity|]. unfold no_token_pending, run_effect. cbn.
  intros H. apply andb_prop in H as [H1 H2]. rewrite H1, forallb_app, H2. reflexivity.
Qed.

Lemma tame_flush props w : tame w (flush props w).
Proof.
  unfold flush.
  destruct (mounted (comp w) && negb (Bool.eqb (isInitialized (comp w)) (renderedInit (comp w))));
    [|apply tame_refl].
  eapply tame_trans; [|apply tame_run_effect].
  eapply tame_trans; [|apply tame_cleanup].
  apply tame_upd_comp. reflexivity.
Qed.

Lemma tame_drain_from props ws : forall w,
  provider props = CloudflareTurnstile ->
  forallb (fun x => negb (token_kont (snd x))) ws = true ->
  tame w (drain_from props ws w).
Proof.
  induction ws as [|[pid k] ws IH]; intros w Hp Hws; cbn [drain_from]; [apply tame_refl|].
  simpl in Hws. apply andb_prop in Hws as [Hk Hws]. apply negb_true_iff in Hk.
  destruct (promise_state pid (page w)) as [[| v | e]|].
  - eapply tame_trans; [apply (tame_await pid k w Hk)|apply IH; assumption].
  - eapply tame_trans;
      [apply (tame_resume props k (Fulfilled v) w Hp Hk)|apply IH; assumption].
  - eapply tame_trans;
      [apply (tame_resume props k (Rejected e) w Hp Hk)|apply IH; assumption].
  - eapply tame_trans; [apply (tame_await pid k w Hk)|apply IH; assumption].
Qed.

Lemma tame_drain props w :
  provider props = CloudflareTurnstile ->
  no_token_pending w = true ->
  tame w (drain props w).
Proof.
  intros Hp H. unfold drain.
  pose proof H as H'. unfold no_token_pending in H'. apply andb_prop in H' as [H1 H2].
  eapply tame_trans; [|apply tame_drain_from; [exact Hp|exact H1]].
  split; [reflexivity|]. intros _. unfold no_token_pending. cbn. exact H2.
Qed.

Lemma tame_step_shape w w' evs :
  tame w w' -> no_token_pending w = true ->
  no_token_pending w' = true
  /\ exists l, verify_calls (trace w') = verify_calls (trace w) ++ l
               /\ subseq l (delivered evs).
Proof.
  intros [A B] H. split; [auto|]. exists []. rewrite app_nil_r.
  split; [exact A|apply subseq_nil_l].
Qed.

Lemma tame_page_event b w :
  forallb timer_ok (timers b) = true -> tame w (set_page b w).
Proof. intros H. apply tame_set_page. intros _. exact H. Qed.

Lemma turnstile_handle props ev w :
  provider props = CloudflareTurnstile ->
  skip props = false ->
  no_token_pending w = true ->
  no_token_pending (handle props ev w) = true
  /\ exists l, verify_calls (trace (handle props ev w)) = verify_calls (trace w) ++ l
               /\ subseq l (delivered [ev]).
Proof.
  intros Hp Hs H.
  pose proof H as H'. unfold no_token_pending in H'. apply andb_prop in H' as [H1 H2].
  destruct ev; cbn [handle].
  - destruct (pop_timer (page w)) as [[t b]|] eqn:E;
      [|apply tame_step_shape; [apply tame_refl|exact H]].
    destruct (timer_ok_pop _ _ _ E H2) as [Ht Hb].
    apply tame_step_shape; [|exact H].
    unfold timer_ok in Ht.
    destruct (act t).
    + apply tame_page_event. apply timer_ok_action. exact Hb.
    + apply tame_page_event. apply timer_ok_action. exact Hb.
    + eapply tame_trans; [apply (tame_page_event b w Hb)|].
      apply tame_initCaptcha; assumption.
    + eapply tame_trans; [apply (tame_page_event b w Hb)|].
      apply tame_resume; [exact Hp|]. apply negb_true_iff. exact Ht.
  - apply tame_step_shape; [|exact H]. apply tame_page_event.
    rewrite loader_timers_advance. exact H2.
  - apply tame_step_shape; [|exact H]. apply tame_page_event. exact H2.
  - apply tame_step_shape; [|exact H]. apply tame_page_event.
    apply timer_ok_script. exact H2.
  - apply tame_step_shape; [|exact H]. apply tame_page_event.
    apply timer_ok_script. exact H2.
  - apply tame_step_shape; [|exact H]. apply tame_page_event.
    rewrite loader_timers_provider_settle. exact H2.
  - destruct (nth_error (widgets (comp w)) wid) as [g|];
      [|apply tame_step_shape; [apply tame_refl|exact H]].
    unfold ts_callback.
    destruct (negb (isMounted g w)); [apply tame_step_shape; [apply tame_refl|exact H]|].
    destruct (tame_setIsInitialized true w) as [A B].
    split.
    + unfold onVerify. destruct (onVerifyOk props token); cbn; apply B; exact H.
    + exists [token]. split; [|cbn; apply subseq_refl].
      unfold onVerify. destruct (onVerifyOk props token); cbn;
        rewrite verify_calls_app, A; reflexivity.
  - destruct (nth_error (widgets (comp w)) wid);
      apply tame_step_shape; try exact H; [|apply tame_refl].
    cbn. apply tame_setIsInitialized.
  - destruct (nth_error (widgets (comp w)) wid);
      apply tame_step_shape; try exact H; [|apply tame_refl].
    cbn. eapply tame_trans;
      [apply (tame_log (ConsoleError " Turnstile error:")); exact I
      |apply tame_setIsInitialized].
  - apply tame_step_shape; [|exact H].
    apply tame_reset; exact Hp.
  - apply tame_step_shape; [|exact H]. unfold unmount.
    destruct (mounted (comp w)); [|apply tame_refl].
    eapply tame_trans; [apply tame_cleanup|]. apply tame_upd_comp. reflexivity.
Qed.

Lemma turnstile_step props ev w :
  provider props = CloudflareTurnstile ->
  skip props = false ->
  no_token_pending w = true ->
  no_token_pending (step props ev w) = true
  /\ exists l, verify_calls (trace (step props ev w)) = verify_calls (trace w) ++ l
               /\ subseq l (delivered [ev]).
Proof.
  intros Hp Hs H.
  destruct (turnstile_handle props ev w Hp Hs H) as (H1 & l & Hl & Hsub).
  pose proof (tame_drain props _ Hp H1) as T1.
  pose proof (tame_flush props (drain props (handle props ev w))) as T2.
  destruct (tame_trans _ _ _ T1 T2) as [A B].
  unfold step. split; [auto|].
  exists l. split; [congruence|exact Hsub].
Qed.

Lemma delivered_cons ev evs : delivered (ev :: evs) = delivered [ev] ++ delivered evs.
Proof. unfold delivered. cbn. rewrite app_nil_r. reflexivity. Qed.

(** X7. For Cloudflare Turnstile without [skip], [onVerify] is called from
    the success callback and from nowhere else: over any sequence of events
    (timers, script events, resets, unmount, the other callbacks) the tokens
    handed to [onVerify] are, in order, tokens the provider delivered through
    that callback, each at most once.  Rendering a widget, executing it or
    resetting it reports nothing by itself. *)
Theorem turnstile_tokens_are_delivered props evs : forall w,
  provider props = CloudflareTurnstile ->
  skip props = false ->
  no_token_pending w = true ->
  exists l, verify_calls (trace (run props evs w)) = verify_calls (trace w) ++ l
            /\ subseq l (delivered evs).
Proof.
  induction evs as [|ev evs IH]; intros w Hp Hs H.
  - exists []. rewrite app_nil_r. split; [reflexivity|apply subseq_nil].
  - cbn [run fold_left]. fold (run props evs (step props ev w)).
    destruct (turnstile_step props ev w Hp Hs H) as (H1 & l1 & E1 & S1).
    destruct (IH _ Hp Hs H1) as (l2 & E2 & S2).
    exists (l1 ++ l2). split.
    + rewrite E2, E1, app_assoc. reflexivity.
    + rewrite delivered_cons. apply subseq_app; assumption.
Qed.

Lemma turnstile_tokens_are_delivered_witness :
  let props := turnstile_props "site" Checkbox in
  let evs := [EvTimer; EvWindow api_loaded; EvScriptLoad 0; EvTimer; EvTimer;
              EvReset; EvTsExpired 0; EvTimer; EvTimer] in
  provider props = CloudflareTurnstile
  /\ skip props = false
  /\ no_token_pending (mount (fresh_page no_api)) = true
  /\ delivered evs = []
  /\ verify_calls (trace (run props evs (mount (fresh_page no_api)))) = [].
Proof.
  cbv zeta.
  assert (H : no_token_pending (mount (fresh_page no_api)) = true) by reflexivity.
  split; [reflexivity|]. split; [reflexivity|]. split; [exact H|]. split; [reflexivity|].
  destruct (turnstile_tokens_are_delivered (turnstile_props "site" Checkbox)
              [EvTimer; EvWindow api_loaded; EvScriptLoad 0; EvTimer; EvTimer;
               EvReset; EvTsExpired 0; EvTimer; EvTimer]
              _ eq_refl eq_refl H) as (l & E & S).
  rewrite E. cbn in S. inversion S. reflexivity.
Defined.

(** *** A reset that is still waiting when the component unmounts *)



(** *** What a successful Turnstile verification does to the widget *)

(** X9. The success callback sets [isInitialized], which is a dependency of
    the effect: right after [onVerify(token)] the cleanup of the effect runs
    and removes the very widget that has just verified, clearing
    [widgetIdRef]; the effect runs again with the guard closed.  A [reset()]
    after that finds no widget identifier, so it never calls
    [turnstile.reset]: it only clears [isInitialized], which re-runs the
    effect with the guard open, the whole initialization starting over. *)
Theorem verified_widget_is_removed props w wid g token :
  provider props = CloudflareTurnstile ->
  skip props = false ->
  mounted (comp w) = true ->
  effLive (comp w) = Some g ->
  nth_error (widgets (comp w)) wid = Some g ->
  widgetIdRef (comp w) = Some wid ->
  isInitialized (comp w) = false ->
  renderedInit (comp w) = false ->
  waiters (comp w) = [] ->
  turnstile (window (page w)) = true ->
  faulty (window (page w)) = false ->
  onVerifyOk props token = true ->
  let w1 := step props (EvTsSuccess wid token) w in
  let w2 := step props EvReset w1 in
  trace w1 = trace w ++ [SetIsInitialized true; OnVerify token; TurnstileRemove wid]
  /\ widgetIdRef (comp w1) = None
  /\ isInitialized (comp w1) = true
  /\ map act (timers (page w1))
     = map act (filter (fun t => negb (Nat.eqb (tid t) g)) (timers (page w)))
       ++ [InitCaptcha true]
  /\ trace w2 = trace w1 ++ [SetIsInitialized false]
  /\ widgetIdRef (comp w2) = None
  /\ map act (timers (page w2))
     = map act (filter (fun t => negb (Nat.eqb (tid t) (next_tid (page w))))
                  (filter (fun t => negb (Nat.eqb (tid t) g)) (timers (page w))))
       ++ [InitCaptcha false].
Proof.
  intros Hp Hs Hm He Hn Hw Hi Hr Hwt Ht Hf Hok. cbv zeta.
  assert (E1 : step props (EvTsSuccess wid token) w
               = run_effect
                   (upd_comp (set_widgetIdRef None)
                      (log (TurnstileRemove wid)
                         (set_page (clearTimer g (page w))
                            (upd_comp (set_effLive None)
                               (upd_comp (set_renderedInit true)
                                  (upd_comp (set_waiters [])
                                     (log (OnVerify token)
                                        (upd_comp (set_isInitialized true)
                                           (log (SetIsInitialized true) w)))))))))).
  { unfold step. rewrite (ts_success_live props w wid g token Hm He Hn Hok).
    rewrite drain_no_waiters by exact Hwt.
    rewrite flush_changed; [|exact Hm|cbn; rewrite Hr; reflexivity].
    rewrite (cleanup_removes props _ g wid);
      [reflexivity|exact Hp|exact He|exact Hw|exact Ht|exact Hf]. }
  rewrite E1. clear E1.
  set (w1 := run_effect _).
  assert (M1 : mounted (comp w1) = true) by exact Hm.
  assert (W1 : widgetIdRef (comp w1) = None) by reflexivity.
  assert (T1 : timers (page w1)
               = filter (fun t => negb (Nat.eqb (tid t) g)) (timers (page w))
                 ++ [ {| tid := next_tid (page w); due := now (page w) + 100;
                         period := None; act := InitCaptcha true |} ]) by reflexivity.
  assert (L1 : effLive (comp w1) = Some (next_tid (page w))) by reflexivity.
  assert (X1 : trace w1
               = ((trace w ++ [SetIsInitialized true]) ++ [OnVerify token])
                 ++ [TurnstileRemove wid]) by reflexivity.
  assert (Wt1 : waiters (comp w1) = []) by reflexivity.
  assert (I1 : isInitialized (comp w1) = true) by reflexivity.
  assert (R1 : renderedInit (comp w1) = true) by reflexivity.
  assert (E2 : step props EvReset w1
               = run_effect
                   (set_page (clearTimer (next_tid (page w)) (page w1))
                      (upd_comp (set_effLive None)
                         (upd_comp (set_renderedInit false)
                            (upd_comp (set_waiters [])
                               (upd_comp (set_isInitialized false)
                                  (log (SetIsInitialized false) w1))))))).
  { unfold step. rewrite (reset_no_widget props w1 Hp Hs M1 W1).
    rewrite drain_no_waiters by exact Wt1.
    rewrite flush_changed; [|exact M1|symmetry; exact (f_equal negb R1)].
    rewrite (cleanup_no_widget props _ (next_tid (page w))); [reflexivity|exact L1|exact W1]. }
  rewrite E2. clear E2.
  split; [rewrite X1, <- !app_assoc; reflexivity|].
  split; [exact W1|]. split; [exact I1|].
  split; [rewrite T1, map_app; reflexivity|].
  split; [reflexivity|]. split; [exact W1|].
  cbn [run_effect setTimeout add_timer]. unfold set_page, clearTimer, set_timers.
  cbn [page timers set_next_tid set_timers fst snd upd_comp set_comp].
  rewrite T1, map_app, filter_app. cbn [filter tid]. rewrite Nat.eqb_refl.
  cbn [negb]. rewrite app_nil_r. reflexivity.
Qed.

Lemma verified_widget_is_removed_witness :
  let props := turnstile_props "site" Checkbox in
  let w := turnstile_rendered "site" Checkbox in
  widgetIdRef (comp w) = Some 0%nat
  /\ effLive (comp w) = Some 0%nat
  /\ widgetIdRef (comp (step props (EvTsSuccess 0 "token") w)) = None
  /\ since w (step props EvReset (step props (EvTsSuccess 0 "token") w))
     = [SetIsInitialized true; OnVerify "token"; TurnstileRemove 0; SetIsInitialized false].
Proof.
  cbv zeta.
  set (props := turnstile_props "site" Checkbox).
  set (w := turnstile_rendered "site" Checkbox).
  assert (Hp : provider props = CloudflareTurnstile) by reflexivity.
  assert (Hs : skip props = false) by reflexivity.
  assert (Hm : mounted (comp w) = true) by (vm_compute; reflexivity).
  assert (He : effLive (comp w) = Some 0%nat) by (vm_compute; reflexivity).
  assert (Hn : nth_error (widgets (comp w)) 0 = Some 0%nat) by (vm_compute; reflexivity).
  assert (Hw : widgetIdRef (comp w) = Some 0%nat) by (vm_compute; reflexivity).
  assert (Hi : isInitialized (comp w) = false) by (vm_compute; reflexivity).
  assert (Hr : renderedInit (comp w) = false) by (vm_compute; reflexivity).
  assert (Hwt : waiters (comp w) = []) by (vm_compute; reflexivity).
  assert (Ht : turnstile (window (page w)) = true) by (vm_compute; reflexivity).
  assert (Hf : faulty (window (page w)) = false) by (vm_compute; reflexivity).
  assert (Hok : onVerifyOk props "token" = true) by reflexivity.
  split; [exact Hw|]. split; [exact He|].
  destruct (verified_widget_is_removed props w 0 0 "token"
              Hp Hs Hm He Hn Hw Hi Hr Hwt Ht Hf Hok) as (T1 & W1 & _ & _ & T2 & _ & _).
  split; [exact W1|].
  unfold since. rewrite T2, T1, <- app_assoc, skipn_app, skipn_all, Nat.sub_diag.
  reflexivity.
Defined.

(** *** An instance with [skip] *)

Lemma repeat_snoc {A : Type} (x : A) n : repeat x n ++ [x] = repeat x (S n).
Proof. induction n as [|n IH]; [reflexivity|]. cbn. now rewrite IH. Qed.

Lemma skip_mount w0 : skip_inv (mount (fresh_page w0)).
Proof.
  unfold skip_inv. cbn. repeat split; try reflexivity.
  - exists 0%nat. split; [reflexivity|lia].
  - right. exists 0%nat, 100, false. repeat split.
Qed.

Ltac skip_finish n :=
  repeat split; try assumption; try reflexivity;
  try solve [ exists n; split; [assumption|cbn in *; lia] ];
  try solve [ left; reflexivity ];
  try solve [ right; eexists _, _, _; repeat split ].

Lemma skip_step props ev w :
  skip props = true -> skip_inv w -> skip_inv (step props ev w).
Proof.
  intros Hs (Hsc & Hpr & Hwd & Hwt & Hwi & Hr & Hh & (n & Hv & Hn) & Ht).
  destruct props as [p key a md th sk f]. cbn in Hs. subst sk.
  destruct w as [[t win ts nt prs scs gv cv] [m i r wi e ws wd] tr u].
  unfold skip_budget in Hn. cbn in Hsc, Hpr, Hwd, Hwt, Hwi, Hr, Hh, Hn, Ht. cbn [trace] in Hv.
  subst scs prs wd ws wi r.
  destruct Ht as [Ht | (g & d & c & Ht & He & Hm)]; [|cbn in He, Hm]; subst.
  - (* no timer is pending *)
    destruct ev; unfold step, skip_inv, skip_budget, handle, script_event, provider_settle;
      destruct m, i, e, p; cbn; rewrite ?nth_error_nil; cbn; skip_finish n.
  - (* the timer of the live closure is pending *)
    destruct ev; unfold step, skip_inv, skip_budget.
    all: try solve [ unfold handle, script_event, provider_settle;
                     destruct i, p; cbn; rewrite ?nth_error_nil; cbn; skip_finish n ].
    + (* the timer fires *)
      unfold handle, pop_timer, rearm. cbn. rewrite Nat.eqb_refl. cbn.
      unfold initCaptcha, onVerify, setIsInitialized. cbn.
      destruct (f "skipped"), i, p; cbn;
        rewrite ?forallb_app, ?Hh, ?verify_calls_app, ?Hv; cbn;
        rewrite ?app_nil_r, ?repeat_snoc;
        repeat split; try reflexivity.
      all: try solve [ exists (S n); split; [reflexivity|cbn in *; lia]
                     | left; reflexivity
                     | right; eexists _, _, _; repeat split ].
    + (* unmount *)
      unfold handle, unmount, cleanup, clearTimer. cbn. rewrite Nat.eqb_refl.
      destruct i, p; cbn; skip_finish n.
Qed.

Lemma skip_run props evs :
  skip props = true -> forall w, skip_inv w -> skip_inv (run props evs w).
Proof.
  intros Hs. induction evs as [|ev evs IH]; intros w Hw; [exact Hw|].
  cbn. apply IH, skip_step; assumption.
Qed.

(** X10. With [skip] the component never touches a provider, whatever
    happens after the mount (timers, time passing, changes of the globals,
    stray script, promise and widget events, [reset()] calls, the unmount):
    no script element is requested, no promise is created, no widget is
    rendered, nothing is written to the console and no provider function is
    called; [onVerify] is called with ["skipped"] only, and at most twice. *)
Theorem skip_never_touches_provider props w0 evs :
  skip props = true ->
  let w := run props evs (mount (fresh_page w0)) in
  scripts (page w) = []
  /\ promises (page w) = []
  /\ widgets (comp w) = []
  /\ forallb host_only (trace w) = true
  /\ exists n, (n <= 2)%nat /\ verify_calls (trace w) = repeat "skipped" n.
Proof.
  intros Hs. cbv zeta.
  destruct (skip_run props evs Hs _ (skip_mount w0))
    as (Hsc & Hpr & Hwd & _ & _ & _ & Hh & (n & Hv & Hn) & _).
  repeat split; try assumption. exists n. split; [lia|exact Hv].
Qed.

Lemma skip_never_touches_provider_witness :
  let props := skip_props CloudflareTurnstile "site" "login" Invisible Dark in
  let w := run props [EvTimer; EvReset; EvWindow api_loaded; EvTimer; EvTsSuccess 0 "t";
                      EvTimer; EvReset; EvUnmount; EvTimer]
             (mount (fresh_page no_api)) in
  skip props = true
  /\ scripts (page w) = []
  /\ forallb host_only (trace w) = true
  /\ verify_calls (trace w) = ["skipped"; "skipped"].
Proof.
  cbv zeta. split; [reflexivity|].
  destruct (skip_never_touches_provider
              (skip_props CloudflareTurnstile "site" "login" Invisible Dark) no_api
              [EvTimer; EvReset; EvWindow api_loaded; EvTimer; EvTsSuccess 0 "t";
               EvTimer; EvReset; EvUnmount; EvTimer] eq_refl)
    as (Hsc & _ & _ & Hh & _).
  split; [exact Hsc|]. split; [exact Hh|]. vm_compute. reflexivity.
Defined.

(** *** Unmounting before [initCaptcha] has started *)

Lemma just_mounted_mount w0 : just_mounted (mount (fresh_page w0)).
Proof. unfold just_mounted. cbn. repeat split. Qed.

Lemma just_mounted_step props ev w :
  before_first_timer ev = true -> just_mounted w -> just_mounted (step props ev w).
Proof.
  intros Hev (Hc & Ht & Hs & Hp & Htr & Hu).
  destruct w as [[t win ts nt prs scs gv cv] c tr u]. cbn in Hc, Ht, Hs, Hp, Htr, Hu.
  subst. destruct ev; try discriminate Hev;
    unfold just_mounted, step, handle, script_event, provider_settle;
    cbn; rewrite ?nth_error_nil; cbn; repeat split.
Qed.

Lemma just_mounted_unmount props w :
  just_mounted w -> inert (step props EvUnmount w).
Proof.
  intros (Hc & Ht & Hs & Hp & Htr & Hu).
  destruct w as [[t win ts nt prs scs gv cv] c tr u]. cbn in Hc, Ht, Hs, Hp, Htr, Hu.
  subst. unfold inert, step, handle, unmount, cleanup. cbn.
  destruct (provider props); cbn; repeat split.
Qed.

Lemma inert_step props ev w :
  host_reset ev = false -> inert w -> inert (step props ev w).
Proof.
  intros Hev (Hm & He & Hwt & Hwd & Ht & Hs & Hp & Htr & Hu).
  destruct w as [[t win ts nt prs scs gv cv] [m i r wi e ws wd] tr u].
  cbn in Hm, He, Hwt, Hwd, Ht, Hs, Hp, Htr, Hu. subst.
  destruct ev; try discriminate Hev;
    unfold inert, step, handle, script_event, provider_settle, unmount;
    cbn; rewrite ?nth_error_nil; cbn; repeat split.
Qed.

Lemma inert_run props evs : forall w,
  existsb host_reset evs = false -> inert w -> inert (run props evs w).
Proof.
  induction evs as [|ev evs IH]; intros w Hevs Hw; [exact Hw|].
  cbn [existsb] in Hevs. apply orb_false_iff in Hevs as [Hev Hevs].
  cbn. apply IH; [exact Hevs|]. apply inert_step; assumption.
Qed.

(** X11. An instance unmounted before its 100 ms timer has fired (React's
    mount, unmount, mount of a strict-mode development build, or a host that
    removes the component at once) leaves nothing behind, whatever the
    provider and the props: the cleanup clears the timer, so [initCaptcha]
    never starts.  Through the ref nothing can be called any more; as long
    as the host does not call [reset()] on a handle object it has kept, no
    script element is requested, no promise is created, no callback or
    provider function is called, nothing is written to the console and
    nothing is thrown, whatever else happens later. *)
Theorem early_unmount_leaves_nothing props w0 pre evs :
  forallb before_first_timer pre = true ->
  existsb host_reset evs = false ->
  let w := run props (pre ++ EvUnmount :: evs) (mount (fresh_page w0)) in
  (forall name, call_handle props name w = None)
  /\ trace w = [] /\ uncaught w = []
  /\ scripts (page w) = [] /\ promises (page w) = [] /\ timers (page w) = [].
Proof.
  intros Hpre Hevs. cbv zeta. rewrite run_app.
  assert (Hj : just_mounted (run props pre (mount (fresh_page w0)))).
  { generalize (just_mounted_mount w0). generalize (mount (fresh_page w0)).
    induction pre as [|ev pre IH]; intros w Hw; [exact Hw|].
    cbn in Hpre. apply andb_true_iff in Hpre. destruct Hpre as [Hev Hpre].
    cbn. apply IH; [exact Hpre|]. apply just_mounted_step; assumption. }
  change (run props (EvUnmount :: evs) ?x) with (run props evs (step props EvUnmount x)).
  destruct (inert_run props evs _ Hevs (just_mounted_unmount props _ Hj))
    as (Hm & _ & _ & _ & Ht & Hs & Hp & Htr & Hu).
  split; [|repeat split; assumption].
  intros name. unfold call_handle, ref_current. rewrite Hm. reflexivity.
Qed.

Lemma early_unmount_leaves_nothing_witness :
  let w := run (google_props "site" "login")
             ([EvAdvance 50; EvWindow api_loaded; EvAdvance 20]
              ++ EvUnmount :: [EvAdvance 100; EvTimer; EvScriptLoad 0; EvSettle 0 (Some "t");
                               EvTimer])
             (mount (fresh_page no_api)) in
  call_handle (google_props "site" "login") "reset" w = None
  /\ trace w = [] /\ scripts (page w) = [].
Proof.
  cbv zeta.
  destruct (early_unmount_leaves_nothing (google_props "site" "login") no_api
              [EvAdvance 50; EvWindow api_loaded; EvAdvance 20]
              [EvAdvance 100; EvTimer; EvScriptLoad 0; EvSettle 0 (Some "t"); EvTimer]
              eq_refl eq_refl)
    as (Hc & Htr & _ & Hs & _ & _).
  split; [apply Hc|]. split; [exact Htr|exact Hs].
Defined.
